(** * Resume-to-job relevance engine and job-search orchestrator

    A shallow embedding of [services/ats/textProcessor.js],
    [services/ats/skillMatcher.js], [services/ats/atsConfig.js],
    [services/ats/atsScorer.js], of the job-search controller
    ([searchJobs], [processJobSearch], [pollJobSearch]) and of [batchScore]
    of the ATS controller.

    Modelling conventions.
    - A JavaScript string is a [string]; its characters are taken in the ASCII
      range, where [toLowerCase], [trim], [\s], [\w] and [\b] are the
      functions written out below.
    - A JavaScript number is the rational [Q] that it denotes.  Arithmetic
      is exact, except where a branch is taken on a rounded product: the
      threshold of the experience check is rounded to binary64 as the code
      computes it ([double], [mul]).  [Math.round] is [floor (x + 1/2)].
    - A JavaScript [Set] is the list of its elements in insertion order,
      without repetition; [Array.from] of a set is that list.
    - A property that may be [undefined]/[null] is an [option].
    - The task registry [jobSearchTasks] (a [Map]) is a [gmap string Task]. *)

From stdpp Require Import gmap strings.
From Stdlib Require Import String Ascii List ZArith QArith Qround Qabs Qpower Lia
  Lqa Permutation Sorted Bool.
Import ListNotations.
Close Scope Q_scope.
Local Open Scope string_scope.
Local Open Scope list_scope.

(** ** JavaScript primitives *)

Module JS.

Definition code (c : ascii) : N := N_of_ascii c.

Definition between (lo hi : N) (c : ascii) : bool :=
  ((lo <=? code c) && (code c <=? hi))%N.

Definition is_upper : ascii -> bool := between 65 90.
Definition is_lower : ascii -> bool := between 97 122.
Definition is_digit : ascii -> bool := between 48 57.

(** [\s] and the characters removed by [trim]: TAB, LF, VT, FF, CR, SP. *)
Definition is_space (c : ascii) : bool :=
  between 9 13 c || (code c =? 32)%N.

(** [\w] is [[A-Za-z0-9_]]. *)
Definition is_word (c : ascii) : bool :=
  is_upper c || is_lower c || is_digit c || (code c =? 95)%N.

Definition lower_char (c : ascii) : ascii :=
  if is_upper c then ascii_of_N (code c + 32) else c.

Fixpoint toLowerCase (s : string) : string :=
  match s with
  | EmptyString => EmptyString
  | String c r => String (lower_char c) (toLowerCase r)
  end.

Fixpoint trimStart (s : string) : string :=
  match s with
  | EmptyString => EmptyString
  | String c r => if is_space c then trimStart r else s
  end.

Fixpoint trimEnd (s : string) : string :=
  match s with
  | EmptyString => EmptyString
  | String c r =>
      match trimEnd r with
      | EmptyString => if is_space c then EmptyString else String c EmptyString
      | r' => String c r'
      end
  end.

Definition trim (s : string) : string := trimEnd (trimStart s).

(** [s.includes(sub)] *)
Fixpoint includes (s sub : string) : bool :=
  String.prefix sub s ||
  match s with
  | EmptyString => false
  | String _ r => includes r sub
  end.

(** [s.split(sep)] for a one-character separator. *)
Fixpoint split (sep : ascii) (s : string) : list string :=
  match s with
  | EmptyString => [EmptyString]
  | String c r =>
      if Ascii.eqb c sep then EmptyString :: split sep r
      else match split sep r with
           | [] => [String c EmptyString]
           | w :: ws => String c w :: ws
           end
  end.

(** [arr.join(sep)] on an array of strings. *)
Definition join (sep : string) (l : list string) : string :=
  String.concat sep l.

(** Truthiness of a possibly absent string: present and non-empty. *)
Definition truthy (o : option string) : bool :=
  match o with
  | Some s => negb (String.eqb s "")
  | None => false
  end.

(** [a || b] on possibly absent strings. *)
Definition or_str (a b : option string) : option string :=
  if truthy a then a else b.

(** [a || ''] *)
Definition or_empty (a : option string) : string :=
  match a with
  | Some s => s
  | None => ""
  end.

(** [a || []] : an array, even an empty one, is truthy. *)
Definition or_nil {A} (a : option (list A)) : list A :=
  match a with
  | Some l => l
  | None => []
  end.

(** [Math.round] *)
Definition Math_round (x : Q) : Z := Qfloor (x + (1 # 2))%Q.

(** [Math.round(x * 100) / 100] *)
Definition round2 (x : Q) : Q :=
  (inject_Z (Math_round (x * 100)) / 100)%Q.

Definition of_nat (n : nat) : Q := inject_Z (Z.of_nat n).

Definition Qmin (a b : Q) : Q := if Qle_bool a b then a else b.
Definition Qmax (a b : Q) : Q := if Qle_bool a b then b else a.

(** a [<] on numbers, as a boolean *)
Definition Qlt_bool (a b : Q) : bool := negb (Qle_bool b a).

(** *** Doubles

    A decimal literal and the result of one arithmetic operation are the
    binary64 number nearest to their exact value, a tie going to the even
    significand.  The values are taken below the overflow threshold. *)

(** the integer nearest to [y], a tie going to the even one *)
Definition nearest_even (y : Q) : Z :=
  let f := Qfloor y in
  match ((y - inject_Z f) ?= (1 # 2))%Q with
  | Lt => f
  | Gt => (f + 1)%Z
  | Eq => if Z.even f then f else (f + 1)%Z
  end.

(** for [a > 0], the [e] with [2^e <= a < 2^(e+1)] *)
Definition exponent (a : Q) : Z :=
  let k := (Z.log2 (Qnum a) - Z.log2 (Z.pos (Qden a)))%Z in
  if Qlt_bool a (2 ^ k)%Q then (k - 1)%Z else k.

(** the unit in the last place of the double nearest to [a > 0]: 53 bits of
    significand, and no exponent below that of the subnormal numbers *)
Definition ulp (a : Q) : Q := (2 ^ Z.max (exponent a - 52) (-1074))%Q.

(** the double nearest to [x] *)
Definition double (x : Q) : Q :=
  if Qeq_bool x 0 then 0%Q
  else
    let a := Qabs x in
    let v := (inject_Z (nearest_even (a / ulp a)) * ulp a)%Q in
    if Qlt_bool x 0 then (- v)%Q else v.

(** [a * b] on doubles *)
Definition mul (a b : Q) : Q := double (a * b).

(** *** Sets as insertion-ordered lists *)
Section SetOps.
Context {A : Type} (eqb : A -> A -> bool).

Definition has (s : list A) (x : A) : bool := existsb (eqb x) s.

Definition add (s : list A) (x : A) : list A :=
  if has s x then s else s ++ [x].

(** [new Set(iterable)] *)
Definition from_list (l : list A) : list A := fold_left add l [].
End SetOps.

Definition str_has := has String.eqb.
Definition str_add := add String.eqb.
Definition str_set := from_list String.eqb.

(** Lookup of an own property of an object literal with string keys. *)
Fixpoint own {V} (obj : list (string * V)) (k : string) : option V :=
  match obj with
  | [] => None
  | (k', v) :: r => if String.eqb k k' then Some v else own r k
  end.

(** [obj[k]] on an object literal: an own property, or a member that the
    literal inherits from [Object.prototype] (a function, or the prototype
    itself under ["__proto__"]), or [undefined]. *)
Definition Object_prototype : list string := [
  "constructor"; "__defineGetter__"; "__defineSetter__"; "hasOwnProperty";
  "__lookupGetter__"; "__lookupSetter__"; "isPrototypeOf";
  "propertyIsEnumerable"; "toString"; "valueOf"; "__proto__";
  "toLocaleString"
].

Inductive prop (V : Type) : Type :=
| Own (v : V)
| Inherited (name : string)
| Undefined.
Arguments Own {V} v.
Arguments Inherited {V} name.
Arguments Undefined {V}.

Definition get {V} (obj : list (string * V)) (k : string) : prop V :=
  match own obj k with
  | Some v => Own v
  | None => if str_has Object_prototype k then Inherited k else Undefined
  end.

(** [String(o)] of an inherited member *)
Definition inherited_toString (name : string) : string :=
  if String.eqb name "__proto__" then "[object Object]"
  else if String.eqb name "constructor" then "function Object() { [native code] }"
  else "function " +:+ name +:+ "() { [native code] }".

(** A number that may be [NaN]. *)
Inductive num : Type :=
| Num (q : Q)
| NaN.

Definition num_round2 (x : num) : num :=
  match x with
  | Num q => Num (round2 q)
  | NaN => NaN
  end.

(** [x >= c] *)
Definition num_geb (x : num) (c : Q) : bool :=
  match x with
  | Num q => Qle_bool c q
  | NaN => false
  end.

(** [a || d] on a possibly absent number: [0] is falsy too. *)
Definition or_num (a : option Q) (d : Q) : Q :=
  match a with
  | Some q => if Qeq_bool q 0 then d else q
  | None => d
  end.

(** *** Printing numbers

    [String(x)] and [x.toFixed(0)].  [digits] prints a natural number in
    base ten; a number with a finite decimal expansion prints as that
    expansion, which is what JavaScript does for the decimal literals of a
    JSON document (up to 15 significant digits, magnitude from 1e-6 up to
    1e21). *)
Definition digit (n : N) : string :=
  String (ascii_of_N (48 + n)) EmptyString.

Fixpoint digits_aux (fuel : nat) (n : N) (acc : string) : string :=
  match fuel with
  | O => acc
  | S f =>
      let acc' := digit (n mod 10) +:+ acc in
      if (n / 10 =? 0)%N then acc' else digits_aux f (n / 10) acc'
  end.

Definition digits (n : N) : string :=
  digits_aux (S (N.to_nat (N.log2 n))) n "".

(** fractional digits of [r / d], [0 <= r < d], at most [fuel] of them *)
Fixpoint frac_digits (fuel : nat) (r d : N) : string :=
  match fuel with
  | O => ""
  | S f =>
      if (r =? 0)%N then ""
      else digit ((r * 10) / d) +:+ frac_digits f ((r * 10) mod d) d
  end.

Definition Number_toString (x : Q) : string :=
  let n := Z.abs_N (Qnum x) in
  let d := Npos (Qden x) in
  let sign := if (Qnum x <? 0)%Z then "-" else "" in
  let frac := frac_digits 17 (n mod d) d in
  sign +:+ digits (n / d) +:+
    (if String.eqb frac "" then "" else "." +:+ frac).

(** [x.toFixed(0)]: the sign, then the integer nearest to the magnitude,
    the larger one on a tie. *)
Definition toFixed0 (x : Q) : string :=
  let a := Qabs x in
  let n := Z.abs_N (Qfloor (a + (1 # 2))%Q) in
  (if Qlt_bool x 0 then "-" else "") +:+ digits n.

End JS.

(** ** textProcessor.js *)

Module TextProcessor.
Import JS.

(** The characters kept by [/[^a-z0-9\s\+\#\.]/g]. *)
Definition kept (c : ascii) : bool :=
  is_lower c || is_digit c || is_space c ||
  Ascii.eqb c "+" || Ascii.eqb c "#" || Ascii.eqb c ".".

Fixpoint blank_others (s : string) : string :=
  match s with
  | EmptyString => EmptyString
  | String c r => String (if kept c then c else " "%char) (blank_others r)
  end.

(** [replace(/\s+/g, ' ')]; [in_run] tells that the previous character
    belonged to the run of white space being replaced. *)
Fixpoint collapse (in_run : bool) (s : string) : string :=
  match s with
  | EmptyString => EmptyString
  | String c r =>
      if is_space c
      then if in_run then collapse true r else String " " (collapse true r)
      else String c (collapse false r)
  end.

Definition cleanText (text : string) : string :=
  if String.eqb text "" then ""
  else trim (collapse false (blank_others (toLowerCase text))).

Definition STOPWORDS : list string := [
  "the"; "a"; "an"; "and"; "or"; "but"; "in"; "on"; "at"; "to"; "for";
  "of"; "with"; "by"; "from"; "as"; "is"; "was"; "are"; "were"; "been";
  "be"; "have"; "has"; "had"; "do"; "does"; "did"; "will"; "would";
  "should"; "could"; "may"; "might"; "must"; "can"; "this"; "that";
  "these"; "those"; "i"; "you"; "he"; "she"; "it"; "we"; "they"; "what";
  "which"; "who"; "when"; "where"; "why"; "how"; "all"; "each"; "every";
  "both"; "few"; "more"; "most"; "other"; "some"; "such"; "no"; "not";
  "only"; "own"; "same"; "so"; "than"; "too"; "very"; "just"; "also";
  "now"; "here"; "there"; "then"; "once"; "any"; "about"; "into";
  "through"; "during"; "before"; "after"; "above"; "below"; "between";
  "under"; "again"; "further"; "while"; "our"; "your"; "their"; "its";
  "my"; "his"; "her"; "am"; "being"; "having"; "doing"; "work"; "working";
  "experience"; "using"; "used"; "including"; "include"; "includes"
].

Definition extractKeywordsMin (text : string) (minLength : nat) : list string :=
  if String.eqb text "" then []
  else
    let cleaned := cleanText text in
    let words := split " " cleaned in
    filter (fun word => (minLength <=? String.length word)%nat
                        && negb (str_has STOPWORDS word)) words.

(** [extractKeywords(text)] with the default [minLength = 2] *)
Definition extractKeywords (text : string) : list string :=
  extractKeywordsMin text 2.

(** number of elements of [s] that [t] has *)
Definition count_in (s t : list string) : nat :=
  List.length (filter (str_has t) s).

Definition calculateKeywordOverlap (text1 text2 : string) : Q :=
  let keywords1 := str_set (extractKeywords text1) in
  let keywords2 := str_set (extractKeywords text2) in
  if (List.length keywords2 =? 0)%nat then 0%Q
  else
    let overlap := count_in keywords2 keywords1 in
    (of_nat overlap / of_nat (List.length keywords2) * 100)%Q.

Definition calculateTextSimilarity (text1 text2 : string) : Q :=
  if String.eqb text1 "" || String.eqb text2 "" then 0%Q
  else
    let keywords1 := str_set (extractKeywords text1) in
    let keywords2 := str_set (extractKeywords text2) in
    if (List.length keywords1 =? 0)%nat || (List.length keywords2 =? 0)%nat
    then 0%Q
    else
      let intersection := count_in keywords1 keywords2 in
      let union := List.length (str_set (keywords1 ++ keywords2)) in
      if (0 <? union)%nat
      then (of_nat intersection / of_nat union * 100)%Q
      else 0%Q.

Definition SKILL_MAP : list (string * string) := [
  ("js", "javascript");
  ("ts", "typescript");
  ("py", "python");
  ("k8s", "kubernetes");
  ("aws", "amazon web services");
  ("gcp", "google cloud platform");
  ("ml", "machine learning");
  ("ai", "artificial intelligence");
  ("ci/cd", "continuous integration continuous deployment");
  ("api", "application programming interface")
].

(** The values a normalized skill can take: a string, or, [SKILL_MAP]
    being an object literal, a member inherited from [Object.prototype]
    (all of them truthy). *)
Inductive Skill : Type :=
| Str (s : string)
| Proto (name : string).

Definition skill_eqb (a b : Skill) : bool :=
  match a, b with
  | Str s, Str t => String.eqb s t
  | Proto s, Proto t => String.eqb s t
  | _, _ => false
  end.

Definition skill_toString (a : Skill) : string :=
  match a with
  | Str s => s
  | Proto name => inherited_toString name
  end.

(** [SKILL_MAP[normalized] || normalized] *)
Definition skill_map_get (normalized : string) : Skill :=
  match get SKILL_MAP normalized with
  | Own v => Str v
  | Inherited name => Proto name
  | Undefined => Str normalized
  end.

Definition normalizeSkill (skill : string) : Skill :=
  if String.eqb skill "" then Str ""
  else
    let normalized := trim (toLowerCase skill) in
    skill_map_get normalized.

(** *** extractTechnicalTerms

    The text is cut into maximal runs of [\w] characters and the single
    characters between them.  Every pattern starts with [\b\w], so a match
    starts at the first character of a run; its [\w+] takes the whole run,
    because the next pattern character is not a word character. *)
Inductive token : Type :=
| TWord (w : string)
| TSep (c : ascii).

Definition flush (cur : string) : list token :=
  if String.eqb cur "" then [] else [TWord cur].

Fixpoint tokenize_from (cur : string) (s : string) : list token :=
  match s with
  | EmptyString => flush cur
  | String c r =>
      if is_word c then tokenize_from (cur +:+ String c EmptyString) r
      else flush cur ++ TSep c :: tokenize_from "" r
  end.

Definition tokenize (s : string) : list token := tokenize_from "" s.

Fixpoint all_upper (s : string) : bool :=
  match s with
  | EmptyString => true
  | String c r => is_upper c && all_upper r
  end.

(** [/\b[A-Z]{2,}\b/g]: a run made of two or more capitals only. *)
Fixpoint acronyms (ts : list token) : list string :=
  match ts with
  | [] => []
  | TWord w :: r =>
      if all_upper w && (2 <=? String.length w)%nat
      then w :: acronyms r else acronyms r
  | TSep _ :: r => acronyms r
  end.

Definition is_chr (c d : ascii) : bool := Ascii.eqb c d.

(** [/\b\w+\.\w+\b/g]: run, dot, run; the scan resumes after the match. *)
Fixpoint versioned (ts : list token) : list string :=
  match ts with
  | [] => []
  | TWord a :: r =>
      match r with
      | TSep c :: TWord b :: r' =>
          if is_chr c "."
          then (a +:+ "." +:+ b) :: versioned r'
          else versioned r
      | _ => versioned r
      end
  | TSep _ :: r => versioned r
  end.

(** [/\b\w+\+\+\b/g]: the closing [\b] stands after a [+], so it asks for
    a word character right behind the two pluses. *)
Fixpoint cpp (ts : list token) : list string :=
  match ts with
  | [] => []
  | TWord a :: r =>
      match r with
      | TSep c1 :: TSep c2 :: TWord _ :: _ =>
          if is_chr c1 "+" && is_chr c2 "+"
          then (a +:+ "++") :: cpp r
          else cpp r
      | _ => cpp r
      end
  | TSep _ :: r => cpp r
  end.

(** [/\b\w+#\b/g]: likewise, a word character must follow the [#]. *)
Fixpoint csharp (ts : list token) : list string :=
  match ts with
  | [] => []
  | TWord a :: r =>
      match r with
      | TSep c :: TWord _ :: _ =>
          if is_chr c "#" then (a +:+ "#") :: csharp r else csharp r
      | _ => csharp r
      end
  | TSep _ :: r => csharp r
  end.

Definition extractTechnicalTerms (text : string) : list string :=
  if String.eqb text "" then []
  else
    let ts := tokenize text in
    str_set (map toLowerCase (acronyms ts ++ versioned ts ++ cpp ts ++ csharp ts)).

End TextProcessor.


(** ** skillMatcher.js *)

Module SkillMatcher.
Import JS TextProcessor.

Definition skillSynonyms : list (string * list string) := [
  ("javascript", ["js"; "ecmascript"; "node.js"; "nodejs"]);
  ("typescript", ["ts"]);
  ("python", ["py"]);
  ("kubernetes", ["k8s"]);
  ("docker", ["containerization"; "containers"]);
  ("aws", ["amazon web services"; "amazon cloud"]);
  ("gcp", ["google cloud platform"; "google cloud"]);
  ("azure", ["microsoft azure"]);
  ("postgresql", ["postgres"; "psql"]);
  ("mongodb", ["mongo"]);
  ("react", ["reactjs"; "react.js"]);
  ("angular", ["angularjs"; "angular.js"]);
  ("vue", ["vuejs"; "vue.js"]);
  ("machine learning", ["ml"; "deep learning"; "neural networks"]);
  ("artificial intelligence", ["ai"]);
  ("continuous integration", ["ci"; "ci/cd"]);
  ("continuous deployment", ["cd"; "ci/cd"]);
  ("node", ["nodejs"; "node.js"]);
  ("express", ["expressjs"; "express.js"]);
  ("next", ["nextjs"; "next.js"]);
  ("mysql", ["sql"]);
  ("sql server", ["mssql"]);
  ("restful", ["rest"; "rest api"]);
  ("graphql", ["gql"])
].

Definition techKeywords : list string := str_set [
  "python"; "java"; "javascript"; "typescript"; "c++"; "c#"; "c"; "ruby";
  "php"; "go"; "golang"; "rust"; "swift"; "kotlin"; "scala"; "perl"; "r";
  "matlab"; "julia"; "dart"; "elixir"; "haskell"; "clojure"; "objective-c";
  "groovy"; "lua"; "shell"; "bash"; "powershell"; "vba"; "cobol";
  "fortran"; "react"; "reactjs"; "react.js"; "angular"; "angularjs"; "vue";
  "vuejs"; "vue.js"; "svelte"; "next.js"; "nextjs"; "nuxt"; "gatsby";
  "ember"; "backbone"; "jquery"; "bootstrap"; "tailwind"; "material-ui";
  "mui"; "ant design"; "chakra ui"; "sass"; "scss"; "less";
  "styled-components"; "emotion"; "redux"; "mobx"; "recoil"; "zustand";
  "webpack"; "vite"; "rollup"; "parcel"; "babel"; "eslint"; "prettier";
  "jest"; "cypress"; "playwright"; "selenium"; "webdriver"; "storybook";
  "node"; "nodejs"; "node.js"; "express"; "expressjs"; "nestjs"; "fastify";
  "koa"; "django"; "flask"; "fastapi"; "pyramid"; "tornado"; "spring";
  "spring boot"; "springboot"; "hibernate"; "struts"; "jsf"; "play";
  "laravel"; "symfony"; "codeigniter"; "yii"; "rails"; "ruby on rails";
  "sinatra"; "asp.net"; ".net"; "dotnet"; ".net core"; "entity framework";
  "gin"; "echo"; "beego"; "fiber"; "actix"; "rocket"; "warp";
  "react native"; "flutter"; "ionic"; "xamarin"; "cordova"; "phonegap";
  "android"; "ios"; "swift ui"; "jetpack compose"; "kotlin multiplatform";
  "sql"; "mysql"; "postgresql"; "postgres"; "oracle"; "sql server";
  "mssql"; "sqlite"; "mariadb"; "db2"; "teradata"; "snowflake"; "redshift";
  "bigquery"; "aurora"; "cockroachdb"; "nosql"; "mongodb"; "cassandra";
  "couchdb"; "dynamodb"; "neo4j"; "redis"; "memcached"; "elasticsearch";
  "solr"; "firebase"; "firestore"; "realm"; "couchbase"; "hbase"; "riak";
  "aws"; "amazon web services"; "ec2"; "s3"; "lambda"; "cloudformation";
  "cloudfront"; "route53"; "rds"; "sqs"; "sns"; "kinesis"; "azure";
  "microsoft azure"; "azure devops"; "gcp"; "google cloud";
  "google cloud platform"; "heroku"; "digitalocean"; "linode"; "vultr";
  "cloudflare"; "vercel"; "netlify"; "render"; "docker"; "kubernetes";
  "k8s"; "openshift"; "rancher"; "helm"; "istio"; "jenkins"; "gitlab ci";
  "github actions"; "circleci"; "travis ci"; "teamcity"; "bamboo";
  "azure pipelines"; "argo cd"; "flux"; "spinnaker"; "terraform";
  "ansible"; "puppet"; "chef"; "saltstack"; "vagrant"; "packer"; "consul";
  "vault"; "prometheus"; "grafana"; "datadog"; "new relic"; "splunk";
  "elk stack"; "logstash"; "kibana"; "fluentd"; "git"; "github"; "gitlab";
  "bitbucket"; "svn"; "mercurial"; "perforce"; "git flow";
  "trunk based development"; "junit"; "testng"; "mockito"; "pytest";
  "unittest"; "nose"; "jest"; "mocha"; "jasmine"; "karma"; "protractor";
  "cucumber"; "behave"; "rspec"; "xunit"; "nunit"; "mstest"; "postman";
  "insomnia"; "jmeter"; "gatling"; "locust"; "k6"; "kafka"; "rabbitmq";
  "activemq"; "zeromq"; "nats"; "pulsar"; "mqtt"; "redis pub/sub";
  "amazon sqs"; "google pub/sub"; "azure service bus"; "rest"; "restful";
  "graphql"; "grpc"; "soap"; "websocket"; "http"; "https"; "tcp"; "udp";
  "oauth"; "jwt"; "saml"; "openid"; "microservices"; "monolith";
  "serverless"; "event driven"; "cqrs"; "event sourcing";
  "domain driven design"; "ddd"; "clean architecture";
  "hexagonal architecture"; "mvc"; "mvvm"; "mvp"; "soa"; "rest api";
  "machine learning"; "ml"; "deep learning"; "neural networks"; "cnn";
  "rnn"; "lstm"; "gru"; "transformer"; "bert"; "gpt"; "llm"; "nlp";
  "computer vision"; "opencv"; "tensorflow"; "pytorch"; "keras";
  "scikit-learn"; "sklearn"; "xgboost"; "lightgbm"; "catboost"; "pandas";
  "numpy"; "scipy"; "matplotlib"; "seaborn"; "plotly"; "hugging face";
  "langchain"; "llama"; "stable diffusion"; "yolo"; "hadoop"; "spark";
  "pyspark"; "hive"; "pig"; "sqoop"; "flume"; "airflow"; "luigi";
  "prefect"; "dagster"; "dbt"; "databricks"; "presto"; "trino"; "flink";
  "storm"; "samza"; "beam"; "dataflow"; "linux"; "unix"; "ubuntu";
  "centos"; "rhel"; "debian"; "fedora"; "windows"; "macos"; "vim"; "emacs";
  "vscode"; "intellij"; "eclipse"; "netbeans"; "pycharm"; "webstorm";
  "agile"; "scrum"; "kanban"; "lean"; "devops"; "ci/cd"; "tdd";
  "test driven development"; "bdd"; "behavior driven development";
  "pair programming"; "code review"; "solid"; "design patterns";
  "webscraping"; "web scraping"; "beautifulsoup"; "scrapy"; "nginx";
  "apache"; "tomcat"; "iis"; "load balancing"; "caching"; "cdn"; "oauth2";
  "authentication"; "authorization"; "encryption"; "ssl"; "tls"; "vpn";
  "api gateway"; "service mesh"; "etl"; "data warehouse"; "data lake";
  "olap"; "oltp"; "indexing"; "sharding"; "replication"; "partitioning";
  "normalization"
].

Definition skill_has := has skill_eqb.
Definition skill_add := add skill_eqb.
Definition skill_set := from_list skill_eqb.

(** [this.skillSynonyms[normSkill]]: a string is its own key and, as a
    result of [normalizeSkill], never names an inherited member; an
    inherited object converts to a key that names no property. *)
Definition synonymsOf (normSkill : Skill) : option (list string) :=
  match normSkill with
  | Str s => own skillSynonyms s
  | _ => None
  end.

(** one turn of the loop of [normalizeSkills] *)
Definition normalizeStep (normalized : list Skill) (skill : string) : list Skill :=
  if String.eqb skill "" then normalized
  else
    let normSkill := normalizeSkill skill in
    let normalized := skill_add normalized normSkill in
    match synonymsOf normSkill with
    | Some syns => fold_left (fun acc synonym => skill_add acc (Str synonym)) syns normalized
    | None => normalized
    end.

Definition normalizeSkills (skills : list string) : list Skill :=
  fold_left normalizeStep skills [].

Record Match : Type := {
  matched : list Skill;
  missing : list Skill;
  matchPct : Q
}.

(** one turn of the loop over [normJob] *)
Definition classify (normResume : list Skill) (acc : list Skill * list Skill)
    (skill : Skill) : list Skill * list Skill :=
  if skill_has normResume skill
  then (skill_add (fst acc) skill, snd acc)
  else (fst acc, skill_add (snd acc) skill).

(** a skill list that is present and has an element *)
Definition nonempty (skills : option (list string)) : Prop :=
  match skills with
  | Some (_ :: _) => True
  | _ => False
  end.

Definition matchSkillsWithSynonyms (resumeSkills jobSkills : option (list string)) : Match :=
  match resumeSkills, jobSkills with
  | Some ((_ :: _) as rs), Some ((_ :: _) as js) =>
      let normResume := normalizeSkills rs in
      let normJob := normalizeSkills js in
      let '(matched, missing) := fold_left (classify normResume) normJob ([], []) in
      let matchPct :=
        if (0 <? List.length normJob)%nat
        then (of_nat (List.length matched) / of_nat (List.length normJob))%Q
        else 0%Q in
      {| matched := matched; missing := missing; matchPct := matchPct |}
  | _, _ =>
      {| matched := [];
         missing := skill_set (map Str (or_nil jobSkills));
         matchPct := 0%Q |}
  end.

Record SkillAnalysis : Type := {
  matchedRequired : list Skill;
  matchedPreferred : list Skill;
  missingRequired : list Skill;
  missingPreferred : list Skill;
  requiredMatchPercentage : Q;
  preferredMatchPercentage : Q;
  overallSkillScore : Q;
  totalMatched : nat;
  totalMissing : nat
}.

Definition matchSkills (resumeSkills requiredSkills preferredSkills : option (list string))
    : SkillAnalysis :=
  let req := matchSkillsWithSynonyms resumeSkills requiredSkills in
  let pref := matchSkillsWithSynonyms resumeSkills preferredSkills in
  let requiredMatchPercentage := (matchPct req * 100)%Q in
  let preferredMatchPercentage := (matchPct pref * 100)%Q in
  let overallScore :=
    (requiredMatchPercentage * (7 # 10) + preferredMatchPercentage * (3 # 10))%Q in
  {| matchedRequired := matched req;
     matchedPreferred := matched pref;
     missingRequired := missing req;
     missingPreferred := missing pref;
     requiredMatchPercentage := round2 requiredMatchPercentage;
     preferredMatchPercentage := round2 preferredMatchPercentage;
     overallSkillScore := round2 overallScore;
     totalMatched := List.length (matched req) + List.length (matched pref);
     totalMissing := List.length (missing req) + List.length (missing pref) |}.

Definition extractSkillsFromText (text : string) : list string :=
  if String.eqb text "" then []
  else
    let technicalTerms := extractTechnicalTerms text in
    let keywords := extractKeywords text in
    let allTerms := str_set (technicalTerms ++ keywords) in
    filter (fun term => str_has techKeywords (toLowerCase term)) allTerms.

End SkillMatcher.

(** ** atsConfig.js *)

Module ATSConfig.
Import JS.

Record Weights : Type := {
  skills : Q;
  experience : Q;
  projects : Q;
  keywords : Q;
  summary : Q;
  education : Q
}.

Definition SOFTWARE_ENGINEER : Weights :=
  {| skills := 35 # 100; experience := 30 # 100; projects := 15 # 100;
     keywords := 10 # 100; summary := 5 # 100; education := 5 # 100 |}.

Definition FRESHER_INTERN : Weights :=
  {| skills := 30 # 100; projects := 25 # 100; education := 20 # 100;
     keywords := 10 # 100; summary := 10 # 100; experience := 5 # 100 |}.

Definition MANAGER_LEAD : Weights :=
  {| experience := 40 # 100; keywords := 20 # 100; skills := 20 # 100;
     summary := 10 # 100; education := 10 # 100; projects := 0 |}.

Definition DEFAULT : Weights :=
  {| skills := 35 # 100; experience := 30 # 100; projects := 15 # 100;
     keywords := 10 # 100; summary := 5 # 100; education := 5 # 100 |}.

Definition weightsMap : list (string * Weights) := [
  ("software_engineer", SOFTWARE_ENGINEER);
  ("developer", SOFTWARE_ENGINEER);
  ("engineer", SOFTWARE_ENGINEER);
  ("fresher", FRESHER_INTERN);
  ("intern", FRESHER_INTERN);
  ("entry_level", FRESHER_INTERN);
  ("manager", MANAGER_LEAD);
  ("lead", MANAGER_LEAD);
  ("senior", SOFTWARE_ENGINEER);
  ("default", DEFAULT)
].

(** The object the scorer reads its weights from: one with the six
    weights, or an inherited member of [weightsMap], which has none. *)
Inductive WeightsRef : Type :=
| WObject (w : Weights)
| WInherited (name : string).

(** [weightsMap[roleType?.toLowerCase()] || this.DEFAULT] *)
Definition getWeights (roleType : option string) : WeightsRef :=
  match roleType with
  | None => WObject DEFAULT
  | Some r =>
      match get weightsMap (toLowerCase r) with
      | Own w => WObject w
      | Inherited name => WInherited name
      | Undefined => WObject DEFAULT
      end
  end.

(** the literal [0.8] *)
Definition MIN_EXPERIENCE_MATCH_RATIO : Q := double (8 # 10).

Definition LOCATION_FLEXIBLE_KEYWORDS : list string :=
  ["remote"; "anywhere"; "flexible"; "hybrid"; "work from home"; "wfh"].

Definition WORK_AUTH_KEYWORDS : list string :=
  ["citizen"; "authorized"; "visa"; "green card";
   "work permit"; "eligible to work"; "authorized to work"].

Definition DEGREE_LEVELS : list (string * nat) := [
  ("high school", 1);
  ("diploma", 2);
  ("associate", 2);
  ("bachelor", 3);
  ("bachelors", 3);
  ("b.tech", 3);
  ("b.e", 3);
  ("bsc", 3);
  ("bca", 3);
  ("master", 4);
  ("masters", 4);
  ("m.tech", 4);
  ("msc", 4);
  ("mca", 4);
  ("mba", 4);
  ("phd", 5);
  ("doctorate", 5)
].

End ATSConfig.

(** ** atsScorer.js *)

Module ATSScorer.
Import JS TextProcessor SkillMatcher ATSConfig.

(** An education entry is a string or an object with a [degree]. *)
Inductive Education : Type :=
| EduText (s : string)
| EduRecord (degree : option string).

Record Resume : Type := {
  r_skills : option (list string);
  r_workExperience : option (list string);
  r_projects : option (list string);
  r_summary : option string;
  r_yearsOfExperience : option Q;
  r_highestDegree : option string;
  r_education : option (list Education);
  r_workAuthorization : option string;
  r_certifications : option (list string)
}.

Record Job : Type := {
  j_requiredSkills : option (list string);
  j_preferredSkills : option (list string);
  j_description : option string;
  j_jobDescription : option string;
  j_minExperience : option Q;
  j_maxExperience : option Q;
  j_requiredEducation : option string;
  j_roleType : option string
}.

(** [jobDescription.description || jobDescription.jobDescription || ''] *)
Definition jobText (job : Job) : string :=
  or_empty (or_str (or_str (j_description job) (j_jobDescription job)) (Some "")).

(** a template placeholder holding a possibly absent number or string *)
Definition show_num (a : option Q) : string :=
  match a with
  | Some q => Number_toString q
  | None => "undefined"
  end.

Definition show_str (a : option string) : string :=
  match a with
  | Some s => s
  | None => "undefined"
  end.

Record HardFilters : Type := {
  passed : bool;
  locationMatch : bool;
  workAuthorizationMatch : bool;
  experienceMatch : bool;
  educationMatch : bool;
  failureReasons : list string
}.

Definition _checkWorkAuthorization (resumeWorkAuth : option string)
    (jobDescriptionText : string) : bool :=
  let jobRequiresAuth :=
    existsb (fun keyword => includes (toLowerCase jobDescriptionText) keyword)
            WORK_AUTH_KEYWORDS in
  if negb jobRequiresAuth then true
  else if negb (truthy resumeWorkAuth) then false
  else existsb (fun keyword => includes (toLowerCase (or_empty resumeWorkAuth)) keyword)
               WORK_AUTH_KEYWORDS.

Definition _checkExperience (resumeExperience minRequired : Q)
    (maxRequired : option Q) : bool :=
  if Qle_bool minRequired 1 then true
  else
    let minThreshold := mul minRequired MIN_EXPERIENCE_MATCH_RATIO in
    if Qlt_bool resumeExperience minThreshold then false
    else true.

(** the level of the first degree name, in declaration order, that the
    text includes; [0] when there is none *)
Fixpoint firstLevel (table : list (string * nat)) (text : string) : nat :=
  match table with
  | [] => 0
  | (degree, level) :: r =>
      if includes text degree then level else firstLevel r text
  end.

(** [candidateLevel] after a pass over the whole table *)
Definition raiseLevel (text : string) (candidateLevel : nat) : nat :=
  fold_left (fun acc '(degree, level) =>
               if includes text degree then Nat.max acc level else acc)
            DEGREE_LEVELS candidateLevel.

Definition eduText (edu : Education) : string :=
  match edu with
  | EduText s => s
  | EduRecord degree => or_empty (or_str degree (Some ""))
  end.

Definition _checkEducation (highestDegree : option string)
    (educationList : list Education) (requiredEducation : option string) : bool :=
  if negb (truthy requiredEducation) then true
  else if negb (truthy highestDegree) && (List.length educationList =? 0)%nat then false
  else
    let reqLower := toLowerCase (or_empty requiredEducation) in
    let requiredLevel := firstLevel DEGREE_LEVELS reqLower in
    if (requiredLevel =? 0)%nat then true
    else
      let candidateLevel :=
        if truthy highestDegree
        then raiseLevel (toLowerCase (or_empty highestDegree)) 0
        else 0 in
      let candidateLevel :=
        fold_left (fun acc edu => raiseLevel (toLowerCase (eduText edu)) acc)
                  educationList candidateLevel in
      (requiredLevel <=? candidateLevel)%nat.

Definition _evaluateHardFilters (resume : Resume) (jobDescription : Job) : HardFilters :=
  let failureReasons := [] in
  let locationMatch := true in
  let workAuthMatch :=
    _checkWorkAuthorization (r_workAuthorization resume) (jobText jobDescription) in
  let failureReasons :=
    if negb workAuthMatch
    then failureReasons ++ ["Work authorization requirement not clearly stated"]
    else failureReasons in
  let experienceMatch :=
    _checkExperience (or_num (r_yearsOfExperience resume) 0)
                     (or_num (j_minExperience jobDescription) 0)
                     (j_maxExperience jobDescription) in
  let failureReasons :=
    if negb experienceMatch
    then failureReasons ++
           ["Experience requirement not met: Requires " +:+
            show_num (j_minExperience jobDescription) +:+
            "+ years, resume shows " +:+
            Number_toString (or_num (r_yearsOfExperience resume) 0) +:+ " years"]
    else failureReasons in
  let educationMatch :=
    _checkEducation (r_highestDegree resume) (or_nil (r_education resume))
                    (j_requiredEducation jobDescription) in
  let failureReasons :=
    if negb educationMatch
    then failureReasons ++
           ["Education requirement not met: " +:+
            show_str (j_requiredEducation jobDescription)]
    else failureReasons in
  let passed := locationMatch && workAuthMatch && experienceMatch && educationMatch in
  {| passed := passed;
     locationMatch := locationMatch;
     workAuthorizationMatch := workAuthMatch;
     experienceMatch := experienceMatch;
     educationMatch := educationMatch;
     failureReasons := failureReasons |}.

Definition _scoreSkills (resume : Resume) (jobDescription : Job) : Q :=
  let skillAnalysis :=
    matchSkills (Some (or_nil (r_skills resume)))
                (Some (or_nil (j_requiredSkills jobDescription)))
                (Some (or_nil (j_preferredSkills jobDescription))) in
  overallSkillScore skillAnalysis.

Definition _scoreExperience (resume : Resume) (jobDescription : Job) : Q :=
  let score := 0%Q in
  let minExp := Qmax (or_num (j_minExperience jobDescription) 1) 1 in
  let expRatio := (or_num (r_yearsOfExperience resume) 0 / minExp)%Q in
  let expScore := Qmin (expRatio * 100) 100 in
  let score := (score + expScore * (4 # 10))%Q in
  let combinedExperience := join " " (or_nil (r_workExperience resume)) in
  let jobDesc := jobText jobDescription in
  let relevance := calculateTextSimilarity combinedExperience jobDesc in
  let score := (score + relevance * (6 # 10))%Q in
  Qmin score 100.

Definition _scoreProjects (resume : Resume) (jobDescription : Job) : Q :=
  match r_projects resume with
  | None | Some [] => 0%Q
  | Some projects =>
      let combinedProjects := join " " projects in
      let jobDesc := jobText jobDescription in
      let relevance := calculateTextSimilarity combinedProjects jobDesc in
      let projectBonus := Qmin (of_nat (List.length projects) * 5) 20 in
      Qmin (relevance + projectBonus) 100
  end.

Definition _scoreKeywords (resume : Resume) (jobDescription : Job) : Q :=
  let resumeText :=
    join " " [ join " " (or_nil (r_skills resume));
               join " " (or_nil (r_workExperience resume));
               join " " (or_nil (r_projects resume));
               or_empty (r_summary resume) ] in
  let jobDesc := jobText jobDescription in
  let overlap := calculateKeywordOverlap resumeText jobDesc in
  Qmin overlap 100.

Definition _scoreSummary (resume : Resume) (jobDescription : Job) : Q :=
  if negb (truthy (r_summary resume)) then 50%Q
  else
    let jobDesc := jobText jobDescription in
    calculateTextSimilarity (or_empty (r_summary resume)) jobDesc.

(** [!resume.education]: an array, even an empty one, is truthy. *)
Definition absent {A} (a : option A) : bool :=
  match a with
  | Some _ => false
  | None => true
  end.

Definition _scoreEducation (resume : Resume) (jobDescription : Job) : Q :=
  if negb (truthy (j_requiredEducation jobDescription)) then 100%Q
  else if absent (r_education resume) && negb (truthy (r_highestDegree resume)) then 0%Q
  else if _checkEducation (r_highestDegree resume) (or_nil (r_education resume))
                          (j_requiredEducation jobDescription)
  then 100%Q
  else 50%Q.

Record RelevanceScore : Type := {
  skillsScore : Q;
  experienceScore : Q;
  projectsScore : Q;
  keywordsScore : Q;
  summaryScore : Q;
  educationScore : Q;
  weightedTotal : num;
  weightsUsed : WeightsRef
}.

(** The weighted total and the result object of
    [_calculateRelevanceScore], from the weights and the six scores.  A
    missing weight is [undefined] and makes the sum [NaN]. *)
Definition weigh (weights : WeightsRef)
    (skillsScore experienceScore projectsScore keywordsScore summaryScore
       educationScore : Q) : RelevanceScore :=
  let weightedTotal :=
    match weights with
    | WObject w =>
        Num (skillsScore * skills w +
             experienceScore * experience w +
             projectsScore * projects w +
             keywordsScore * keywords w +
             summaryScore * summary w +
             educationScore * education w)%Q
    | WInherited _ => NaN
    end in
  {| skillsScore := round2 skillsScore;
     experienceScore := round2 experienceScore;
     projectsScore := round2 projectsScore;
     keywordsScore := round2 keywordsScore;
     summaryScore := round2 summaryScore;
     educationScore := round2 educationScore;
     weightedTotal := num_round2 weightedTotal;
     weightsUsed := weights |}.

Definition _calculateRelevanceScore (resume : Resume) (jobDescription : Job)
    (customWeights : option Weights) : RelevanceScore :=
  let weights :=
    match customWeights with
    | Some w => WObject w
    | None => getWeights (j_roleType jobDescription)
    end in
  weigh weights
    (_scoreSkills resume jobDescription)
    (_scoreExperience resume jobDescription)
    (_scoreProjects resume jobDescription)
    (_scoreKeywords resume jobDescription)
    (_scoreSummary resume jobDescription)
    (_scoreEducation resume jobDescription).

Definition _generateFeedback (hardFilters : HardFilters)
    (relevanceScore : option RelevanceScore) (skillAnalysis : SkillAnalysis) : string :=
  if negb (passed hardFilters)
  then "Resume did not pass initial screening. Issues: " +:+
       join ", " (failureReasons hardFilters)
  else
    match relevanceScore with
    | None => "Unable to calculate relevance score."
    | Some relevanceScore =>
        let overallScore := weightedTotal relevanceScore in
        let feedback :=
          if num_geb overallScore 80 then "üéØ Excellent match! Your profile aligns very well with the job requirements. "
          else if num_geb overallScore 60 then "‚úÖ Good match! You meet most of the requirements with room for improvement. "
          else if num_geb overallScore 40 then "‚ö†Ô∏è Moderate match. Consider strengthening key areas to improve your chances. "
          else "‚ùå Limited match. Significant gaps exist between your profile and requirements. " in
        let feedback :=
          if Qlt_bool (skillsScore relevanceScore) 70
          then feedback +:+ "Your skills match score is " +:+
               toFixed0 (skillsScore relevanceScore) +:+ "%. "
          else feedback in
        let feedback :=
          if (0 <? totalMissing skillAnalysis)%nat
          then feedback +:+ "You're missing " +:+
               digits (N.of_nat (totalMissing skillAnalysis)) +:+
               " required/preferred skills. "
          else feedback in
        let feedback :=
          if Qlt_bool (experienceScore relevanceScore) 70
          then feedback +:+ "Consider highlighting more relevant experience. "
          else feedback in
        feedback
    end.

Definition _generateRecommendations (skillAnalysis : SkillAnalysis)
    (relevanceScore : option RelevanceScore) (resume : Resume)
    (jobDescription : Job) : list string :=
  let recommendations := [] in
  let hasMissing := (0 <? List.length (missingRequired skillAnalysis))%nat in
  let recommendations :=
    if hasMissing
    then
      let topMissing := firstn 3 (missingRequired skillAnalysis) in
      recommendations ++
        ["üéØ Acquire or highlight these critical skills: " +:+ join ", " (map skill_toString topMissing)]
    else recommendations in
  let recommendations :=
    match relevanceScore with
    | None => recommendations
    | Some relevanceScore =>
        let recommendations :=
          if Qlt_bool (experienceScore relevanceScore) 70
          then recommendations ++ ["üìù Emphasize experience more relevant to this role in your resume"]
          else recommendations in
        let recommendations :=
          if Qlt_bool (projectsScore relevanceScore) 50
             && negb (match j_roleType jobDescription with
                      | Some r => String.eqb r "manager"
                      | None => false
                      end)
          then recommendations ++ ["üíº Add relevant projects that demonstrate required skills"]
          else recommendations in
        let recommendations :=
          if Qlt_bool (keywordsScore relevanceScore) 60
          then recommendations ++ ["üîë Include more industry-specific keywords from the job description"]
          else recommendations in
        if negb (truthy (r_summary resume))
           || Qlt_bool (summaryScore relevanceScore) 50
        then recommendations ++ ["‚úçÔ∏è Write or improve your professional summary to align with this role"]
        else recommendations
    end in
  let recommendations :=
    if (List.length (or_nil (r_certifications resume)) =? 0)%nat && hasMissing
    then recommendations ++ ["üèÖ Consider getting certifications in missing skill areas"]
    else recommendations in
  firstn 5 recommendations.

Record AnalysisResult : Type := {
  hardFilters : HardFilters;
  relevanceScore : option RelevanceScore;
  overallMatchPercentage : num;
  matchedSkills : list Skill;
  missingSkills : list Skill;
  skillAnalysis : SkillAnalysis;
  feedback : string;
  recommendations : list string;
  analysisTimestamp : string;
  roleType : string
}.

(** [now] is what [new Date().toISOString()] returns during the call. *)
Definition analyze (now : string) (resume : Resume) (jobDescription : Job)
    (customWeights : option Weights) : AnalysisResult :=
  let hardFilters := _evaluateHardFilters resume jobDescription in
  let relevanceScore :=
    if passed hardFilters
    then Some (_calculateRelevanceScore resume jobDescription customWeights)
    else None in
  let overallMatch :=
    match relevanceScore with
    | Some rs => weightedTotal rs
    | None => Num 0
    end in
  let skillAnalysis :=
    matchSkills (Some (or_nil (r_skills resume)))
                (Some (or_nil (j_requiredSkills jobDescription)))
                (Some (or_nil (j_preferredSkills jobDescription))) in
  let matchedSkills := matchedRequired skillAnalysis in
  let missingSkills := missingRequired skillAnalysis in
  let feedback := _generateFeedback hardFilters relevanceScore skillAnalysis in
  let recommendations :=
    _generateRecommendations skillAnalysis relevanceScore resume jobDescription in
  {| hardFilters := hardFilters;
     relevanceScore := relevanceScore;
     overallMatchPercentage := num_round2 overallMatch;
     matchedSkills := matchedSkills;
     missingSkills := missingSkills;
     skillAnalysis := skillAnalysis;
     feedback := feedback;
     recommendations := recommendations;
     analysisTimestamp := now;
     roleType := or_empty (or_str (j_roleType jobDescription) (Some "default")) |}.

Record QuickScore : Type := {
  score : Q;
  q_matchedSkills : list Skill;
  q_missingSkills : list Skill;
  skillMatchPercentage : Q;
  keywordMatchPercentage : Q
}.

(** [job.requiredSkills || extractSkillsFromText(...)] *)
Definition quickJobSkills (job : Job) : list string :=
  match j_requiredSkills job with
  | Some l => l
  | None => extractSkillsFromText (jobText job)
  end.

(** the resume text of the quick keyword match *)
Definition quickResumeText (resume : Resume) : string :=
  let resumeSkills := or_nil (r_skills resume) in
  join " " [ join " " resumeSkills;
             join " " (or_nil (r_workExperience resume));
             or_empty (r_summary resume) ].

Definition quickScore (resume : Resume) (job : Job) : QuickScore :=
  let jobSkills := quickJobSkills job in
  let resumeSkills := or_nil (r_skills resume) in
  let skillAnalysis := matchSkills (Some resumeSkills) (Some jobSkills) (Some []) in
  let resumeText := quickResumeText resume in
  let jobDesc := jobText job in
  let keywordMatch := calculateKeywordOverlap resumeText jobDesc in
  let quickScore :=
    (overallSkillScore skillAnalysis * (6 # 10) + keywordMatch * (4 # 10))%Q in
  {| score := round2 quickScore;
     q_matchedSkills := matchedRequired skillAnalysis;
     q_missingSkills := missingRequired skillAnalysis;
     skillMatchPercentage := requiredMatchPercentage skillAnalysis;
     keywordMatchPercentage := round2 keywordMatch |}.

End ATSScorer.

(** ** The job-search controller *)

Module JobSearch.
Import JS.

Inductive Outcome (A : Type) : Type :=
| Returns (a : A)
| Throws (message : string).
Arguments Returns {A} a.
Arguments Throws {A} message.

(** A posting as the job provider hands it over. *)
Record JobPosting : Type := {
  jp_id : string;
  jp_title : string;
  jp_company : string;
  jp_description : string
}.

(** The resume document stored with the user (any truthy value); it is
    passed on to the ATS service as it is. *)
Record ResumeData : Type := { document : string }.

Record ResumeDetail : Type := {
  rd_id : string;
  rd_resumeName : string;
  rd_resumeData : option ResumeData   (* [None]: missing or falsy *)
}.

Record User : Type := {
  u_jobSearchLimit : option Q;
  u_resumeDetails : option (list ResumeDetail)
}.

(** [response.data] of the ATS service *)
Record AtsResponse : Type := {
  overall_match_percentage : option Q;
  matched_skills : option (list string);
  missing_skills : option (list string);
  ats_feedback : option string;
  ats_recommendations : option (list string);
  hard_filters : option string
}.

(** the [atsAnalysis] object stored with a scored job *)
Record AtsSummary : Type := {
  s_overall_match_percentage : option Q;
  s_matched_skills : list string;
  s_missing_skills : list string;
  s_feedback : string + list string;
  s_recommendations : list string;
  s_hard_filters : option string
}.

(** An element of [task.jobs]: a posting as fetched, or
    [{...job, atsScore, atsAnalysis}]. *)
Inductive JobEntry : Type :=
| Plain (job : JobPosting)
| Scored (job : JobPosting) (atsScore : option Q) (atsAnalysis : option AtsSummary).

Inductive Status : Type := searching | analyzing | completed | failed.

Record NoJobsMessage : Type := {
  nj_title : string;
  nj_message : string;
  nj_suggestions : list string;
  nj_wishMessage : string
}.

Record Task : Type := {
  t_status : Status;
  t_statusMessage : option string;
  t_progress : Z;
  t_totalJobs : nat;
  t_processedJobs : nat;
  t_jobs : list JobEntry;
  t_completed : bool;
  t_error : option string;
  t_atsAnalyzed : option bool;
  t_noJobsMessage : option NoJobsMessage;
  t_startedAt : N;
  t_userId : string
}.

(** The registry [jobSearchTasks], the pending [setTimeout] callbacks
    (each deletes one task id when its time has come) and the clock, in
    milliseconds. *)
Record World : Type := {
  tasks : gmap string Task;
  timers : list (N * string);
  clock : N
}.

(** the task that [searchJobs] registers before it answers *)
Definition newTask (userId : string) (startedAt : N) : Task :=
  {| t_status := searching; t_statusMessage := None; t_progress := 0;
     t_totalJobs := 0; t_processedJobs := 0; t_jobs := [];
     t_completed := false; t_error := None; t_atsAnalyzed := None;
     t_noJobsMessage := None; t_startedAt := startedAt; t_userId := userId |}.

Definition registerTask (taskId userId : string) (w : World) : World :=
  {| tasks := <[taskId := newTask userId (clock w)]> (tasks w);
     timers := timers w;
     clock := clock w |}.

(** *** Assignments to the fields of a task *)
Definition set_statusMessage (m : string) (t : Task) : Task :=
  {| t_status := t_status t; t_statusMessage := Some m; t_progress := t_progress t;
     t_totalJobs := t_totalJobs t; t_processedJobs := t_processedJobs t;
     t_jobs := t_jobs t; t_completed := t_completed t; t_error := t_error t;
     t_atsAnalyzed := t_atsAnalyzed t; t_noJobsMessage := t_noJobsMessage t;
     t_startedAt := t_startedAt t; t_userId := t_userId t |}.

(** [task.totalJobs = n; task.status = 'analyzing'] *)
Definition set_found (n : nat) (t : Task) : Task :=
  {| t_status := analyzing; t_statusMessage := t_statusMessage t;
     t_progress := t_progress t;
     t_totalJobs := n; t_processedJobs := t_processedJobs t;
     t_jobs := t_jobs t; t_completed := t_completed t; t_error := t_error t;
     t_atsAnalyzed := t_atsAnalyzed t; t_noJobsMessage := t_noJobsMessage t;
     t_startedAt := t_startedAt t; t_userId := t_userId t |}.

(** [task.jobs = jobs; task.processedJobs = n; task.progress = p] *)
Definition set_results (jobs : list JobEntry) (n : nat) (p : Z) (t : Task) : Task :=
  {| t_status := t_status t; t_statusMessage := t_statusMessage t;
     t_progress := p;
     t_totalJobs := t_totalJobs t; t_processedJobs := n;
     t_jobs := jobs; t_completed := t_completed t; t_error := t_error t;
     t_atsAnalyzed := t_atsAnalyzed t; t_noJobsMessage := t_noJobsMessage t;
     t_startedAt := t_startedAt t; t_userId := t_userId t |}.

(** [task.status = 'completed'; task.completed = true] *)
Definition set_completed (t : Task) : Task :=
  {| t_status := completed; t_statusMessage := t_statusMessage t;
     t_progress := t_progress t;
     t_totalJobs := t_totalJobs t; t_processedJobs := t_processedJobs t;
     t_jobs := t_jobs t; t_completed := true; t_error := t_error t;
     t_atsAnalyzed := t_atsAnalyzed t; t_noJobsMessage := t_noJobsMessage t;
     t_startedAt := t_startedAt t; t_userId := t_userId t |}.

Definition set_progress (p : Z) (t : Task) : Task :=
  set_results (t_jobs t) (t_processedJobs t) p t.

Definition set_jobs (jobs : list JobEntry) (t : Task) : Task :=
  set_results jobs (t_processedJobs t) (t_progress t) t.

Definition set_atsAnalyzed (b : bool) (t : Task) : Task :=
  {| t_status := t_status t; t_statusMessage := t_statusMessage t;
     t_progress := t_progress t;
     t_totalJobs := t_totalJobs t; t_processedJobs := t_processedJobs t;
     t_jobs := t_jobs t; t_completed := t_completed t; t_error := t_error t;
     t_atsAnalyzed := Some b; t_noJobsMessage := t_noJobsMessage t;
     t_startedAt := t_startedAt t; t_userId := t_userId t |}.

Definition set_noJobsMessage (m : NoJobsMessage) (t : Task) : Task :=
  {| t_status := t_status t; t_statusMessage := t_statusMessage t;
     t_progress := t_progress t;
     t_totalJobs := t_totalJobs t; t_processedJobs := t_processedJobs t;
     t_jobs := t_jobs t; t_completed := t_completed t; t_error := t_error t;
     t_atsAnalyzed := t_atsAnalyzed t; t_noJobsMessage := Some m;
     t_startedAt := t_startedAt t; t_userId := t_userId t |}.

(** the [catch] of [processJobSearch] *)
Definition set_failed (message : string) (t : Task) : Task :=
  {| t_status := failed; t_statusMessage := t_statusMessage t;
     t_progress := t_progress t;
     t_totalJobs := t_totalJobs t; t_processedJobs := t_processedJobs t;
     t_jobs := t_jobs t; t_completed := true; t_error := Some message;
     t_atsAnalyzed := t_atsAnalyzed t; t_noJobsMessage := t_noJobsMessage t;
     t_startedAt := t_startedAt t; t_userId := t_userId t |}.

Definition dquote : string := String "034"%char EmptyString.

Definition noJobsMessage (keyword searchLocation : string) (company : option string)
    (remainingSearches : Q) : NoJobsMessage :=
  {| nj_title := "No Job Vacancies Found";
     nj_message :=
       if truthy company
       then "Unfortunately, there are no current openings for " +:+ dquote +:+
            keyword +:+ dquote +:+ " at " +:+ or_empty company +:+ " in " +:+
            searchLocation +:+ "."
       else "Unfortunately, there are no current openings for " +:+ dquote +:+
            keyword +:+ dquote +:+ " in " +:+ searchLocation +:+ ".";
     nj_suggestions :=
       [ "🔄 Try a general search instead of company-specific search for better results";
         "📍 Consider expanding your location or trying " +:+ dquote +:+ "remote" +:+ dquote +:+ " option";
         "🎯 Use different keywords or job titles";
         "⚠️ Your search limit has been reduced to " +:+ Number_toString remainingSearches +:+ "/3 - avoid unnecessary searches" ];
     nj_wishMessage :=
       "Best wishes for your job search! Try again with different criteria." |}.

(** [arr.slice(i, j)] for [i <= j] *)
Definition slice {A} (i j : nat) (l : list A) : list A :=
  firstn (j - i) (skipn i l).

Definition batchSize : nat := 3.
Definition maxJobs : nat := 20.
Definition retention : N := 5 * 60 * 1000.

(** [a.atsScore || 0] *)
Definition sortKey (e : JobEntry) : Q :=
  match e with
  | Plain _ => 0%Q
  | Scored _ atsScore _ => or_num atsScore 0
  end.

(** [task.jobs.sort((a, b) => scoreB - scoreA)]: the sort is stable, so
    the result is the one of a stable insertion by descending score. *)
Fixpoint insertByScore (x : JobEntry) (l : list JobEntry) : list JobEntry :=
  match l with
  | [] => [x]
  | y :: r =>
      if Qle_bool (sortKey y) (sortKey x) then x :: y :: r
      else y :: insertByScore x r
  end.

Definition sortByScore (l : list JobEntry) : list JobEntry :=
  fold_right insertByScore [] l.

Section Collaborators.

(** [jSearchService.searchJobs(keyword, location, experience, 1, 1,
    company, platform)] *)
Variable searchJobs :
  string -> string -> Q -> option string -> option string ->
  Outcome (list JobPosting).

(** [User.findById(userId)] *)
Variable findById : string -> Outcome (option User).

(** [axios.post(ATS_API_URL + '/analyze', atsRequest, ...)], where the
    request is built from the resume, the posting and the weights; an
    exception while building the request counts as [Throws]. *)
Variable post :
  ResumeData -> JobPosting -> option ATSConfig.Weights ->
  Outcome (option AtsResponse).

(** [analyzeJobWithATS]: every failure is caught and answered by
    [null]. *)
Definition analyzeJobWithATS (resumeData : ResumeData) (jobData : JobPosting)
    (customWeights : option ATSConfig.Weights) : Outcome (option AtsResponse) :=
  match post resumeData jobData customWeights with
  | Returns data => Returns data
  | Throws _ => Returns None
  end.

Definition summarize (a : AtsResponse) : AtsSummary :=
  {| s_overall_match_percentage := overall_match_percentage a;
     s_matched_skills := or_nil (matched_skills a);
     s_missing_skills := or_nil (missing_skills a);
     s_feedback := if truthy (ats_feedback a)
                   then inl (or_empty (ats_feedback a)) else inr [];
     s_recommendations := or_nil (ats_recommendations a);
     s_hard_filters := hard_filters a |}.

(** the callback mapped over a batch, with its [try]/[catch] *)
Definition scoreJob (resumeData : ResumeData)
    (atsWeights : option ATSConfig.Weights) (job : JobPosting) : JobEntry :=
  match analyzeJobWithATS resumeData job atsWeights with
  | Returns (Some atsAnalysis) =>
      Scored job (overall_match_percentage atsAnalysis) (Some (summarize atsAnalysis))
  | Returns None => Scored job None None
  | Throws _ => Scored job None None
  end.

(** The loop [for (let i = 0; i < jobsToAnalyze.length; i += batchSize)],
    entered at index [i]; every turn consumes one unit of [fuel]. *)
Fixpoint batches (fuel : nat) (resumeData : ResumeData)
    (atsWeights : option ATSConfig.Weights) (jobsToAnalyze : list JobPosting)
    (i : nat) (task : Task) : Task :=
  match fuel with
  | O => task
  | S fuel' =>
      if (i <? List.length jobsToAnalyze)%nat
      then
        let batch := slice i (i + batchSize) jobsToAnalyze in
        let analyzedBatch := map (scoreJob resumeData atsWeights) batch in
        let jobs := t_jobs task ++ analyzedBatch in
        let processed := List.length jobs in
        let progress :=
          Math_round (of_nat processed / of_nat (List.length jobsToAnalyze) * 100)%Q in
        batches fuel' resumeData atsWeights jobsToAnalyze (i + batchSize)
                (set_results jobs processed progress task)
      else task
  end.

(** [user?.resumeDetails?.find(r => r._id.toString() === resumeId)] *)
Definition findResume (user : option User) (resumeId : string) : option ResumeDetail :=
  match user with
  | Some u => find (fun r => String.eqb (rd_id r) resumeId) (or_nil (u_resumeDetails u))
  | None => None
  end.

(** [task.jobs = allJobs; ...; task.atsAnalyzed = false; return] *)
Definition finishWithoutATS (allJobs : list JobPosting) (task : Task) : Task :=
  set_atsAnalyzed false
    (set_completed
       (set_results (map Plain allJobs) (List.length allJobs) 100 task)).

(** The body of the [try] of [processJobSearch] with its [catch]: the
    task as it is last written, and whether the clean-up timer was set.
    The quota update has a [try]/[catch] of its own and does not touch
    the task; a missing resume ends the run like a missing [resumeId]. *)
Definition runTask (userId keyword searchLocation : string)
    (experienceLevel : option Q) (resumeId : option string)
    (atsWeights : option ATSConfig.Weights) (company platform : option string)
    (task : Task) : Task * bool :=
  let task := set_statusMessage "Searching jobs via JSearch API..." task in
  match searchJobs keyword searchLocation (or_num experienceLevel 0) company platform with
  | Throws message => (set_failed message task, false)
  | Returns allJobs =>
      let n := List.length allJobs in
      let task := set_found n task in
      let task :=
        set_statusMessage ("Found " +:+ digits (N.of_nat n) +:+ " jobs") task in
      if (n =? 0)%nat
      then
        match findById userId with
        | Throws message => (set_failed message task, false)
        | Returns user =>
            let remainingSearches :=
              match user with
              | Some u => or_num (u_jobSearchLimit u) 0
              | None => 0%Q
              end in
            let task := set_results [] 0 100 task in
            let task := set_completed task in
            (set_noJobsMessage
               (noJobsMessage keyword searchLocation company remainingSearches) task,
             false)
        end
      else if negb (truthy resumeId)
      then (finishWithoutATS allJobs task, false)
      else
        match findById userId with
        | Throws message => (set_failed message task, false)
        | Returns user =>
            match findResume user (or_empty resumeId) with
            | Some {| rd_resumeData := Some resumeData |} =>
                let jobsToAnalyze := slice 0 maxJobs allJobs in
                let task :=
                  batches (List.length jobsToAnalyze) resumeData atsWeights
                          jobsToAnalyze 0 task in
                let task := set_jobs (sortByScore (t_jobs task)) task in
                let task := set_completed task in
                let task := set_progress 100 task in
                (set_atsAnalyzed true task, true)
            | _ => (finishWithoutATS allJobs task, false)
            end
        end
  end.

(** [processJobSearch]: without a task under [taskId] the first
    assignment throws and the [catch] finds nothing to mark. *)
Definition processJobSearch (taskId userId keyword searchLocation : string)
    (experienceLevel : option Q) (resumeId : option string)
    (atsWeights : option ATSConfig.Weights) (company platform : option string)
    (w : World) : World :=
  match tasks w !! taskId with
  | None => w
  | Some task =>
      let '(task', cleanup) :=
        runTask userId keyword searchLocation experienceLevel resumeId
                atsWeights company platform task in
      {| tasks := <[taskId := task']> (tasks w);
         timers := if cleanup
                   then timers w ++ [((clock w + retention)%N, taskId)]
                   else timers w;
         clock := clock w |}
  end.

End Collaborators.

(** *** Time and polling *)

(** [dt] milliseconds pass: the callbacks that are due run, in the order
    in which they were set. *)
Definition advance (dt : N) (w : World) : World :=
  let now := (clock w + dt)%N in
  let due := filter (fun tm => (fst tm <=? now)%N) (timers w) in
  {| tasks := fold_left (fun m tm => delete (snd tm) m) due (tasks w);
     timers := filter (fun tm => negb (fst tm <=? now)%N) (timers w);
     clock := now |}.

Record PollBody : Type := {
  p_status : Status;
  p_statusMessage : string;
  p_progress : Z;
  p_totalJobs : nat;
  p_processedJobs : nat;
  p_completed : bool;
  p_jobs : list JobEntry;
  p_atsAnalyzed : bool;
  p_noJobsMessage : option NoJobsMessage;
  p_error : option string
}.

Inductive PollResponse : Type :=
| Ok200 (body : PollBody)
| NotFound404 (message : string).

Definition pollJobSearch (taskId : string) (w : World) : PollResponse :=
  match tasks w !! taskId with
  | None => NotFound404 "Task not found or expired"
  | Some task =>
      let clientStatus :=
        match t_status task with
        | analyzing => searching
        | st => st
        end in
      Ok200 {| p_status := clientStatus;
               p_statusMessage := or_empty (or_str (t_statusMessage task) (Some ""));
               p_progress := t_progress task;
               p_totalJobs := t_totalJobs task;
               p_processedJobs := t_processedJobs task;
               p_completed := t_completed task;
               p_jobs := t_jobs task;
               p_atsAnalyzed := match t_atsAnalyzed task with
                                | Some b => b
                                | None => false
                                end;
               p_noJobsMessage := t_noJobsMessage task;
               p_error := t_error task |}
  end.

End JobSearch.

(** ** Vocabulary of the statements *)

Module Spec.
Import JS TextProcessor SkillMatcher ATSConfig ATSScorer.

(** a percentage *)
Definition percent (x : Q) : Prop := (0 <= x /\ x <= 100)%Q.

Definition num_percent (x : num) : Prop :=
  match x with
  | Num q => percent q
  | NaN => False
  end.

Definition weights_sum (w : Weights) : Q :=
  (skills w + experience w + projects w + keywords w + summary w + education w)%Q.

Definition weights_nonneg (w : Weights) : Prop :=
  (0 <= skills w /\ 0 <= experience w /\ 0 <= projects w /\
   0 <= keywords w /\ 0 <= summary w /\ 0 <= education w)%Q.



(** *** Sample inputs *)

Definition emptyResume : Resume :=
  {| r_skills := None; r_workExperience := None; r_projects := None;
     r_summary := None; r_yearsOfExperience := None; r_highestDegree := None;
     r_education := None; r_workAuthorization := None; r_certifications := None |}.

Definition emptyJob : Job :=
  {| j_requiredSkills := None; j_preferredSkills := None; j_description := None;
     j_jobDescription := None; j_minExperience := None; j_maxExperience := None;
     j_requiredEducation := None; j_roleType := None |}.

(** a resume with five years of experience and one skill *)
Definition pythonResume (years : option Q) : Resume :=
  {| r_skills := Some ["python"]; r_workExperience := None; r_projects := None;
     r_summary := None; r_yearsOfExperience := years; r_highestDegree := None;
     r_education := None; r_workAuthorization := None; r_certifications := None |}.

(** a resume that states 2.4 years of experience *)
Definition thresholdResume : Resume := pythonResume (Some (double (24 # 10))).

(** a job asking for python and a minimum experience *)
Definition pythonJob (minExperience : option Q) : Job :=
  {| j_requiredSkills := Some ["python"]; j_preferredSkills := None;
     j_description := Some "python java golang"; j_jobDescription := None;
     j_minExperience := minExperience; j_maxExperience := None;
     j_requiredEducation := None; j_roleType := None |}.



(** custom weights that sum to one, one of them negative *)
Definition skewedWeights : Weights :=
  {| skills := 2; experience := -1; projects := 0; keywords := 0;
     summary := 0; education := 0 |}.

(** The education score in the words of the specification: 100 without a
    required education; 0 for a candidate with neither education entries
    nor a highest degree; 100 when the education check of stage 1 passes;
    50 otherwise. *)
Definition educationScoreSpec (resume : Resume) (job : Job) : Q :=
  if negb (truthy (j_requiredEducation job)) then 100%Q
  else if (List.length (or_nil (r_education resume)) =? 0)%nat
          && negb (truthy (r_highestDegree resume))
  then 0%Q
  else if _checkEducation (r_highestDegree resume) (or_nil (r_education resume))
                          (j_requiredEducation job)
  then 100%Q
  else 50%Q.


(** a resume with an empty education list and no highest degree *)
Definition noEducationResume : Resume :=
  {| r_skills := Some ["python"]; r_workExperience := None; r_projects := None;
     r_summary := None; r_yearsOfExperience := Some 5%Q; r_highestDegree := None;
     r_education := Some []; r_workAuthorization := None; r_certifications := None |}.

Definition bachelorJob : Job :=
  {| j_requiredSkills := Some ["python"]; j_preferredSkills := None;
     j_description := Some "python java golang"; j_jobDescription := None;
     j_minExperience := None; j_maxExperience := None;
     j_requiredEducation := Some "Bachelor degree in Computer Science";
     j_roleType := None |}.

(** *** A sample search *)

Import JobSearch.

Definition posting (id title : string) : JobPosting :=
  {| jp_id := id; jp_title := title; jp_company := "Acme";
     jp_description := "python java golang" |}.

Definition fiveJobs : list JobPosting :=
  [ posting "job-1" "Backend Engineer"; posting "job-2" "Data Engineer";
    posting "job-3" "Frontend Engineer"; posting "job-4" "Site Reliability Engineer";
    posting "job-5" "Engineering Manager" ].

Definition providerFinds (found : list JobPosting)
    (keyword location : string) (experience : Q) (company platform : option string)
    : Outcome (list JobPosting) :=
  Returns found.

Definition providerDown
    (keyword location : string) (experience : Q) (company platform : option string)
    : Outcome (list JobPosting) :=
  Throws "JSearch API authentication failed".

Definition storedUser : User :=
  {| u_jobSearchLimit := Some 2%Q;
     u_resumeDetails :=
       Some [ {| rd_id := "resume-1"; rd_resumeName := "main";
                 rd_resumeData := Some {| document := "python developer" |} |} ] |}.

Definition userFound (userId : string) : Outcome (option User) :=
  Returns (Some storedUser).

Definition response (pct : Q) : AtsResponse :=
  {| overall_match_percentage := Some pct;
     matched_skills := Some ["python"];
     missing_skills := Some ["java"; "golang"];
     ats_feedback := Some "Moderate match.";
     ats_recommendations := None;
     hard_filters := None |}.

(** the ATS service times out on the second posting *)
Definition failsOnSecond (resumeData : ResumeData) (job : JobPosting)
    (customWeights : option Weights) : Outcome (option AtsResponse) :=
  if String.eqb (jp_id job) "job-2" then Throws "timeout of 30000ms exceeded"
  else if String.eqb (jp_id job) "job-4" then Returns (Some (response 80))
  else Returns (Some (response 55)).

(** the registry right after [searchJobs] has answered *)
Definition started : World :=
  registerTask "task-1" "user-1" {| tasks := ∅; timers := []; clock := 0 |}.

Definition runSearch (provider : string -> string -> Q -> option string ->
                                 option string -> Outcome (list JobPosting))
    (resumeId : option string) : World :=
  processJobSearch provider userFound failsOnSecond
    "task-1" "user-1" "python developer" "India" None resumeId None None None
    started.

End Spec.

(** ** The job-search controller: helpers and the request handler *)

Module SearchController.
Import JS ATSConfig JobSearch.

Definition commonSkills : list string := [
  "JavaScript"; "TypeScript"; "Python"; "Java"; "React"; "Node.js"; "Angular";
  "Vue"; "Docker"; "Kubernetes"; "AWS"; "Azure"; "GCP"; "MongoDB"; "PostgreSQL";
  "MySQL"; "REST"; "GraphQL"; "Git"; "CI/CD"; "Agile"; "Scrum"
].

Definition extractSkillsFromDescription (description : option string) : list string :=
  if negb (truthy description) then []
  else
    let descLower := toLowerCase (or_empty description) in
    filter (fun skill => includes descLower (toLowerCase skill)) commonSkills.

(** the number written by the digits at the head of [s], after [acc] *)
Fixpoint digitsValue (acc : N) (s : string) : N :=
  match s with
  | EmptyString => acc
  | String c r =>
      if is_digit c then digitsValue (acc * 10 + (code c - 48)) r else acc
  end.

(** [s.match(/(\d+)/)]: the leftmost run of digits, read as a number *)
Fixpoint firstNumber (s : string) : option N :=
  match s with
  | EmptyString => None
  | String c r => if is_digit c then Some (digitsValue 0 s) else firstNumber r
  end.

Definition parseExperience (expStr : option string) : N :=
  if negb (truthy expStr) then 0%N
  else match firstNumber (or_empty expStr) with
       | Some n => n
       | None => 0%N
       end.

Definition determineRoleType (title experience : option string) : string :=
  let titleLower := toLowerCase (or_empty (or_str title (Some ""))) in
  let expYears := parseExperience experience in
  if includes titleLower "intern" then "intern"
  else if (expYears =? 0)%N || includes titleLower "fresher" || includes titleLower "junior"
  then "fresher"
  else if includes titleLower "manager" || (8 <? expYears)%N then "manager"
  else if includes titleLower "lead" || includes titleLower "senior" || (5 <? expYears)%N
  then "lead"
  else "software_engineer".

(** What [searchJobs] reads of the request: [req.user?.userId ||
    req.user?.id] and the fields of the body. *)
Record SearchRequest : Type := {
  q_userId : option string;
  q_role : option string;
  q_designation : option string;
  q_experienceLevel : option Q;
  q_location : option string;
  q_resumeId : option string;
  q_atsWeights : option Weights;
  q_company : option string;
  q_platform : option string
}.

(** The answer: 202 with the task id, or a refusal with its status and
    message and, where the body has them, [searchLimit] and [error]. *)
Inductive SearchResponse : Type :=
| Accepted202 (taskId pollUrl : string) (searchLimit : Q)
| Rejected (status : nat) (message : string) (searchLimit : option Q)
           (error : option string).

(** the arguments of the background call of [processJobSearch] *)
Record Background : Type := {
  bg_taskId : string;
  bg_userId : string;
  bg_keyword : string;
  bg_searchLocation : string;
  bg_experienceLevel : option Q;
  bg_resumeId : option string;
  bg_atsWeights : option Weights;
  bg_company : option string;
  bg_platform : option string
}.

(** [x || null] *)
Definition or_null (a : option string) : option string :=
  if truthy a then a else None.

Section Handler.

(** [User.findById(userId)] *)
Variable findById : string -> Outcome (option User).

(** [user.save()], for a user whose quota was just initialised *)
Variable save : User -> Outcome unit.

(** [uuidv4()] *)
Variable uuid : string.

(** The handler of [POST /api/jobs/search]: the response, the registry
    after it, and the background call it has started, if any. *)
Definition searchJobs (req : SearchRequest) (w : World)
    : SearchResponse * World * option Background :=
  if negb (truthy (q_userId req))
  then (Rejected 401 "User authentication required" None None, w, None)
  else
    let userId := or_empty (q_userId req) in
    match findById userId with
    | Throws error =>
        (Rejected 500 "Failed to start job search" None (Some error), w, None)
    | Returns None => (Rejected 404 "User not found" None None, w, None)
    | Returns (Some user) =>
        let initialised :=
          match u_jobSearchLimit user with
          | Some limit => Returns limit
          | None =>
              match save {| u_jobSearchLimit := Some 3%Q;
                            u_resumeDetails := u_resumeDetails user |} with
              | Returns _ => Returns 3%Q
              | Throws message => Throws message
              end
          end in
        match initialised with
        | Throws error =>
            (Rejected 500 "Failed to start job search" None (Some error), w, None)
        | Returns jobSearchLimit =>
            if Qle_bool jobSearchLimit 0
            then (Rejected 403 "Job search limit exceeded. You have used all 3 searches."
                           (Some 0%Q) None,
                  w, None)
            else if negb (truthy (q_role req)) && negb (truthy (q_designation req))
            then (Rejected 400 "Either role or designation is required" None None,
                  w, None)
            else
              let keyword := or_empty (or_str (q_role req) (q_designation req)) in
              let searchLocation := or_empty (or_str (q_location req) (Some "India")) in
              let company := or_null (q_company req) in
              let platform := or_null (q_platform req) in
              let taskId := uuid in
              (Accepted202 taskId ("/api/jobs/search/poll/" +:+ taskId)
                           (jobSearchLimit - 1)%Q,
               registerTask taskId userId w,
               Some {| bg_taskId := taskId; bg_userId := userId;
                       bg_keyword := keyword; bg_searchLocation := searchLocation;
                       bg_experienceLevel := q_experienceLevel req;
                       bg_resumeId := q_resumeId req;
                       bg_atsWeights := q_atsWeights req;
                       bg_company := company; bg_platform := platform |})
        end
    end.

End Handler.

End SearchController.

(** ** atsController.js: scoring a batch of jobs *)

Module AtsController.
Import JS ATSScorer JobSearch.

(** A value that is handed to the scorer: one with the fields, and the
    types of fields, that [quickScore] reads, or any other one, kept as its
    JSON text. *)
Inductive Raw (A : Type) : Type :=
| Typed (a : A)
| IllTyped (json : string).
Arguments Typed {A} a.
Arguments IllTyped {A} json.

(** A member of [jobs] that has properties: what the scorer reads, and the
    fields the response names it by. *)
Record BatchJob : Type := {
  b_job : Raw Job;
  b_id : option string;
  b__id : option string;
  b_title : option string;
  b_jobTitle : option string;
  b_company : option string;
  b_employerName : option string
}.

(** A member of [jobs]: [null], of which no property can be read, or a
    value with properties. *)
Inductive BatchItem : Type :=
| ItemNull
| ItemObject (job : BatchJob).

(** [{ jobIndex, jobId, jobTitle, company, ...score }] from the [try] of the
    callback, with [e_result] the fields of the quick score, and
    [{ jobIndex, jobId, jobTitle, error, score: 0 }] from its [catch], with
    no company and [e_result] the message. *)
Record BatchEntry : Type := {
  e_jobIndex : nat;
  e_jobId : string + nat;
  e_jobTitle : string;
  e_company : option string;
  e_result : QuickScore + string
}.

Section Scorer.

(** [atsScorer.quickScore] on a resume or a job that is not of the types the
    scorer reads: its result, or the message of what it throws. *)
Variable quickScoreIllTyped : Raw Resume -> Raw Job -> Outcome QuickScore.

(** the message of the [TypeError] for reading a property of [null] *)
Variable nullMessage : string.

Definition quickScoreRaw (resume : Raw Resume) (job : Raw Job) : Outcome QuickScore :=
  match resume, job with
  | Typed r, Typed j => Returns (quickScore r j)
  | _, _ => quickScoreIllTyped resume job
  end.

(** the callback of [map] on a member with properties: its [try], and its
    [catch] when the scorer throws *)
Definition scoreOne (resume : Raw Resume) (job : BatchJob) (index : nat) : BatchEntry :=
  let jobId := if truthy (or_str (b_id job) (b__id job))
               then inl (or_empty (or_str (b_id job) (b__id job)))
               else inr index in
  let jobTitle :=
    or_empty (or_str (or_str (b_title job) (b_jobTitle job)) (Some "Unknown")) in
  match quickScoreRaw resume (b_job job) with
  | Returns score =>
      {| e_jobIndex := index;
         e_jobId := jobId;
         e_jobTitle := jobTitle;
         e_company := Some (or_empty (or_str (or_str (b_company job) (b_employerName job))
                                             (Some "Unknown")));
         e_result := inl score |}
  | Throws message =>
      {| e_jobIndex := index;
         e_jobId := jobId;
         e_jobTitle := jobTitle;
         e_company := None;
         e_result := inr message |}
  end.

(** [jobsToScore.map((job, index) => ...)], counting from [index].  On
    [null] the scorer throws, and the [catch] of the callback throws again
    when it reads [job.id]: the whole [map] throws. *)
Fixpoint scoreFrom (resume : Raw Resume) (index : nat) (jobs : list BatchItem)
    : Outcome (list BatchEntry) :=
  match jobs with
  | [] => Returns []
  | ItemNull :: _ => Throws nullMessage
  | ItemObject job :: rest =>
      let entry := scoreOne resume job index in
      match scoreFrom resume (S index) rest with
      | Returns entries => Returns (entry :: entries)
      | Throws message => Throws message
      end
  end.

(** [b.score || 0] *)
Definition entryKey (e : BatchEntry) : Q :=
  match e_result e with
  | inl quick => or_num (Some (score quick)) 0
  | inr _ => or_num (Some 0%Q) 0
  end.

(** [scores.sort((a, b) => (b.score || 0) - (a.score || 0))]: a stable
    insertion by descending score. *)
Fixpoint insertEntry (x : BatchEntry) (l : list BatchEntry) : list BatchEntry :=
  match l with
  | [] => [x]
  | y :: r =>
      if Qle_bool (entryKey y) (entryKey x) then x :: y :: r
      else y :: insertEntry x r
  end.

Definition sortEntries (l : list BatchEntry) : list BatchEntry :=
  fold_right insertEntry [] l.

Definition maxBatchSize : nat := 50.

(** 200 with the scores, 400, or 500 with the message of what was thrown *)
Inductive BatchResponse : Type :=
| BatchOk (totalJobs scoredJobs : nat) (scores : list BatchEntry)
| BatchBadRequest (message : string)
| BatchFailed (message error : string).

(** The handler of [POST /api/ats/batch-score], for a request with a body.
    [resume] is [None] when the body has no truthy [resume]; [jobs] is
    [None] when the body has no [jobs] or it is not an array. *)
Definition batchScore (resume : option (Raw Resume)) (jobs : option (list BatchItem))
    : BatchResponse :=
  match resume, jobs with
  | Some resume, Some jobs =>
      let jobsToScore := firstn maxBatchSize jobs in
      match scoreFrom resume 0 jobsToScore with
      | Returns scores =>
          let scores := sortEntries scores in
          BatchOk (List.length jobs) (List.length scores) scores
      | Throws error => BatchFailed "Failed to calculate batch scores" error
      end
  | _, _ => BatchBadRequest "Resume and jobs array are required"
  end.

End Scorer.

End AtsController.

(** ** Vocabulary of the further statements *)

Module Vocabulary.
Import JS TextProcessor SkillMatcher ATSConfig ATSScorer.

(** every character of [s] satisfies [p] *)
Fixpoint all_chars (p : ascii -> bool) (s : string) : bool :=
  match s with
  | EmptyString => true
  | String c r => p c && all_chars p r
  end.

(** the characters a keyword is made of: [[a-z0-9+#.]] *)
Definition keyword_char (c : ascii) : bool :=
  is_lower c || is_digit c || Ascii.eqb c "+" || Ascii.eqb c "#" || Ascii.eqb c ".".

(** equality of numbers that may be [NaN], up to the representation of
    a rational *)
Definition num_eq (x y : num) : Prop :=
  match x, y with
  | Num p, Num q => (p == q)%Q
  | NaN, NaN => True
  | _, _ => False
  end.

(** the number of checks of the hard filters that failed *)
Definition failedChecks (h : HardFilters) : nat :=
  (if workAuthorizationMatch h then 0 else 1) +
  (if experienceMatch h then 0 else 1) +
  (if educationMatch h then 0 else 1).

(** [a] may stand before [b] in results ordered by descending score *)
Definition scoreOrder (a b : JobSearch.JobEntry) : Prop :=
  (JobSearch.sortKey b <= JobSearch.sortKey a)%Q.

(** [a] may stand before [b] in batch scores ordered by descending score *)
Definition entryOrder (a b : AtsController.BatchEntry) : Prop :=
  (AtsController.entryKey b <= AtsController.entryKey a)%Q.

(** the role types that [determineRoleType] can return *)
Definition roleTypes : list string :=
  ["intern"; "fresher"; "manager"; "lead"; "software_engineer"].

End Vocabulary.

(** ** Sample inputs of the further properties *)

Module Samples.
Import JS ATSScorer JobSearch SearchController Spec.

Definition degreeEntries : list Education :=
  [EduRecord (Some "B.Tech in Computer Science")].

Definition schoolEntries : list Education := [EduText "High school"].

(** a registry without tasks *)
Definition idle : World := {| tasks := ∅; timers := []; clock := 0 |}.

(** a request that carries no user *)
Definition anonymousRequest : SearchRequest :=
  {| q_userId := None; q_role := Some "python developer"; q_designation := None;
     q_experienceLevel := None; q_location := None; q_resumeId := None;
     q_atsWeights := None; q_company := None; q_platform := None |}.

(** the same request from a signed-in user *)
Definition signedRequest : SearchRequest :=
  {| q_userId := Some "user-1"; q_role := Some "python developer";
     q_designation := None; q_experienceLevel := None; q_location := None;
     q_resumeId := None; q_atsWeights := None; q_company := None;
     q_platform := None |}.

Definition saved (user : User) : Outcome unit := Returns tt.

Definition mainResume : ResumeDetail :=
  {| rd_id := "resume-1"; rd_resumeName := "main";
     rd_resumeData := Some {| document := "python developer" |} |}.

End Samples.

(** * Properties *)

Import JS TextProcessor SkillMatcher ATSConfig ATSScorer Spec.

(** ** Sets as insertion-ordered lists *)

Section SetFacts.
Context {A : Type} (eqb : A -> A -> bool).
Hypothesis eqb_eq : forall x y, eqb x y = true <-> x = y.

Lemma has_In (s : list A) (x : A) : has eqb s x = true <-> In x s.
Proof.
  unfold has. rewrite existsb_exists. split.
  - intros (y & Hy & E). apply eqb_eq in E. now subst.
  - intros H. exists x. split; [assumption | now apply eqb_eq].
Qed.

Lemma has_false (s : list A) (x : A) : has eqb s x = false <-> ~ In x s.
Proof.
  rewrite <- has_In. destruct (has eqb s x); split; congruence.
Qed.

Lemma In_add (s : list A) (x y : A) : In y (add eqb s x) <-> In y s \/ y = x.
Proof.
  unfold add. destruct (has eqb s x) eqn:E.
  - apply has_In in E. split; [now left | intros [H | ->]; assumption].
  - rewrite in_app_iff. simpl. intuition congruence.
Qed.

Lemma In_fold_add (l s : list A) (y : A) :
  In y (fold_left (add eqb) l s) <-> In y s \/ In y l.
Proof.
  revert s. induction l as [| x l IH]; intros s; simpl.
  - tauto.
  - rewrite IH, In_add. intuition congruence.
Qed.

Lemma In_from_list (l : list A) (y : A) : In y (from_list eqb l) <-> In y l.
Proof. unfold from_list. rewrite In_fold_add. simpl. tauto. Qed.

Lemma NoDup_add (s : list A) (x : A) : NoDup s -> NoDup (add eqb s x).
Proof.
  intros H. unfold add. destruct (has eqb s x) eqn:E; [assumption |].
  apply has_false in E.
  apply NoDup_app; [assumption | repeat constructor; simpl; tauto |].
  intros y Hy [<- | []]. contradiction.
Qed.

Lemma NoDup_fold_add (l s : list A) : NoDup s -> NoDup (fold_left (add eqb) l s).
Proof.
  revert s. induction l as [| x l IH]; intros s H; simpl; [assumption |].
  apply IH. now apply NoDup_add.
Qed.
End SetFacts.

Lemma skill_eqb_eq (a b : Skill) : skill_eqb a b = true <-> a = b.
Proof.
  destruct a, b; simpl; rewrite ?String.eqb_eq;
    split; intros H; try discriminate; congruence.
Qed.

Lemma skill_has_In (s : list Skill) (x : Skill) : skill_has s x = true <-> In x s.
Proof. apply has_In, skill_eqb_eq. Qed.

Lemma In_skill_add (s : list Skill) (x y : Skill) :
  In y (skill_add s x) <-> In y s \/ y = x.
Proof. apply In_add, skill_eqb_eq. Qed.

(** ** Skill matching *)

Lemma skill_add_fresh (s : list Skill) (x : Skill) :
  ~ In x s -> skill_add s x = s ++ [x].
Proof.
  intros H. unfold skill_add, add.
  destruct (has skill_eqb s x) eqn:E; [| reflexivity].
  apply skill_has_In in E. contradiction.
Qed.

Lemma NoDup_skill_add (s : list Skill) (x : Skill) : NoDup s -> NoDup (skill_add s x).
Proof. apply NoDup_add, skill_eqb_eq. Qed.

Lemma NoDup_normalizeStep (normalized : list Skill) (skill : string) :
  NoDup normalized -> NoDup (normalizeStep normalized skill).
Proof.
  intros H. unfold normalizeStep.
  destruct (String.eqb skill ""); [assumption |].
  apply (NoDup_skill_add _ (normalizeSkill skill)) in H.
  destruct (synonymsOf (normalizeSkill skill)) as [syns |]; [| assumption].
  revert H. generalize (skill_add normalized (normalizeSkill skill)).
  induction syns as [| syn syns IH]; intros acc H; simpl; [assumption |].
  apply IH. now apply NoDup_skill_add.
Qed.

(** The normalized skills are a set: no name occurs twice. *)
Lemma NoDup_normalizeSkills (skills : list string) : NoDup (normalizeSkills skills).
Proof.
  unfold normalizeSkills.
  assert (G : forall acc, NoDup acc -> NoDup (fold_left normalizeStep skills acc)).
  { induction skills as [| skill skills IH]; intros acc H; simpl; [assumption |].
    apply IH. now apply NoDup_normalizeStep. }
  apply G. constructor.
Qed.

(** The loop over [normJob] sorts its elements, in order, into the two
    sets. *)
Lemma classify_filter (normResume normJob matched missing : list Skill) :
  NoDup normJob ->
  (forall x, In x normJob -> ~ In x matched /\ ~ In x missing) ->
  fold_left (classify normResume) normJob (matched, missing) =
    (matched ++ filter (skill_has normResume) normJob,
     missing ++ filter (fun x => negb (skill_has normResume x)) normJob).
Proof.
  revert matched missing.
  induction normJob as [| y l IH]; intros matched missing Hnd Hfresh; simpl.
  - now rewrite !app_nil_r.
  - inversion Hnd as [| ? ? Hy Hl]; subst.
    destruct (Hfresh y (or_introl eq_refl)) as [Hm Hs].
    assert (forall x, In x l -> x <> y) as Hne by (intros x Hx ->; contradiction).
    unfold classify at 2; cbn [fst snd].
    destruct (skill_has normResume y); cbn [negb].
    + rewrite (skill_add_fresh _ _ Hm), IH; [now rewrite <- app_assoc | assumption |].
      intros x Hx. destruct (Hfresh x (or_intror Hx)) as [Hxm Hxs].
      split; [| assumption]. rewrite in_app_iff. simpl.
      intros [? | [E | []]]; [contradiction | symmetry in E; now apply (Hne x)].
    + rewrite (skill_add_fresh _ _ Hs), IH; [now rewrite <- app_assoc | assumption |].
      intros x Hx. destruct (Hfresh x (or_intror Hx)) as [Hxm Hxs].
      split; [assumption |]. rewrite in_app_iff. simpl.
      intros [? | [E | []]]; [contradiction | symmetry in E; now apply (Hne x)].
Qed.

Lemma matchSkillsWithSynonyms_guard (S : option (list string)) (R : list string) :
  ~ nonempty S ->
  matchSkillsWithSynonyms S (Some R) =
    {| matched := []; missing := skill_set (map Str R); matchPct := 0 |}.
Proof.
  intros H. destruct S as [[| s S] |]; simpl in *; try reflexivity.
  exfalso. now apply H.
Qed.

(** Past the guard, the matched names are the normalized required names
    that the normalized resume has, and the missing names are the others. *)
Lemma matchSkillsWithSynonyms_filter (S : option (list string)) (R : list string) :
  nonempty S ->
  matched (matchSkillsWithSynonyms S (Some R)) =
    filter (skill_has (normalizeSkills (or_nil S))) (normalizeSkills R) /\
  missing (matchSkillsWithSynonyms S (Some R)) =
    filter (fun x => negb (skill_has (normalizeSkills (or_nil S)) x)) (normalizeSkills R).
Proof.
  intros H. destruct S as [[| s S] |]; simpl in H; try contradiction.
  destruct R as [| r R]; [split; reflexivity |].
  unfold matchSkillsWithSynonyms.
  rewrite (classify_filter _ _ [] [] (NoDup_normalizeSkills (r :: R)))
    by (intros x _; split; intros []).
  split; reflexivity.
Qed.

(** C1 (amended).  The matched and the missing required skills never share an
    element.  For a non-empty resume skill list they split the normalized
    required skills: their union is [normalizeSkills R], neither holds a name
    twice, and their sizes add up to the size of [normalizeSkills R].  For an
    empty or absent resume skill list nothing is matched and the missing set
    holds the entries of [R] as given, without normalization. *)
Theorem matchSkills_partition (S : option (list string)) (R : list string) :
  let res := matchSkills S (Some R) (Some []) in
  (forall x, ~ (In x (matchedRequired res) /\ In x (missingRequired res))) /\
  (nonempty S ->
     (forall x, In x (matchedRequired res) \/ In x (missingRequired res) <->
                In x (normalizeSkills R)) /\
     NoDup (matchedRequired res) /\ NoDup (missingRequired res) /\
     List.length (matchedRequired res) + List.length (missingRequired res) =
       List.length (normalizeSkills R)) /\
  (~ nonempty S ->
     matchedRequired res = [] /\ missingRequired res = skill_set (map Str R)).
Proof.
  cbv zeta. unfold matchSkills; cbn [matchedRequired missingRequired].
  assert (D : {nonempty S} + {~ nonempty S}).
  { destruct S as [[| s S] |]; simpl; auto. }
  split; [| split].
  - intros x [Hm Hs]. destruct D as [Y | N].
    + destruct (matchSkillsWithSynonyms_filter S R Y) as [A B].
      rewrite A in Hm. rewrite B in Hs.
      apply filter_In in Hm. apply filter_In in Hs.
      destruct Hm as [_ Hm]. destruct Hs as [_ Hs]. rewrite Hm in Hs. discriminate.
    + rewrite (matchSkillsWithSynonyms_guard S R N) in Hm. simpl in Hm. contradiction.
  - intros Y. destruct (matchSkillsWithSynonyms_filter S R Y) as [A B].
    rewrite A, B. split; [| split; [| split]].
    + intros x. rewrite !filter_In.
      destruct (skill_has (normalizeSkills (or_nil S)) x); simpl; intuition congruence.
    + apply NoDup_filter, NoDup_normalizeSkills.
    + apply NoDup_filter, NoDup_normalizeSkills.
    + apply filter_length.
  - intros N. now rewrite (matchSkillsWithSynonyms_guard S R N).
Qed.

Lemma matchSkills_partition_witness :
  In (Str "kubernetes")
     (matchedRequired (matchSkills (Some ["python"; "docker"]) (Some ["py"; "k8s"]) (Some []))) \/
  In (Str "kubernetes")
     (missingRequired (matchSkills (Some ["python"; "docker"]) (Some ["py"; "k8s"]) (Some []))) <->
  In (Str "kubernetes") (normalizeSkills ["py"; "k8s"]).
Proof.
  exact (proj1 (proj1 (proj2 (matchSkills_partition (Some ["python"; "docker"])
                                                    ["py"; "k8s"])) I)
           (Str "kubernetes")).
Defined.

(** C1 as stated fails for an empty resume skill list: the required skill
    ["js"] normalizes to five names, and the result holds ["js"] alone. *)
Lemma matchSkills_partition_empty_resume :
  let res := matchSkills (Some []) (Some ["js"]) (Some []) in
  ~ (forall x, In x (matchedRequired res) \/ In x (missingRequired res) <->
               In x (normalizeSkills ["js"])).
Proof.
  cbv zeta. intros H.
  assert (In (Str "javascript") (normalizeSkills ["js"])) as HI
    by (vm_compute; tauto).
  apply H in HI. vm_compute in HI.
  destruct HI as [[] | [E | []]]. discriminate E.
Qed.

(** C2 (amended).  Both lists are expanded by their synonyms before they are
    compared, so five names are matched, three are missing, and the required
    match is 5/8, that is 62.5 percent. *)
Theorem matchSkills_javascript_express :
  let res := matchSkills (Some ["javascript"; "node"]) (Some ["js"; "express"]) (Some []) in
  matchedRequired res =
    [Str "javascript"; Str "js"; Str "ecmascript"; Str "node.js"; Str "nodejs"] /\
  missingRequired res = [Str "express"; Str "expressjs"; Str "express.js"] /\
  (requiredMatchPercentage res == 125 # 2)%Q.
Proof. vm_compute. repeat split; reflexivity. Qed.

(** C2 as stated fails: the result is not the pair of one-element sets with a
    match of 50 percent. *)
Lemma matchSkills_javascript_express_not_50 :
  let res := matchSkills (Some ["javascript"; "node"]) (Some ["js"; "express"]) (Some []) in
  ~ ((forall x, In x (matchedRequired res) <-> x = Str "javascript") /\
     (forall x, In x (missingRequired res) <-> x = Str "express") /\
     (requiredMatchPercentage res == 50)%Q).
Proof.
  cbv zeta. intros (_ & _ & H). vm_compute in H. discriminate H.
Qed.

(** ** Hard filters *)

Lemma Qlt_bool_iff (a b : Q) : Qlt_bool a b = true <-> (a < b)%Q.
Proof.
  unfold Qlt_bool. rewrite negb_true_iff.
  destruct (Qle_bool b a) eqn:E.
  - apply Qle_bool_iff in E. split; [discriminate | intros H; exfalso; lra].
  - split; [intros _ | reflexivity].
    apply Qnot_le_lt. intros H. apply Qle_bool_iff in H. congruence.
Qed.

(** What the rounding does: the nearest integer is within a half, and the
    double nearest to [x] within half a unit in the last place of [x]. *)
Lemma nearest_even_close (y : Q) :
  (Qabs (inject_Z (nearest_even y) - y) <= 1 # 2)%Q.
Proof.
  unfold nearest_even.
  pose proof (Qfloor_le y) as L. pose proof (Qlt_floor y) as U.
  assert (inject_Z (Qfloor y + 1) == inject_Z (Qfloor y) + 1)%Q as P
    by (rewrite inject_Z_plus; reflexivity).
  rewrite P in U.
  destruct (Qcompare_spec (y - inject_Z (Qfloor y)) (1 # 2)) as [E | E | E].
  - destruct (Z.even (Qfloor y)); [| rewrite P]; apply Qabs_Qle_condition; split; lra.
  - apply Qabs_Qle_condition; split; lra.
  - rewrite P. apply Qabs_Qle_condition; split; lra.
Qed.

Lemma ulp_pos (a : Q) : (0 < ulp a)%Q.
Proof. unfold ulp. apply Qpower_0_lt. reflexivity. Qed.

Lemma double_close (x : Q) : (Qabs (double x - x) <= (1 # 2) * ulp (Qabs x))%Q.
Proof.
  pose proof (ulp_pos (Qabs x)) as U.
  unfold double. set (u := ulp (Qabs x)) in *. clearbody u.
  destruct (Qeq_bool x 0) eqn:Z0.
  - apply Qeq_bool_iff in Z0. apply Qabs_Qle_condition. split; lra.
  - pose proof (nearest_even_close (Qabs x / u)) as C.
    set (n := inject_Z (nearest_even (Qabs x / u))) in *. clearbody n.
    apply Qabs_Qle_condition in C. destruct C as [C1 C2].
    assert (Qabs x / u * u == Qabs x)%Q as D by (field; lra).
    set (q := (Qabs x / u)%Q) in *. clearbody q.
    assert (- ((1 # 2) * u) <= n * u - Qabs x <= (1 # 2) * u)%Q as B.
    { pose proof (Qmult_le_compat_r _ _ u C1 (Qlt_le_weak _ _ U)) as B1.
      pose proof (Qmult_le_compat_r _ _ u C2 (Qlt_le_weak _ _ U)) as B2.
      split; lra. }
    destruct (Qlt_bool x 0) eqn:S.
    + apply Qlt_bool_iff in S. rewrite (Qabs_neg x) in B by lra.
      apply Qabs_Qle_condition. split; lra.
    + assert (0 <= x)%Q as P.
      { destruct (Qlt_le_dec x 0) as [H | H]; [| exact H].
        apply Qlt_bool_iff in H. congruence. }
      rewrite (Qabs_pos x) in B by exact P.
      apply Qabs_Qle_condition. split; lra.
Qed.

Lemma checkExperience_spec (resumeExperience minRequired : Q) (maxRequired : option Q) :
  _checkExperience resumeExperience minRequired maxRequired = true <->
  (minRequired <= 1 \/ mul minRequired MIN_EXPERIENCE_MATCH_RATIO <= resumeExperience)%Q.
Proof.
  unfold _checkExperience.
  destruct (Qle_bool minRequired 1) eqn:E.
  - apply Qle_bool_iff in E. tauto.
  - assert (~ (minRequired <= 1)%Q) as N
      by (intros H; apply Qle_bool_iff in H; congruence).
    destruct (Qlt_bool resumeExperience (mul minRequired MIN_EXPERIENCE_MATCH_RATIO)) eqn:L.
    + apply Qlt_bool_iff in L. split; [discriminate |]. intros [H | H]; [tauto | lra].
    + assert (~ (resumeExperience < mul minRequired MIN_EXPERIENCE_MATCH_RATIO)%Q) as NL
        by (intros H; apply Qlt_bool_iff in H; congruence).
      split; [intros _ | reflexivity]. right. lra.
Qed.

(** The experience check of the hard filters passes whenever the job asks
    for at most one year; otherwise it passes exactly when the resume shows
    at least the product of the required years and 0.8, as the doubles give
    it. *)
Lemma experience_filter (resume : Resume) (job : Job) :
  let years := or_num (r_yearsOfExperience resume) 0 in
  let minRequired := or_num (j_minExperience job) 0 in
  let pass := experienceMatch (_evaluateHardFilters resume job) in
  ((minRequired <= 1)%Q -> pass = true) /\
  (~ (minRequired <= 1)%Q ->
   (pass = true <-> (mul minRequired MIN_EXPERIENCE_MATCH_RATIO <= years)%Q)).
Proof.
  cbv zeta. cbn [_evaluateHardFilters experienceMatch].
  set (years := or_num (r_yearsOfExperience resume) 0).
  set (minRequired := or_num (j_minExperience job) 0).
  pose proof (checkExperience_spec years minRequired (j_maxExperience job)) as S.
  split.
  - intros H. apply S. now left.
  - intros N. rewrite S. tauto.
Qed.

(** C3 at its failing input.  A resume with 2.4 years meets 0.8 times the 3
    years that the job asks for.  The code multiplies doubles: 3 * 0.8 is
    2.4000000000000004, one unit in the last place above the double that 2.4
    denotes, and the experience check, alone of the three, fails the resume.
    Five years against ten fail as the claim says, and a requirement of one
    year passes. *)
Theorem experience_threshold_rounding :
  ((8 # 10) * 3 <= 24 # 10)%Q /\
  (double (24 # 10) == 5404319552844595 # 2251799813685248)%Q /\
  (mul 3 MIN_EXPERIENCE_MATCH_RATIO == 5404319552844596 # 2251799813685248)%Q /\
  _checkExperience (double (24 # 10)) 3 None = false /\
  experienceMatch (_evaluateHardFilters thresholdResume (pythonJob (Some 3%Q))) = false /\
  workAuthorizationMatch
    (_evaluateHardFilters thresholdResume (pythonJob (Some 3%Q))) = true /\
  educationMatch (_evaluateHardFilters thresholdResume (pythonJob (Some 3%Q))) = true /\
  passed (_evaluateHardFilters thresholdResume (pythonJob (Some 3%Q))) = false /\
  experienceMatch
    (_evaluateHardFilters (pythonResume (Some 5%Q)) (pythonJob (Some 10%Q))) = false /\
  experienceMatch
    (_evaluateHardFilters (pythonResume None) (pythonJob (Some 1%Q))) = true.
Proof. vm_compute. repeat split; discriminate. Qed.

(** ** Weighted relevance *)

Lemma round2_percent (x : Q) : percent x -> percent (round2 x).
Proof.
  unfold percent, round2, Math_round. intros [H0 H1].
  assert (0 <= Qfloor (x * 100 + (1 # 2)))%Z as L.
  { change 0%Z with (Qfloor 0). apply Qfloor_resp_le. lra. }
  assert (Qfloor (x * 100 + (1 # 2)) <= 10000)%Z as U.
  { change 10000%Z with (Qfloor (10000 + (1 # 2))). apply Qfloor_resp_le. lra. }
  rewrite Zle_Qle in L, U.
  set (z := inject_Z (Qfloor (x * 100 + (1 # 2)))) in *.
  change (inject_Z 0) with 0%Q in L. change (inject_Z 10000) with 10000%Q in U.
  split.
  - apply Qle_shift_div_l; lra.
  - apply Qle_shift_div_r; lra.
Qed.

Lemma weighted_sum_percent (w : Weights) (s1 s2 s3 s4 s5 s6 : Q) :
  weights_nonneg w -> (weights_sum w == 1)%Q ->
  percent s1 -> percent s2 -> percent s3 -> percent s4 -> percent s5 -> percent s6 ->
  percent (s1 * skills w + s2 * experience w + s3 * projects w +
           s4 * keywords w + s5 * summary w + s6 * education w)%Q.
Proof.
  unfold weights_nonneg, weights_sum, percent.
  intros (W1 & W2 & W3 & W4 & W5 & W6) E [L1 U1] [L2 U2] [L3 U3] [L4 U4] [L5 U5] [L6 U6].
  pose proof (Qmult_le_0_compat _ _ L1 W1).
  pose proof (Qmult_le_0_compat _ _ L2 W2).
  pose proof (Qmult_le_0_compat _ _ L3 W3).
  pose proof (Qmult_le_0_compat _ _ L4 W4).
  pose proof (Qmult_le_0_compat _ _ L5 W5).
  pose proof (Qmult_le_0_compat _ _ L6 W6).
  pose proof (Qmult_le_compat_r _ _ _ U1 W1).
  pose proof (Qmult_le_compat_r _ _ _ U2 W2).
  pose proof (Qmult_le_compat_r _ _ _ U3 W3).
  pose proof (Qmult_le_compat_r _ _ _ U4 W4).
  pose proof (Qmult_le_compat_r _ _ _ U5 W5).
  pose proof (Qmult_le_compat_r _ _ _ U6 W6).
  split; lra.
Qed.

(** The weight tables of the role types are non-negative and sum to one. *)
Lemma role_weights (roleType : option string) (w : Weights) :
  getWeights roleType = WObject w -> weights_nonneg w /\ (weights_sum w == 1)%Q.
Proof.
  assert (T : forall k v, In (k, v) weightsMap \/ v = DEFAULT ->
                          weights_nonneg v /\ (weights_sum v == 1)%Q).
  { intros k v [H | ->].
    - simpl in H.
      repeat (destruct H as [H | H];
              [injection H as _ <-; split; [vm_compute; intuition discriminate | reflexivity] |]).
      contradiction.
    - split; [vm_compute; intuition discriminate | reflexivity]. }
  assert (O : forall (obj : list (string * Weights)) k v, own obj k = Some v -> In (k, v) obj).
  { induction obj as [| [k' v'] r IH]; simpl; intros k v H; [discriminate |].
    destruct (String.eqb k k') eqn:E.
    - apply String.eqb_eq in E. injection H as <-. subst. now left.
    - right. now apply IH. }
  unfold getWeights, get. destruct roleType as [r |].
  - destruct (own weightsMap (toLowerCase r)) as [v |] eqn:E.
    + intros H. injection H as <-. apply (T (toLowerCase r)). left. now apply O.
    + destruct (str_has Object_prototype (toLowerCase r)); [discriminate |].
      intros H. injection H as <-. apply (T ""). now right.
  - intros H. injection H as <-. apply (T ""). now right.
Qed.

(** C4 (amended).  With six non-negative weights that sum to one and six
    sub-scores between 0 and 100 the weighted total, rounded to two
    decimals, is a number between 0 and 100. *)
Theorem weightedTotal_percent (w : Weights) (s1 s2 s3 s4 s5 s6 : Q) :
  weights_nonneg w -> (weights_sum w == 1)%Q ->
  percent s1 -> percent s2 -> percent s3 -> percent s4 -> percent s5 -> percent s6 ->
  num_percent (weightedTotal (weigh (WObject w) s1 s2 s3 s4 s5 s6)).
Proof.
  intros. cbn [weigh weightedTotal num_round2 num_percent].
  apply round2_percent. now apply weighted_sum_percent.
Qed.

Lemma weightedTotal_percent_witness :
  num_percent (weightedTotal (weigh (WObject MANAGER_LEAD) 70 40 0 (100 # 3) 50 100)).
Proof.
  apply weightedTotal_percent;
    try (vm_compute; intuition discriminate); reflexivity.
Defined.

(** C4 as stated fails: the custom weights 2, -1, 0, 0, 0, 0 sum to one, the
    six sub-scores of this resume and job lie between 0 and 100, and the
    weighted total is 140. *)
Lemma weightedTotal_negative_weight :
  let rs := _calculateRelevanceScore (pythonResume None) (pythonJob None)
                                     (Some skewedWeights) in
  (weights_sum skewedWeights == 1)%Q /\
  percent (_scoreSkills (pythonResume None) (pythonJob None)) /\
  percent (_scoreExperience (pythonResume None) (pythonJob None)) /\
  percent (_scoreProjects (pythonResume None) (pythonJob None)) /\
  percent (_scoreKeywords (pythonResume None) (pythonJob None)) /\
  percent (_scoreSummary (pythonResume None) (pythonJob None)) /\
  percent (_scoreEducation (pythonResume None) (pythonJob None)) /\
  ~ num_percent (weightedTotal rs).
Proof.
  cbv zeta. repeat split; try (vm_compute; discriminate).
  vm_compute. intros [_ H]. now apply H.
Qed.

(** ** The analysis as a whole *)

Lemma round2_zero : (round2 0 == 0)%Q.
Proof. reflexivity. Qed.

(** C5.  When the hard filters fail, [analyze] reports no relevance score
    and an overall match of 0, computes the skill analysis from the skills of
    the resume and the required and preferred skills of the job all the same,
    and its feedback is the list of failure reasons joined by commas behind
    the fixed opening of the message. *)
Theorem analyze_hard_filter_failure (now : string) (resume : Resume) (job : Job)
    (customWeights : option Weights) :
  passed (_evaluateHardFilters resume job) = false ->
  let a := analyze now resume job customWeights in
  hardFilters a = _evaluateHardFilters resume job /\
  relevanceScore a = None /\
  (exists q, overallMatchPercentage a = Num q /\ (q == 0)%Q) /\
  skillAnalysis a =
    matchSkills (Some (or_nil (r_skills resume)))
                (Some (or_nil (j_requiredSkills job)))
                (Some (or_nil (j_preferredSkills job))) /\
  matchedSkills a = matchedRequired (skillAnalysis a) /\
  missingSkills a = missingRequired (skillAnalysis a) /\
  feedback a =
    "Resume did not pass initial screening. Issues: " +:+
    join ", " (failureReasons (hardFilters a)).
Proof.
  intros H. cbv zeta. unfold analyze.
  cbn [hardFilters relevanceScore overallMatchPercentage skillAnalysis
       matchedSkills missingSkills feedback].
  rewrite H. unfold _generateFeedback. rewrite H. cbn [negb num_round2].
  repeat split. exists (round2 0). split; [reflexivity | apply round2_zero].
Qed.

Lemma analyze_hard_filter_failure_witness :
  feedback (analyze "2024-01-01T00:00:00.000Z" (pythonResume (Some 5%Q))
                    (pythonJob (Some 10%Q)) None) =
  "Resume did not pass initial screening. Issues: Experience requirement not met: Requires 10+ years, resume shows 5 years".
Proof.
  exact (proj2 (proj2 (proj2 (proj2 (proj2 (proj2
    (analyze_hard_filter_failure "2024-01-01T00:00:00.000Z"
       (pythonResume (Some 5%Q)) (pythonJob (Some 10%Q)) None eq_refl))))))).
Defined.

(** ** The education score *)

(** What [_scoreEducation] computes, case by case. *)
Lemma scoreEducation_cases (resume : Resume) (job : Job) :
  _scoreEducation resume job =
    if negb (truthy (j_requiredEducation job)) then 100%Q
    else match r_education resume with
         | None =>
             if truthy (r_highestDegree resume)
             then if _checkEducation (r_highestDegree resume) []
                                     (j_requiredEducation job)
                  then 100%Q else 50%Q
             else 0%Q
         | Some entries =>
             if _checkEducation (r_highestDegree resume) entries
                                (j_requiredEducation job)
             then 100%Q else 50%Q
         end.
Proof.
  unfold _scoreEducation.
  destruct (truthy (j_requiredEducation job)); [| reflexivity].
  destruct (r_education resume) as [entries |]; simpl; [reflexivity |].
  destruct (truthy (r_highestDegree resume)); reflexivity.
Qed.








(** The exception is needed, and [analyze] never meets it: called on its
    own with an empty education list and no highest degree, [_scoreEducation]
    gives 50 where the candidate has neither an entry nor a degree; the hard
    filters fail that resume first. *)
Remark scoreEducation_empty_list_direct :
  _scoreEducation noEducationResume bachelorJob = 50%Q /\
  educationScoreSpec noEducationResume bachelorJob = 0%Q /\
  passed (_evaluateHardFilters noEducationResume bachelorJob) = false.
Proof. vm_compute. repeat split. Qed.

(** ** The quick score *)




(** ** The batch loop of the job search *)

Import JobSearch.

(** enter [processJobSearch] with a registered task and the provider's
    answer *)
Ltac enter_run Ht Hs :=
  unfold processJobSearch; rewrite Ht; unfold runTask; rewrite Hs;
  cbn [List.length Nat.eqb].

Section Orchestrator.
Variable searchJobs :
  string -> string -> Q -> option string -> option string -> Outcome (list JobPosting).
Variable findById : string -> Outcome (option User).
Variable post :
  ResumeData -> JobPosting -> option Weights -> Outcome (option AtsResponse).

(** A posting whose analysis fails is stored with no score. *)
Lemma scoreJob_failure (resumeData : ResumeData) (atsWeights : option Weights)
    (job : JobPosting) :
  (forall a, post resumeData job atsWeights <> Returns (Some a)) ->
  scoreJob post resumeData atsWeights job = Scored job None None.
Proof.
  intros H. unfold scoreJob, analyzeJobWithATS.
  destruct (post resumeData job atsWeights) as [[a |] | m]; try reflexivity.
  now destruct (H a).
Qed.

Lemma scoreJob_success (resumeData : ResumeData) (atsWeights : option Weights)
    (job : JobPosting) (a : AtsResponse) :
  post resumeData job atsWeights = Returns (Some a) ->
  scoreJob post resumeData atsWeights job =
    Scored job (overall_match_percentage a) (Some (summarize a)).
Proof. intros H. unfold scoreJob, analyzeJobWithATS. now rewrite H. Qed.

(** With fuel for every remaining posting the loop appends the entry of
    each posting from index [i] on, in order, and leaves status, completion
    flag and error as they are. *)
Lemma batches_spec (resumeData : ResumeData) (atsWeights : option Weights)
    (jobsToAnalyze : list JobPosting) (fuel i : nat) (task : Task) :
  List.length jobsToAnalyze - i <= fuel ->
  let task' := batches post fuel resumeData atsWeights jobsToAnalyze i task in
  t_jobs task' =
    t_jobs task ++ map (scoreJob post resumeData atsWeights) (skipn i jobsToAnalyze) /\
  t_status task' = t_status task /\
  t_completed task' = t_completed task /\
  t_error task' = t_error task /\
  t_noJobsMessage task' = t_noJobsMessage task.
Proof.
  revert i task. induction fuel as [| fuel IH]; intros i task Hf; cbv zeta.
  - simpl. rewrite skipn_all2 by lia. simpl. rewrite app_nil_r. auto.
  - simpl. destruct (i <? List.length jobsToAnalyze)%nat eqn:E.
    + apply Nat.ltb_lt in E.
      match goal with
      | |- context [batches post fuel _ _ _ ?j ?t] =>
          destruct (IH j t) as (Hj & Hs & Hc & He & Hn); [unfold batchSize; lia |]
      end.
      rewrite Hj, Hs, Hc, He, Hn. cbn [set_results t_jobs t_status t_completed t_error
                                      t_noJobsMessage].
      repeat split. rewrite <- app_assoc. f_equal.
      unfold slice, batchSize. rewrite <- map_app. f_equal.
      replace (i + 3 - i) with 3 by lia.
      replace (i + 3) with (3 + i) by lia.
      rewrite <- skipn_skipn. apply firstn_skipn.
    + apply Nat.ltb_ge in E. rewrite skipn_all2 by lia. simpl.
      rewrite app_nil_r. auto.
Qed.

Lemma insertByScore_perm (x : JobEntry) (l : list JobEntry) :
  Permutation (insertByScore x l) (x :: l).
Proof.
  induction l as [| y l IH]; simpl; [reflexivity |].
  destruct (Qle_bool (sortKey y) (sortKey x)); [reflexivity |].
  rewrite IH. apply perm_swap.
Qed.

Lemma sortByScore_perm (l : list JobEntry) : Permutation (sortByScore l) l.
Proof.
  induction l as [| x l IH]; simpl; [reflexivity |].
  rewrite insertByScore_perm. now constructor.
Qed.

(** C8.  When the search has found postings and the resume is on file, the
    run ends with the task completed and records no error, whatever the ATS
    service answers.  The results are the earlier results and one entry for
    each of the first 20 postings, reordered: a posting whose analysis
    fails is there with no score and no analysis, and every posting whose
    analysis succeeds is there with its own score. *)
Theorem scoring_failure_isolated
    (taskId userId keyword searchLocation resumeId : string)
    (experienceLevel : option Q) (atsWeights : option Weights)
    (company platform : option string) (w : World) (task : Task)
    (allJobs : list JobPosting) (user : option User) (detail : ResumeDetail)
    (resumeData : ResumeData) :
  tasks w !! taskId = Some task ->
  searchJobs keyword searchLocation (or_num experienceLevel 0) company platform =
    Returns allJobs ->
  allJobs <> [] ->
  resumeId <> "" ->
  findById userId = Returns user ->
  findResume user resumeId = Some detail ->
  rd_resumeData detail = Some resumeData ->
  let w' := processJobSearch searchJobs findById post taskId userId keyword
              searchLocation experienceLevel (Some resumeId) atsWeights company
              platform w in
  exists task',
    tasks w' !! taskId = Some task' /\
    t_status task' = completed /\
    t_completed task' = true /\
    t_error task' = t_error task /\
    Permutation (t_jobs task')
      (t_jobs task ++ map (scoreJob post resumeData atsWeights) (firstn 20 allJobs)) /\
    forall job, In job (firstn 20 allJobs) ->
      ((forall a, post resumeData job atsWeights <> Returns (Some a)) ->
         In (Scored job None None) (t_jobs task')) /\
      (forall a, post resumeData job atsWeights = Returns (Some a) ->
         In (Scored job (overall_match_percentage a) (Some (summarize a)))
            (t_jobs task')).
Proof.
  intros Ht Hs Hne Hid Hu Hr Hd. cbv zeta. enter_run Ht Hs.
  destruct allJobs as [| j0 rest]; [congruence |].
  cbn [List.length Nat.eqb].
  assert (truthy (Some resumeId) = true) as Htr.
  { simpl. destruct (String.eqb resumeId "") eqn:E; [| reflexivity].
    apply String.eqb_eq in E. congruence. }
  rewrite Htr. cbn [negb]. rewrite Hu. cbn [or_empty]. rewrite Hr.
  destruct detail as [did dname ddata]. simpl in Hd. subst ddata.
  set (l := slice 0 maxJobs (j0 :: rest)).
  match goal with
  | |- context [batches post ?f resumeData atsWeights l 0 ?t] =>
      destruct (batches_spec resumeData atsWeights l f 0 t) as (Hj & Hst & Hc & He & _);
        [lia |]; set (b := batches post f resumeData atsWeights l 0 t) in *
  end.
  eexists. split; [cbn [tasks]; apply lookup_insert_eq |].
  cbn [set_atsAnalyzed set_progress set_completed set_jobs set_results
       t_status t_completed t_error t_jobs].
  assert (P : Permutation (sortByScore (t_jobs b))
                (t_jobs task ++ map (scoreJob post resumeData atsWeights)
                                    (firstn 20 (j0 :: rest)))).
  { rewrite sortByScore_perm, Hj. reflexivity. }
  repeat split; try assumption.
  - intros F. apply Permutation_sym in P. eapply Permutation_in; [exact P |].
    apply in_or_app. right. rewrite <- (scoreJob_failure resumeData atsWeights job F).
    now apply in_map.
  - intros a S. apply Permutation_sym in P. eapply Permutation_in; [exact P |].
    apply in_or_app. right. rewrite <- (scoreJob_success resumeData atsWeights job a S).
    now apply in_map.
Qed.

End Orchestrator.

Lemma scoring_failure_isolated_witness :
  exists task',
    tasks (runSearch (providerFinds fiveJobs) (Some "resume-1")) !! "task-1" = Some task' /\
    t_status task' = completed /\
    In (Scored (posting "job-2" "Data Engineer") None None) (t_jobs task') /\
    In (Scored (posting "job-1" "Backend Engineer") (Some 55%Q)
               (Some (summarize (response 55)))) (t_jobs task') /\
    In (Scored (posting "job-3" "Frontend Engineer") (Some 55%Q)
               (Some (summarize (response 55)))) (t_jobs task') /\
    In (Scored (posting "job-4" "Site Reliability Engineer") (Some 80%Q)
               (Some (summarize (response 80)))) (t_jobs task') /\
    In (Scored (posting "job-5" "Engineering Manager") (Some 55%Q)
               (Some (summarize (response 55)))) (t_jobs task').
Proof.
  destruct (scoring_failure_isolated (providerFinds fiveJobs) userFound failsOnSecond
              "task-1" "user-1" "python developer" "India" "resume-1" None None None None
              started (newTask "user-1" 0) fiveJobs (Some storedUser)
              {| rd_id := "resume-1"; rd_resumeName := "main";
                 rd_resumeData := Some {| document := "python developer" |} |}
              {| document := "python developer" |})
    as (task' & Hl & Hs & _ & _ & _ & Hjobs);
    [ vm_compute; reflexivity | reflexivity | discriminate | discriminate
    | reflexivity | reflexivity | reflexivity | ].
  exists task'. split; [exact Hl |]. split; [exact Hs |].
  split; [| split; [| split; [| split]]].
  - apply (fun H => proj1 (Hjobs (posting "job-2" "Data Engineer") H)); [simpl; tauto |].
    intros a; discriminate.
  - apply (fun H => proj2 (Hjobs (posting "job-1" "Backend Engineer") H) (response 55));
      [simpl; tauto | reflexivity].
  - apply (fun H => proj2 (Hjobs (posting "job-3" "Frontend Engineer") H) (response 55));
      [simpl; tauto | reflexivity].
  - apply (fun H => proj2 (Hjobs (posting "job-4" "Site Reliability Engineer") H) (response 80));
      [simpl; tauto | reflexivity].
  - apply (fun H => proj2 (Hjobs (posting "job-5" "Engineering Manager") H) (response 55));
      [simpl; tauto | reflexivity].
Defined.

(** ** Retention of finished tasks *)

Lemma fold_delete_lookup (due : list (N * string)) (m : gmap string Task) (k : string) :
  fold_left (fun m tm => delete (snd tm) m) due m !! k =
    if existsb (fun tm => String.eqb (snd tm) k) due then None else m !! k.
Proof.
  revert m. induction due as [| tm due IH]; intros m; simpl; [reflexivity |].
  rewrite IH. destruct (String.eqb (snd tm) k) eqn:E; simpl.
  - apply String.eqb_eq in E. subst k. rewrite lookup_delete_eq.
    now destruct (existsb _ due).
  - apply String.eqb_neq in E. rewrite lookup_delete_ne by assumption. reflexivity.
Qed.

(** A task for which no timer is pending stays in the registry for ever. *)
Lemma advance_lookup_kept (w : World) (taskId : string) (dt : N) :
  (forall tm, In tm (timers w) -> snd tm <> taskId) ->
  tasks (advance dt w) !! taskId = tasks w !! taskId.
Proof.
  intros H. unfold advance; cbn [tasks]. rewrite fold_delete_lookup.
  destruct (existsb _ _) eqn:E; [| reflexivity].
  apply existsb_exists in E. destruct E as (tm & Hin & Heq).
  apply filter_In in Hin. apply String.eqb_eq in Heq.
  now destruct (H tm (proj1 Hin)).
Qed.

(** A task whose timer has come due is gone. *)
Lemma advance_lookup_purged (w : World) (taskId : string) (due dt : N) :
  In (due, taskId) (timers w) -> (due <= clock w + dt)%N ->
  tasks (advance dt w) !! taskId = None.
Proof.
  intros Hin Hdue. unfold advance; cbn [tasks]. rewrite fold_delete_lookup.
  destruct (existsb _ _) eqn:E; [reflexivity |].
  assert (existsb (fun tm : N * string => String.eqb (snd tm) taskId)
            (filter (fun tm => (fst tm <=? clock w + dt)%N) (timers w)) = true) as T.
  { apply existsb_exists. exists (due, taskId). split.
    - apply filter_In. split; [assumption |]. now apply N.leb_le.
    - apply String.eqb_refl. }
  congruence.
Qed.

(** Whatever the collaborators answer afterwards, a search that finds no
    posting ends with a completed task that is never purged, unless a timer
    for its id was pending before. *)
Lemma zero_results_never_purged
    (searchJobs : string -> string -> Q -> option string -> option string ->
                  Outcome (list JobPosting))
    (findById : string -> Outcome (option User))
    (post : ResumeData -> JobPosting -> option Weights -> Outcome (option AtsResponse))
    (taskId userId keyword searchLocation : string) (experienceLevel : option Q)
    (resumeId : option string) (atsWeights : option Weights)
    (company platform : option string) (w : World) (task : Task) (dt : N) :
  tasks w !! taskId = Some task ->
  (forall tm, In tm (timers w) -> snd tm <> taskId) ->
  searchJobs keyword searchLocation (or_num experienceLevel 0) company platform =
    Returns [] ->
  exists task',
    tasks (advance dt (processJobSearch searchJobs findById post taskId userId keyword
                         searchLocation experienceLevel resumeId atsWeights company
                         platform w)) !! taskId = Some task' /\
    t_completed task' = true.
Proof.
  intros Ht Hno Hs.
  rewrite advance_lookup_kept.
  - enter_run Ht Hs.
    destruct (findById userId) as [user | message];
      cbn [tasks]; rewrite lookup_insert_eq; eexists; split; reflexivity.
  - enter_run Ht Hs.
    destruct (findById userId) as [user | message]; cbn [timers]; exact Hno.
Qed.

(** The run that analyses the postings sets the timer: once the five
    minutes are over the task is gone and a poll answers "not found". *)
Lemma analysed_run_purged
    (searchJobs : string -> string -> Q -> option string -> option string ->
                  Outcome (list JobPosting))
    (findById : string -> Outcome (option User))
    (post : ResumeData -> JobPosting -> option Weights -> Outcome (option AtsResponse))
    (taskId userId keyword searchLocation resumeId : string)
    (experienceLevel : option Q) (atsWeights : option Weights)
    (company platform : option string) (w : World) (task : Task)
    (allJobs : list JobPosting) (user : option User) (detail : ResumeDetail)
    (resumeData : ResumeData) (dt : N) :
  tasks w !! taskId = Some task ->
  searchJobs keyword searchLocation (or_num experienceLevel 0) company platform =
    Returns allJobs ->
  allJobs <> [] ->
  resumeId <> "" ->
  findById userId = Returns user ->
  findResume user resumeId = Some detail ->
  rd_resumeData detail = Some resumeData ->
  (retention <= dt)%N ->
  pollJobSearch taskId
    (advance dt (processJobSearch searchJobs findById post taskId userId keyword
                   searchLocation experienceLevel (Some resumeId) atsWeights company
                   platform w)) =
  NotFound404 "Task not found or expired".
Proof.
  intros Ht Hs Hne Hid Hu Hr Hd Hdt. unfold pollJobSearch.
  rewrite (advance_lookup_purged _ taskId (clock w + retention) dt); [reflexivity | |];
    enter_run Ht Hs;
    (destruct allJobs as [| j0 rest]; [congruence |]);
    cbn [List.length Nat.eqb];
    (assert (truthy (Some resumeId) = true) as ->
       by (simpl; destruct (String.eqb resumeId "") eqn:E;
           [apply String.eqb_eq in E; congruence | reflexivity]));
    cbn [negb]; rewrite Hu; cbn [or_empty]; rewrite Hr;
    destruct detail as [did dname ddata]; simpl in Hd; subst ddata.
  - cbn [timers]. apply in_or_app. right. now left.
  - cbn [clock]. lia.
Qed.

(** C9 at its failing inputs.  The runs of the sample search that end
    early, with no posting found, with no resume id, with an unknown resume
    id, or with the provider failing, leave a finished task and set no
    timer: however much time passes, a poll still finds the task. *)
Theorem early_exit_task_never_purged (dt : N) :
  (exists body,
     pollJobSearch "task-1" (advance dt (runSearch (providerFinds []) (Some "resume-1")))
       = Ok200 body /\
     p_completed body = true /\ p_status body = completed /\ p_jobs body = []) /\
  (exists body,
     pollJobSearch "task-1" (advance dt (runSearch (providerFinds fiveJobs) None))
       = Ok200 body /\
     p_completed body = true /\ p_status body = completed) /\
  (exists body,
     pollJobSearch "task-1" (advance dt (runSearch (providerFinds fiveJobs) (Some "resume-9")))
       = Ok200 body /\
     p_completed body = true /\ p_status body = completed) /\
  (exists body,
     pollJobSearch "task-1" (advance dt (runSearch providerDown (Some "resume-1")))
       = Ok200 body /\
     p_completed body = true /\ p_status body = failed).
Proof.
  unfold pollJobSearch.
  repeat split;
    (rewrite advance_lookup_kept; [| vm_compute; tauto]);
    vm_compute; eexists; repeat split.
Qed.

(** * Further properties *)

Import SearchController AtsController Vocabulary Samples.

(** ** Keyword sets *)

Lemma str_has_In (s : list string) (x : string) : str_has s x = true <-> In x s.
Proof. apply has_In, String.eqb_eq. Qed.

Lemma In_str_set (l : list string) (x : string) : In x (str_set l) <-> In x l.
Proof. apply In_from_list, String.eqb_eq. Qed.

Lemma NoDup_str_set (l : list string) : NoDup (str_set l).
Proof. apply NoDup_fold_add; [apply String.eqb_eq | constructor]. Qed.

Lemma str_set_nil (l : list string) : str_set l = [] <-> l = [].
Proof.
  split; [| now intros ->].
  destruct l as [| x l]; [reflexivity |]. intros H.
  assert (In x (str_set (x :: l))) as HI by (apply In_str_set; now left).
  rewrite H in HI. destruct HI.
Qed.

(** Two duplicate-free lists with the same elements have the same size. *)
Lemma same_elements_length {A} (l l' : list A) :
  NoDup l -> NoDup l' -> (forall x, In x l <-> In x l') ->
  List.length l = List.length l'.
Proof. intros H H' E. apply Permutation_length. now apply NoDup_Permutation. Qed.

Lemma count_in_comm (s t : list string) :
  NoDup s -> NoDup t -> count_in s t = count_in t s.
Proof.
  intros Hs Ht. unfold count_in.
  apply same_elements_length; try now apply NoDup_filter.
  intros x. rewrite !filter_In, !str_has_In. tauto.
Qed.

Lemma union_size_comm (s t : list string) :
  List.length (str_set (s ++ t)) = List.length (str_set (t ++ s)).
Proof.
  apply same_elements_length; try apply NoDup_str_set.
  intros x. rewrite !In_str_set, !in_app_iff. tauto.
Qed.

Lemma count_in_le_union (s t : list string) :
  NoDup s -> (count_in s t <= List.length (str_set (s ++ t)))%nat.
Proof.
  intros Hs. unfold count_in. apply NoDup_incl_length; [now apply NoDup_filter |].
  intros x Hx. apply filter_In in Hx. apply In_str_set, in_or_app. now left.
Qed.

Lemma count_in_self (s : list string) : count_in s s = List.length s.
Proof.
  unfold count_in. f_equal. apply forallb_filter_id.
  apply forallb_forall. intros x Hx. now apply str_has_In.
Qed.

Lemma union_size_self (s : list string) :
  NoDup s -> List.length (str_set (s ++ s)) = List.length s.
Proof.
  intros H. apply same_elements_length; [apply NoDup_str_set | assumption |].
  intros x. rewrite In_str_set, in_app_iff. tauto.
Qed.

(** [i / n * 100] is a percentage when [i <= n]. *)
Lemma ratio_percent (i n : nat) :
  (i <= n)%nat -> (0 < n)%nat -> percent (of_nat i / of_nat n * 100)%Q.
Proof.
  intros Hi Hn. unfold percent, of_nat.
  assert (0 <= inject_Z (Z.of_nat i))%Q as L by (change 0%Q with (inject_Z 0); rewrite <- Zle_Qle; lia).
  assert (inject_Z (Z.of_nat i) <= inject_Z (Z.of_nat n))%Q as U by (rewrite <- Zle_Qle; lia).
  assert (0 < inject_Z (Z.of_nat n))%Q as P by (change 0%Q with (inject_Z 0); rewrite <- Zlt_Qlt; lia).
  set (a := inject_Z (Z.of_nat i)) in *. set (b := inject_Z (Z.of_nat n)) in *.
  assert (0 <= a / b)%Q as L' by (apply Qle_shift_div_l; [assumption | lra]).
  assert (a / b <= 1)%Q as U' by (apply Qle_shift_div_r; [assumption | lra]).
  split; lra.
Qed.

Lemma ratio_full (n : nat) : (0 < n)%nat -> (of_nat n / of_nat n * 100 == 100)%Q.
Proof.
  intros Hn. unfold of_nat.
  assert (0 < inject_Z (Z.of_nat n))%Q as P by (change 0%Q with (inject_Z 0); rewrite <- Zlt_Qlt; lia).
  field. lra.
Qed.

(** X1.  The Jaccard similarity does not depend on the order of its two
    texts. *)
Theorem similarity_symmetric (text1 text2 : string) :
  calculateTextSimilarity text1 text2 = calculateTextSimilarity text2 text1.
Proof.
  unfold calculateTextSimilarity.
  rewrite (orb_comm (String.eqb text1 "")).
  destruct (String.eqb text2 "" || String.eqb text1 ""); [reflexivity |].
  rewrite (orb_comm (List.length (str_set (extractKeywords text1)) =? 0)%nat).
  destruct ((List.length (str_set (extractKeywords text2)) =? 0)%nat
            || (List.length (str_set (extractKeywords text1)) =? 0)%nat); [reflexivity |].
  rewrite (count_in_comm (str_set (extractKeywords text1)) (str_set (extractKeywords text2)))
    by apply NoDup_str_set.
  now rewrite (union_size_comm (str_set (extractKeywords text1))).
Qed.

Lemma similarity_percent (text1 text2 : string) :
  percent (calculateTextSimilarity text1 text2).
Proof.
  assert (Z0 : percent 0%Q) by (split; discriminate).
  unfold calculateTextSimilarity.
  destruct (String.eqb text1 "" || String.eqb text2 ""); [exact Z0 |].
  destruct ((List.length (str_set (extractKeywords text1)) =? 0)%nat
            || (List.length (str_set (extractKeywords text2)) =? 0)%nat); [exact Z0 |].
  destruct (0 <? _)%nat eqn:E; [| exact Z0].
  apply Nat.ltb_lt in E.
  apply ratio_percent; [apply count_in_le_union, NoDup_str_set | assumption].
Qed.

Lemma overlap_percent (text1 text2 : string) :
  percent (calculateKeywordOverlap text1 text2).
Proof.
  unfold calculateKeywordOverlap.
  destruct (List.length (str_set (extractKeywords text2)) =? 0)%nat eqn:E;
    [split; discriminate |].
  apply Nat.eqb_neq in E.
  apply ratio_percent; [apply filter_length_le | lia].
Qed.

(** X2.  The similarity and the keyword overlap of any two texts are
    percentages. *)
Theorem text_measures_percent (text1 text2 : string) :
  percent (calculateTextSimilarity text1 text2) /\
  percent (calculateKeywordOverlap text1 text2).
Proof. split; [apply similarity_percent | apply overlap_percent]. Qed.

(** X3.  A text with a keyword is fully similar to itself and fully
    overlaps itself; a text without keywords scores 0 against itself. *)
Theorem text_measures_self (text : string) :
  (extractKeywords text = [] ->
     calculateTextSimilarity text text = 0%Q /\ calculateKeywordOverlap text text = 0%Q) /\
  (extractKeywords text <> [] ->
     (calculateTextSimilarity text text == 100)%Q /\
     (calculateKeywordOverlap text text == 100)%Q).
Proof.
  split.
  - intros H. unfold calculateTextSimilarity, calculateKeywordOverlap. rewrite H.
    simpl. now destruct (String.eqb text "").
  - intros H.
    assert (0 < List.length (str_set (extractKeywords text)))%nat as P.
    { destruct (str_set (extractKeywords text)) eqn:E; [| simpl; lia].
      apply (proj1 (str_set_nil _)) in E. congruence. }
    assert (String.eqb text "" = false) as T.
    { destruct (String.eqb text "") eqn:E; [| reflexivity].
      apply String.eqb_eq in E. subst. now destruct H. }
    unfold calculateTextSimilarity, calculateKeywordOverlap. rewrite T. cbn [orb].
    destruct (List.length (str_set (extractKeywords text)) =? 0)%nat eqn:E;
      [apply Nat.eqb_eq in E; lia |]. cbn [orb].
    rewrite count_in_self, (union_size_self _ (NoDup_str_set _)).
    destruct (0 <? _)%nat eqn:L; [| apply Nat.ltb_ge in L; lia].
    split; now apply ratio_full.
Qed.

(** ** The shape of keywords *)

Lemma kept_keyword_char (c : ascii) :
  kept c = true -> is_space c = false -> keyword_char c = true.
Proof.
  unfold kept, keyword_char. intros H S. rewrite S in H.
  destruct (is_lower c), (is_digit c), (Ascii.eqb c "+"), (Ascii.eqb c "#"),
    (Ascii.eqb c "."); simpl in *; congruence.
Qed.

Lemma collapse_chars (s : string) (in_run : bool) :
  all_chars (fun c => keyword_char c || Ascii.eqb c " ")
            (collapse in_run (blank_others s)) = true.
Proof.
  revert in_run. induction s as [| c r IH]; intros in_run; [reflexivity |].
  cbn [blank_others collapse].
  assert (K : kept (if kept c then c else " "%char) = true)
    by (destruct (kept c) eqn:E; [exact E | reflexivity]).
  destruct (is_space (if kept c then c else " "%char)) eqn:S.
  - destruct in_run; cbn [all_chars]; rewrite ?IH; reflexivity.
  - cbn [all_chars]. rewrite (kept_keyword_char _ K S), IH. reflexivity.
Qed.

Lemma trimStart_chars (p : ascii -> bool) (s : string) :
  all_chars p s = true -> all_chars p (trimStart s) = true.
Proof.
  induction s as [| c r IH]; [reflexivity |]. cbn [trimStart all_chars].
  intros H. apply andb_prop in H. destruct H as [Hc Hr].
  destruct (is_space c); [now apply IH |]. cbn [all_chars]. now rewrite Hc, Hr.
Qed.

Lemma trimEnd_chars (p : ascii -> bool) (s : string) :
  all_chars p s = true -> all_chars p (trimEnd s) = true.
Proof.
  induction s as [| c r IH]; [reflexivity |]. cbn [trimEnd all_chars].
  intros H. apply andb_prop in H. destruct H as [Hc Hr]. specialize (IH Hr).
  destruct (trimEnd r) as [| d r'].
  - destruct (is_space c); [reflexivity |]. cbn [all_chars]. now rewrite Hc.
  - cbn [all_chars] in *. now rewrite Hc, IH.
Qed.

Lemma split_chars (s w : string) :
  all_chars (fun c => keyword_char c || Ascii.eqb c " ") s = true ->
  In w (split " " s) -> all_chars keyword_char w = true.
Proof.
  revert w. induction s as [| c r IH]; intros w H Hw.
  - destruct Hw as [<- | []]. reflexivity.
  - cbn [all_chars] in H. apply andb_prop in H. destruct H as [Hc Hr].
    cbn [split] in Hw. destruct (Ascii.eqb c " ") eqn:E.
    + destruct Hw as [<- | Hw]; [reflexivity | now apply IH].
    + rewrite orb_false_r in Hc.
      destruct (split " " r) as [| v vs] eqn:Es.
      * destruct Hw as [<- | []]. cbn [all_chars]. now rewrite Hc.
      * destruct Hw as [<- | Hw].
        -- cbn [all_chars]. rewrite Hc. apply IH; [assumption | now left].
        -- apply IH; [assumption | now right].
Qed.

(** X4.  Every keyword is at least [minLength] characters long, is no stop
    word, and is made of lower-case letters, digits, [+], [#] and [.] only. *)
Theorem extractKeywords_shape (text : string) (minLength : nat) (word : string) :
  In word (extractKeywordsMin text minLength) ->
  (minLength <= String.length word)%nat /\
  ~ In word STOPWORDS /\
  all_chars keyword_char word = true.
Proof.
  unfold extractKeywordsMin. destruct (String.eqb text "") eqn:T; [intros [] |].
  intros H. apply filter_In in H. destruct H as [Hw Hf].
  apply andb_prop in Hf. destruct Hf as [Hl Hs].
  split; [now apply Nat.leb_le |]. split.
  - intros HI. apply str_has_In in HI. rewrite HI in Hs. discriminate.
  - apply (split_chars (cleanText text)); [| assumption].
    unfold cleanText. rewrite T. unfold trim.
    apply trimEnd_chars, trimStart_chars, collapse_chars.
Qed.

(** ** Case of skill names *)

Lemma lower_char_idem (c : ascii) : lower_char (lower_char c) = lower_char c.
Proof. destruct c as [[] [] [] [] [] [] [] []]; reflexivity. Qed.

Lemma toLowerCase_idem (s : string) : toLowerCase (toLowerCase s) = toLowerCase s.
Proof.
  induction s as [| c r IH]; [reflexivity |]. simpl. now rewrite lower_char_idem, IH.
Qed.

Lemma normalizeSkill_toLowerCase (skill : string) :
  normalizeSkill (toLowerCase skill) = normalizeSkill skill.
Proof.
  unfold normalizeSkill. rewrite toLowerCase_idem. now destruct skill.
Qed.

Lemma normalizeStep_toLowerCase (normalized : list Skill) (skill : string) :
  normalizeStep normalized (toLowerCase skill) = normalizeStep normalized skill.
Proof.
  unfold normalizeStep. rewrite normalizeSkill_toLowerCase. now destruct skill.
Qed.

Lemma normalizeSkills_toLowerCase (skills : list string) :
  normalizeSkills (map toLowerCase skills) = normalizeSkills skills.
Proof.
  unfold normalizeSkills. generalize (@nil Skill).
  induction skills as [| s l IH]; intros acc; [reflexivity |].
  simpl. now rewrite normalizeStep_toLowerCase, IH.
Qed.

(** X5.  The case of the resume skills does not matter: the skill analysis
    of a resume list and of its lower-case copy are the same. *)
Theorem matchSkills_case_insensitive
    (resumeSkills : list string) (requiredSkills preferredSkills : option (list string)) :
  matchSkills (Some (map toLowerCase resumeSkills)) requiredSkills preferredSkills =
  matchSkills (Some resumeSkills) requiredSkills preferredSkills.
Proof.
  assert (M : forall J, matchSkillsWithSynonyms (Some (map toLowerCase resumeSkills)) J =
                        matchSkillsWithSynonyms (Some resumeSkills) J).
  { intros J. destruct resumeSkills as [| s l]; [reflexivity |].
    destruct J as [[| j k] |]; try reflexivity.
    pose proof (normalizeSkills_toLowerCase (s :: l)) as E. simpl map in *.
    unfold matchSkillsWithSynonyms. now rewrite E. }
  unfold matchSkills. now rewrite !M.
Qed.

(** ** Scores of the skill analysis *)

Lemma percent_zero : percent 0%Q.
Proof. split; discriminate. Qed.

Lemma round2_le (x y : Q) : (x <= y)%Q -> (round2 x <= round2 y)%Q.
Proof.
  intros H. unfold round2, Math_round.
  assert (Qfloor (x * 100 + (1 # 2)) <= Qfloor (y * 100 + (1 # 2)))%Z as L
    by (apply Qfloor_resp_le; lra).
  rewrite Zle_Qle in L.
  apply Qmult_le_compat_r; [assumption | discriminate].
Qed.

(** The two ways through [matchSkillsWithSynonyms]. *)
Lemma matchSkillsWithSynonyms_cases (S J : option (list string)) :
  (nonempty S /\ nonempty J /\
   matched (matchSkillsWithSynonyms S J) =
     filter (skill_has (normalizeSkills (or_nil S))) (normalizeSkills (or_nil J)) /\
   missing (matchSkillsWithSynonyms S J) =
     filter (fun x => negb (skill_has (normalizeSkills (or_nil S)) x))
            (normalizeSkills (or_nil J)) /\
   matchPct (matchSkillsWithSynonyms S J) =
     if (0 <? List.length (normalizeSkills (or_nil J)))%nat
     then (of_nat (List.length (matched (matchSkillsWithSynonyms S J))) /
           of_nat (List.length (normalizeSkills (or_nil J))))%Q
     else 0%Q) \/
  (~ (nonempty S /\ nonempty J) /\
   matchSkillsWithSynonyms S J =
     {| matched := []; missing := skill_set (map Str (or_nil J)); matchPct := 0 |}).
Proof.
  destruct S as [[| s S] |]; try (right; split; [simpl; tauto | now destruct J as [[|] |]]).
  destruct J as [[| j J] |]; try (right; split; [simpl; tauto | reflexivity]).
  left. split; [exact I |]. split; [exact I |].
  unfold matchSkillsWithSynonyms.
  rewrite (classify_filter _ _ [] [] (NoDup_normalizeSkills (j :: J)))
    by (intros x _; split; intros []).
  repeat split.
Qed.

Lemma matchPct_unit (S J : option (list string)) :
  (0 <= matchPct (matchSkillsWithSynonyms S J) /\
   matchPct (matchSkillsWithSynonyms S J) <= 1)%Q.
Proof.
  destruct (matchSkillsWithSynonyms_cases S J) as [(_ & _ & Hm & _ & Hp) | [_ ->]];
    [| split; discriminate].
  rewrite Hp, Hm. destruct (0 <? _)%nat eqn:E; [| split; discriminate].
  apply Nat.ltb_lt in E.
  destruct (ratio_percent
              (List.length (filter (skill_has (normalizeSkills (or_nil S)))
                                   (normalizeSkills (or_nil J))))
              (List.length (normalizeSkills (or_nil J)))
              (filter_length_le _ _) E) as [L U].
  split; lra.
Qed.

Lemma requiredMatch_percent (S R P : option (list string)) :
  percent (requiredMatchPercentage (matchSkills S R P)).
Proof.
  unfold matchSkills; cbn [requiredMatchPercentage].
  destruct (matchPct_unit S R) as [L1 U1].
  apply round2_percent; unfold percent; split; lra.
Qed.

Lemma overallSkill_percent (S R P : option (list string)) :
  percent (overallSkillScore (matchSkills S R P)).
Proof.
  unfold matchSkills; cbn [overallSkillScore].
  destruct (matchPct_unit S R) as [L1 U1]. destruct (matchPct_unit S P) as [L2 U2].
  apply round2_percent; unfold percent; split; lra.
Qed.

(** X6.  The three percentages of a skill analysis lie between 0 and 100,
    whatever the three skill lists are. *)
Theorem matchSkills_percent (S R P : option (list string)) :
  percent (requiredMatchPercentage (matchSkills S R P)) /\
  percent (preferredMatchPercentage (matchSkills S R P)) /\
  percent (overallSkillScore (matchSkills S R P)).
Proof.
  split; [apply requiredMatch_percent |]. split; [| apply overallSkill_percent].
  unfold matchSkills; cbn [preferredMatchPercentage].
  destruct (matchPct_unit S P) as [L2 U2].
  apply round2_percent; unfold percent; split; lra.
Qed.

(** X7.  A resume without skills matches nothing: its three percentages are
    0 and both matched lists are empty, whatever the job asks for. *)
Theorem matchSkills_empty_resume (S R P : option (list string)) :
  ~ nonempty S ->
  let res := matchSkills S R P in
  matchedRequired res = [] /\ matchedPreferred res = [] /\ totalMatched res = 0%nat /\
  (requiredMatchPercentage res == 0)%Q /\
  (preferredMatchPercentage res == 0)%Q /\
  (overallSkillScore res == 0)%Q.
Proof.
  intros N. cbv zeta. unfold matchSkills.
  cbn [matchedRequired matchedPreferred totalMatched requiredMatchPercentage
       preferredMatchPercentage overallSkillScore].
  assert (G : forall J, matchSkillsWithSynonyms S J =
                        {| matched := []; missing := skill_set (map Str (or_nil J));
                           matchPct := 0 |}).
  { intros J. destruct (matchSkillsWithSynonyms_cases S J) as [(Y & _) | [_ E]];
      [contradiction | exact E]. }
  rewrite !G. cbn [matched matchPct]. repeat split.
Qed.

Lemma In_normalizeStep (normalized : list Skill) (skill : string) (x : Skill) :
  In x normalized -> In x (normalizeStep normalized skill).
Proof.
  intros H. unfold normalizeStep. destruct (String.eqb skill ""); [assumption |].
  assert (In x (skill_add normalized (normalizeSkill skill))) as H'
    by (apply In_skill_add; now left).
  destruct (synonymsOf (normalizeSkill skill)) as [syns |]; [| assumption].
  revert H'. generalize (skill_add normalized (normalizeSkill skill)).
  induction syns as [| syn syns IH]; intros acc H'; simpl; [assumption |].
  apply IH, In_skill_add. now left.
Qed.

Lemma normalizeSkills_app (S S' : list string) (x : Skill) :
  In x (normalizeSkills S) -> In x (normalizeSkills (S ++ S')).
Proof.
  unfold normalizeSkills. rewrite fold_left_app.
  generalize (fold_left normalizeStep S []).
  induction S' as [| s l IH]; intros acc H; simpl; [assumption |].
  now apply IH, In_normalizeStep.
Qed.

Lemma filter_length_mono {A} (p q : A -> bool) (l : list A) :
  (forall x, p x = true -> q x = true) ->
  (List.length (filter p l) <= List.length (filter q l))%nat.
Proof.
  intros H. induction l as [| x l IH]; simpl; [lia |].
  destruct (p x) eqn:E.
  - rewrite (H x E). simpl. lia.
  - destruct (q x); simpl; lia.
Qed.

Lemma matchPct_more_skills (S S' : list string) (J : option (list string)) :
  (matchPct (matchSkillsWithSynonyms (Some S) J) <=
   matchPct (matchSkillsWithSynonyms (Some (S ++ S')) J))%Q.
Proof.
  destruct (matchSkillsWithSynonyms_cases (Some S) J) as [(Y & YJ & Hm & _ & Hp) | [_ E]].
  - destruct (matchSkillsWithSynonyms_cases (Some (S ++ S')) J)
      as [(_ & _ & Hm' & _ & Hp') | [N _]].
    + rewrite Hp, Hp', Hm, Hm'. destruct (0 <? _)%nat eqn:Z; [| discriminate].
      apply Nat.ltb_lt in Z. unfold Qdiv.
      apply Qmult_le_compat_r.
      * unfold of_nat. rewrite <- Zle_Qle. apply Nat2Z.inj_le.
        apply filter_length_mono. intros x Hx.
        apply skill_has_In. apply skill_has_In in Hx. simpl. now apply normalizeSkills_app.
      * apply Qinv_le_0_compat. unfold of_nat.
        change 0%Q with (inject_Z 0). rewrite <- Zle_Qle. lia.
    + exfalso. apply N. split; [| assumption].
      destruct S; [destruct Y | exact I].
  - rewrite E. cbn [matchPct]. apply matchPct_unit.
Qed.

(** X8.  Adding skills to a resume never loses a match: every required
    skill matched before is still matched, and none of the three percentages
    goes down. *)
Theorem matchSkills_more_skills (S S' : list string) (R P : option (list string)) :
  let before := matchSkills (Some S) R P in
  let after := matchSkills (Some (S ++ S')) R P in
  (forall x, In x (matchedRequired before) -> In x (matchedRequired after)) /\
  (requiredMatchPercentage before <= requiredMatchPercentage after)%Q /\
  (preferredMatchPercentage before <= preferredMatchPercentage after)%Q /\
  (overallSkillScore before <= overallSkillScore after)%Q.
Proof.
  cbv zeta. unfold matchSkills.
  cbn [matchedRequired requiredMatchPercentage preferredMatchPercentage overallSkillScore].
  pose proof (matchPct_more_skills S S' R) as HR.
  pose proof (matchPct_more_skills S S' P) as HP.
  split; [| repeat split; apply round2_le; lra].
  intros x Hx.
  destruct (matchSkillsWithSynonyms_cases (Some S) R) as [(Y & YJ & Hm & _) | [_ E]];
    [| rewrite E in Hx; destruct Hx].
  destruct (matchSkillsWithSynonyms_cases (Some (S ++ S')) R) as [(_ & _ & Hm' & _) | [N _]].
  - rewrite Hm in Hx. rewrite Hm'. apply filter_In in Hx. apply filter_In.
    destruct Hx as [Hj Hr]. split; [assumption |].
    apply skill_has_In. apply skill_has_In in Hr. simpl. now apply normalizeSkills_app.
  - exfalso. apply N. split; [| assumption]. destruct S; [destruct Y | exact I].
Qed.

(** X9.  A resume that lists the required skills themselves misses none of
    them, and its required match is 100 percent as soon as one required
    name is left after normalization. *)
Theorem matchSkills_same_list (R : list string) (P : option (list string)) :
  let res := matchSkills (Some R) (Some R) P in
  missingRequired res = [] /\
  (normalizeSkills R <> [] -> (requiredMatchPercentage res == 100)%Q).
Proof.
  cbv zeta. unfold matchSkills. cbn [missingRequired requiredMatchPercentage].
  assert (F : filter (skill_has (normalizeSkills R)) (normalizeSkills R) = normalizeSkills R).
  { apply forallb_filter_id, forallb_forall. intros x Hx. now apply skill_has_In. }
  assert (F' : filter (fun x => negb (skill_has (normalizeSkills R) x)) (normalizeSkills R) = []).
  { pose proof (filter_length (skill_has (normalizeSkills R)) (normalizeSkills R)) as L.
    rewrite F in L. apply length_zero_iff_nil. lia. }
  destruct (matchSkillsWithSynonyms_cases (Some R) (Some R)) as [(_ & _ & Hm & Hs & Hp) | [N E]].
  - simpl or_nil in *. rewrite Hs, Hp, Hm, F, F'. split; [reflexivity |].
    intros NE. destruct (0 <? _)%nat eqn:Z.
    + apply Nat.ltb_lt in Z.
      assert (of_nat (List.length (normalizeSkills R)) /
              of_nat (List.length (normalizeSkills R)) * 100 == 100)%Q as Q100
        by now apply ratio_full.
      unfold round2, Math_round. rewrite Q100. reflexivity.
    + apply Nat.ltb_ge in Z. destruct (normalizeSkills R); [congruence | simpl in Z; lia].
  - destruct R as [| r R]; [| exfalso; apply N; simpl; tauto].
    rewrite E. cbn [missing matchPct]. split; [reflexivity |]. intros NE. now destruct NE.
Qed.

(** X10.  The skills extracted from a text are distinct, belong to the
    technical vocabulary, and are technical terms or keywords of the text. *)
Theorem extractSkillsFromText_vocabulary (text : string) :
  NoDup (extractSkillsFromText text) /\
  forall skill, In skill (extractSkillsFromText text) ->
    In (toLowerCase skill) techKeywords /\
    (In skill (extractTechnicalTerms text) \/ In skill (extractKeywords text)).
Proof.
  unfold extractSkillsFromText. destruct (String.eqb text ""); [split; [constructor | intros ? []] |].
  split; [apply NoDup_filter, NoDup_str_set |].
  intros skill H. apply filter_In in H. destruct H as [Hin Hv].
  split; [exact (proj1 (str_has_In _ _) Hv) |].
  apply (proj1 (In_str_set _ _)) in Hin. apply in_app_or. exact Hin.
Qed.

(** ** Weights *)

(** X11.  The role type is looked up without regard to case, and what the
    lookup gives is either a table of six non-negative weights that sum to
    one, or a member that every object inherits, when the lower-cased role
    type is the name of such a member. *)
Theorem getWeights_tables (roleType : string) :
  getWeights (Some (toLowerCase roleType)) = getWeights (Some roleType) /\
  match getWeights (Some roleType) with
  | WObject w => weights_nonneg w /\ (weights_sum w == 1)%Q
  | WInherited name => name = toLowerCase roleType /\ In name Object_prototype
  end.
Proof.
  split; [unfold getWeights; now rewrite toLowerCase_idem |].
  destruct (getWeights (Some roleType)) as [w | name] eqn:E.
  - exact (role_weights _ _ E).
  - unfold getWeights, get in E.
    destruct (own weightsMap (toLowerCase roleType)); [discriminate |].
    destruct (str_has Object_prototype (toLowerCase roleType)) eqn:H; [| discriminate].
    injection E as <-. split; [reflexivity |].
    exact (proj1 (str_has_In _ _) H).
Qed.

(** ** Hard filters *)

(** X12.  The location check always passes, the verdict is the conjunction
    of the other three checks, and there is one failure reason for each
    failed check: the list of reasons is empty exactly when the filters
    pass. *)
Theorem hardFilters_consistent (resume : Resume) (job : Job) :
  let h := _evaluateHardFilters resume job in
  locationMatch h = true /\
  passed h = workAuthorizationMatch h && experienceMatch h && educationMatch h /\
  List.length (failureReasons h) = failedChecks h /\
  (passed h = true <-> failureReasons h = []).
Proof.
  cbv zeta. unfold _evaluateHardFilters, failedChecks.
  cbn [locationMatch passed workAuthorizationMatch experienceMatch educationMatch
       failureReasons].
  destruct (_checkWorkAuthorization _ _), (_checkExperience _ _ _), (_checkEducation _ _ _);
    cbn [negb andb app List.length Nat.add];
    repeat split; intros; try reflexivity; discriminate.
Qed.

(** ** Education *)

Lemma raise_ge (table : list (string * nat)) (text : string) (level : nat) :
  (level <=
   fold_left (fun acc '(degree, lv) => if includes text degree then Nat.max acc lv else acc)
             table level)%nat.
Proof.
  revert level. induction table as [| [degree lv] r IH]; intros level; simpl; [lia |].
  destruct (includes text degree); [| apply IH].
  etransitivity; [| apply IH]. lia.
Qed.

Lemma raise_mono (table : list (string * nat)) (text : string) (a b : nat) :
  (a <= b)%nat ->
  (fold_left (fun acc '(degree, lv) => if includes text degree then Nat.max acc lv else acc)
             table a <=
   fold_left (fun acc '(degree, lv) => if includes text degree then Nat.max acc lv else acc)
             table b)%nat.
Proof.
  revert a b. induction table as [| [degree lv] r IH]; intros a b H; simpl; [assumption |].
  destruct (includes text degree); apply IH; lia.
Qed.

Lemma raiseLevel_ge (text : string) (level : nat) : (level <= raiseLevel text level)%nat.
Proof. apply raise_ge. Qed.

Lemma raiseLevel_mono (text : string) (a b : nat) :
  (a <= b)%nat -> (raiseLevel text a <= raiseLevel text b)%nat.
Proof. apply raise_mono. Qed.

Lemma educationLevel_ge (entries : list Education) (level : nat) :
  (level <= fold_left (fun acc edu => raiseLevel (toLowerCase (eduText edu)) acc)
                      entries level)%nat.
Proof.
  revert level. induction entries as [| e l IH]; intros level; simpl; [lia |].
  etransitivity; [apply raiseLevel_ge | apply IH].
Qed.

Lemma educationLevel_mono (entries : list Education) (a b : nat) :
  (a <= b)%nat ->
  (fold_left (fun acc edu => raiseLevel (toLowerCase (eduText edu)) acc) entries a <=
   fold_left (fun acc edu => raiseLevel (toLowerCase (eduText edu)) acc) entries b)%nat.
Proof.
  revert a b. induction entries as [| e l IH]; intros a b H; simpl; [assumption |].
  now apply IH, raiseLevel_mono.
Qed.

(** X13.  Further education entries never turn a passed education check
    into a failed one. *)
Theorem checkEducation_more_entries (highestDegree : option string)
    (entries more : list Education) (requiredEducation : option string) :
  _checkEducation highestDegree entries requiredEducation = true ->
  _checkEducation highestDegree (entries ++ more) requiredEducation = true.
Proof.
  unfold _checkEducation.
  destruct (negb (truthy requiredEducation)); [reflexivity |].
  destruct (negb (truthy highestDegree) && (List.length entries =? 0)%nat) eqn:G;
    [discriminate |].
  assert (negb (truthy highestDegree) && (List.length (entries ++ more) =? 0)%nat = false)
    as ->.
  { destruct (negb (truthy highestDegree)); [| reflexivity]. simpl in *.
    destruct entries; [discriminate | reflexivity]. }
  destruct (firstLevel DEGREE_LEVELS (toLowerCase (or_empty requiredEducation)) =? 0)%nat;
    [reflexivity |].
  rewrite fold_left_app. intros H. apply Nat.leb_le in H. apply Nat.leb_le.
  etransitivity; [exact H | apply educationLevel_ge].
Qed.

Lemma firstLevel_le_5 (text : string) : (firstLevel DEGREE_LEVELS text <= 5)%nat.
Proof.
  unfold DEGREE_LEVELS. cbn [firstLevel].
  repeat (match goal with |- context [if ?b then _ else _] => destruct b end; try lia).
Qed.

Lemma raise_in (table : list (string * nat)) (text degree : string) (lv level : nat) :
  In (degree, lv) table -> includes text degree = true ->
  (lv <=
   fold_left (fun acc '(d, l) => if includes text d then Nat.max acc l else acc)
             table level)%nat.
Proof.
  revert level. induction table as [| [d l] r IH]; intros level Hin H; [destruct Hin |].
  simpl. destruct Hin as [E | Hin].
  - injection E as -> ->. rewrite H. etransitivity; [| apply raise_ge]. lia.
  - now apply IH.
Qed.

Lemma raiseLevel_phd (text : string) (level : nat) :
  includes text "phd" = true -> (5 <= raiseLevel text level)%nat.
Proof.
  intros H. unfold raiseLevel. apply (raise_in DEGREE_LEVELS text "phd"); [| exact H].
  unfold DEGREE_LEVELS. simpl. tauto.
Qed.

(** X14.  A highest degree that mentions a PhD meets every education
    requirement. *)
Theorem checkEducation_phd (highestDegree : string) (entries : list Education)
    (requiredEducation : option string) :
  includes (toLowerCase highestDegree) "phd" = true ->
  _checkEducation (Some highestDegree) entries requiredEducation = true.
Proof.
  intros H. unfold _checkEducation.
  destruct (negb (truthy requiredEducation)); [reflexivity |].
  assert (truthy (Some highestDegree) = true) as T.
  { simpl. destruct highestDegree; [discriminate H | reflexivity]. }
  rewrite T. cbn [negb andb or_empty].
  destruct (firstLevel DEGREE_LEVELS (toLowerCase (or_empty requiredEducation)) =? 0)%nat;
    [reflexivity |].
  apply Nat.leb_le.
  etransitivity; [apply firstLevel_le_5 |].
  etransitivity; [apply (raiseLevel_phd _ 0 H) | apply educationLevel_ge].
Qed.

(** ** Ranges of the sub-scores *)

Lemma Qmin_percent (a : Q) : (0 <= a)%Q -> percent (Qmin a 100).
Proof.
  intros H. unfold Qmin, percent. destruct (Qle_bool a 100) eqn:E.
  - apply Qle_bool_iff in E. tauto.
  - split; [discriminate | apply Qle_refl].
Qed.

Lemma Qmax_one (a : Q) : (1 <= Qmax a 1)%Q.
Proof.
  unfold Qmax. destruct (Qle_bool a 1) eqn:E; [apply Qle_refl |].
  destruct (Qlt_le_dec 1 a) as [L | L]; [lra |].
  apply Qle_bool_iff in L. congruence.
Qed.

Lemma scoreExperience_percent (resume : Resume) (job : Job) :
  (0 <= or_num (r_yearsOfExperience resume) 0)%Q ->
  percent (_scoreExperience resume job).
Proof.
  intros Hy. unfold _scoreExperience. apply Qmin_percent.
  set (minExp := Qmax (or_num (j_minExperience job) 1) 1).
  pose proof (Qmax_one (or_num (j_minExperience job) 1)) as Hm. fold minExp in Hm.
  assert (0 <= or_num (r_yearsOfExperience resume) 0 / minExp)%Q as Hr
    by (apply Qle_shift_div_l; lra).
  destruct (Qmin_percent (or_num (r_yearsOfExperience resume) 0 / minExp * 100))
    as [L U]; [lra |].
  destruct (similarity_percent (join " " (or_nil (r_workExperience resume)))
                               (jobText job)) as [L' U'].
  lra.
Qed.

Lemma scoreProjects_percent (resume : Resume) (job : Job) :
  percent (_scoreProjects resume job).
Proof.
  unfold _scoreProjects. destruct (r_projects resume) as [[| p l] |];
    try apply percent_zero.
  apply Qmin_percent.
  destruct (similarity_percent (join " " (p :: l)) (jobText job)) as [L U].
  destruct (Qmin_percent (of_nat (List.length (p :: l)) * 5)) as [L' U'].
  - unfold of_nat. apply Qmult_le_0_compat; [| discriminate].
    change 0%Q with (inject_Z 0). rewrite <- Zle_Qle. lia.
  - assert (0 <= Qmin (of_nat (List.length (p :: l)) * 5) 20)%Q.
    { unfold Qmin. destruct (Qle_bool _ 20); [| discriminate].
      unfold of_nat. apply Qmult_le_0_compat; [| discriminate].
      change 0%Q with (inject_Z 0). rewrite <- Zle_Qle. lia. }
    lra.
Qed.

Lemma scoreKeywords_percent (resume : Resume) (job : Job) :
  percent (_scoreKeywords resume job).
Proof.
  unfold _scoreKeywords. apply Qmin_percent.
  match goal with
  | |- (0 <= calculateKeywordOverlap ?a ?b)%Q =>
      destruct (overlap_percent a b) as [L _]; exact L
  end.
Qed.

Lemma scoreSummary_percent (resume : Resume) (job : Job) :
  percent (_scoreSummary resume job).
Proof.
  unfold _scoreSummary. destruct (negb (truthy (r_summary resume))).
  - split; discriminate.
  - apply similarity_percent.
Qed.

Lemma scoreEducation_percent (resume : Resume) (job : Job) :
  percent (_scoreEducation resume job).
Proof.
  unfold _scoreEducation.
  repeat (match goal with |- context [if ?b then _ else _] => destruct b end);
    split; discriminate.
Qed.

(** X15.  For a resume whose years of experience are not negative, each of
    the six sub-scores lies between 0 and 100. *)
Theorem subscores_percent (resume : Resume) (job : Job) :
  (0 <= or_num (r_yearsOfExperience resume) 0)%Q ->
  percent (_scoreSkills resume job) /\
  percent (_scoreExperience resume job) /\
  percent (_scoreProjects resume job) /\
  percent (_scoreKeywords resume job) /\
  percent (_scoreSummary resume job) /\
  percent (_scoreEducation resume job).
Proof.
  intros Hy. split; [apply overallSkill_percent |].
  split; [now apply scoreExperience_percent |].
  split; [apply scoreProjects_percent |].
  split; [apply scoreKeywords_percent |].
  split; [apply scoreSummary_percent | apply scoreEducation_percent].
Qed.

(** X16.  With the weights of the role type, or with custom weights that
    are non-negative and sum to one, the overall match percentage of an
    analysis is a number between 0 and 100, provided the years of experience
    are not negative and the role type is not the name of a member that
    every object inherits. *)
Theorem analyze_overall_percent (now : string) (resume : Resume) (job : Job)
    (customWeights : option Weights) :
  (0 <= or_num (r_yearsOfExperience resume) 0)%Q ->
  (forall w, customWeights = Some w -> weights_nonneg w /\ (weights_sum w == 1)%Q) ->
  (customWeights = None -> forall name, getWeights (j_roleType job) <> WInherited name) ->
  num_percent (overallMatchPercentage (analyze now resume job customWeights)).
Proof.
  intros Hy Hc Hn. unfold analyze. cbn [overallMatchPercentage].
  destruct (passed (_evaluateHardFilters resume job));
    [| cbn [num_round2 num_percent]; apply round2_percent, percent_zero].
  pose proof (overallSkill_percent (Some (or_nil (r_skills resume)))
                (Some (or_nil (j_requiredSkills job)))
                (Some (or_nil (j_preferredSkills job)))) as P1.
  fold (_scoreSkills resume job) in P1.
  pose proof (scoreExperience_percent resume job Hy) as P2.
  pose proof (scoreProjects_percent resume job) as P3.
  pose proof (scoreKeywords_percent resume job) as P4.
  pose proof (scoreSummary_percent resume job) as P5.
  pose proof (scoreEducation_percent resume job) as P6.
  assert (W : exists w, (match customWeights with
                         | Some w => WObject w
                         | None => getWeights (j_roleType job)
                         end) = WObject w /\
                        weights_nonneg w /\ (weights_sum w == 1)%Q).
  { destruct customWeights as [w |].
    - exists w. split; [reflexivity | now apply Hc].
    - destruct (getWeights (j_roleType job)) as [w | name] eqn:G.
      + exists w. split; [reflexivity | exact (role_weights _ _ G)].
      + now destruct (Hn eq_refl name). }
  destruct W as (w & E & Wn & Ws).
  unfold _calculateRelevanceScore. rewrite E.
  cbn [weigh weightedTotal num_round2 num_percent].
  apply round2_percent, round2_percent. now apply weighted_sum_percent.
Qed.

Lemma Qfloor_half (z : Z) : Qfloor (inject_Z z + (1 # 2)) = z.
Proof.
  pose proof (Qfloor_le (inject_Z z + (1 # 2))) as L.
  pose proof (Qlt_floor (inject_Z z + (1 # 2))) as U.
  set (f := Qfloor (inject_Z z + (1 # 2))) in *.
  assert (inject_Z (z + 1) == inject_Z z + 1)%Q as Ez
    by (rewrite inject_Z_plus; reflexivity).
  assert (inject_Z f < inject_Z (z + 1))%Q as A by lra.
  assert (inject_Z z < inject_Z (f + 1))%Q as B by lra.
  rewrite <- Zlt_Qlt in A, B. lia.
Qed.

(** Rounding to two decimals a second time changes nothing. *)
Lemma round2_idem (x : Q) : (round2 (round2 x) == round2 x)%Q.
Proof.
  unfold round2 at 1. unfold Math_round.
  set (z := Math_round (x * 100)).
  assert (round2 x * 100 + (1 # 2) == inject_Z z + (1 # 2))%Q as E.
  { unfold round2. fold z. field. }
  rewrite E, Qfloor_half. reflexivity.
Qed.

Lemma recommendations_length (skillAnalysis : SkillAnalysis)
    (relevanceScore : option RelevanceScore) (resume : Resume) (job : Job) :
  (List.length (_generateRecommendations skillAnalysis relevanceScore resume job) <= 5)%nat.
Proof. unfold _generateRecommendations. apply firstn_le_length. Qed.

(** X17.  An analysis carries a relevance score exactly when the hard
    filters pass, its overall match percentage is then the weighted total of
    that score, and it never gives more than five recommendations. *)
Theorem analyze_consistent (now : string) (resume : Resume) (job : Job)
    (customWeights : option Weights) :
  let a := analyze now resume job customWeights in
  (relevanceScore a = None <-> passed (hardFilters a) = false) /\
  (forall rs, relevanceScore a = Some rs ->
              num_eq (overallMatchPercentage a) (weightedTotal rs)) /\
  (List.length (recommendations a) <= 5)%nat.
Proof.
  cbv zeta. unfold analyze.
  cbn [relevanceScore hardFilters overallMatchPercentage recommendations].
  split; [| split; [| apply recommendations_length]].
  - destruct (passed (_evaluateHardFilters resume job)); split; congruence.
  - destruct (passed (_evaluateHardFilters resume job)); [| discriminate].
    intros rs E. injection E as <-.
    unfold _calculateRelevanceScore, weigh. cbn [weightedTotal].
    destruct (match customWeights with
              | Some w => WObject w
              | None => getWeights (j_roleType job)
              end); cbn [num_round2 num_eq]; [apply round2_idem | exact I].
Qed.

(** X18.  The quick score, its skill match percentage and its keyword
    match percentage lie between 0 and 100 for every resume and job. *)
Theorem quickScore_percent (resume : Resume) (job : Job) :
  percent (score (quickScore resume job)) /\
  percent (skillMatchPercentage (quickScore resume job)) /\
  percent (keywordMatchPercentage (quickScore resume job)).
Proof.
  unfold quickScore. cbn [score skillMatchPercentage keywordMatchPercentage].
  set (sa := matchSkills (Some (or_nil (r_skills resume))) (Some (quickJobSkills job))
                         (Some [])).
  destruct (requiredMatch_percent (Some (or_nil (r_skills resume)))
                                  (Some (quickJobSkills job)) (Some [])) as [L1 U1].
  destruct (overallSkill_percent (Some (or_nil (r_skills resume)))
                                 (Some (quickJobSkills job)) (Some [])) as [L3 U3].
  fold sa in L1, U1, L3, U3.
  destruct (overlap_percent (quickResumeText resume) (jobText job)) as [L U].
  split; [| split].
  - apply round2_percent. split; lra.
  - split; assumption.
  - apply round2_percent. split; assumption.
Qed.

(** ** Results and progress of the job search *)

Lemma insertByScore_sorted (x : JobEntry) (l : list JobEntry) :
  Sorted scoreOrder l -> Sorted scoreOrder (insertByScore x l).
Proof.
  induction l as [| y r IH]; intros H; simpl; [repeat constructor |].
  destruct (Qle_bool (sortKey y) (sortKey x)) eqn:E.
  - constructor; [assumption |]. constructor. now apply Qle_bool_iff.
  - assert (sortKey x <= sortKey y)%Q as L.
    { destruct (Qlt_le_dec (sortKey x) (sortKey y)) as [L | L]; [lra |].
      apply Qle_bool_iff in L. congruence. }
    inversion H as [| ? ? Hr Hd]; subst.
    constructor; [now apply IH |].
    destruct r as [| z r']; simpl.
    + constructor. exact L.
    + destruct (Qle_bool (sortKey z) (sortKey x)); constructor;
        [exact L | now inversion Hd].
Qed.

Lemma sortByScore_order (l : list JobEntry) : Sorted scoreOrder (sortByScore l).
Proof.
  induction l as [| x l IH]; simpl; [constructor | now apply insertByScore_sorted].
Qed.

(** X19.  Sorting the results keeps every entry and orders them by
    descending score, an absent score counting as 0. *)
Theorem sortByScore_sorted (l : list JobEntry) :
  Sorted scoreOrder (sortByScore l) /\ Permutation (sortByScore l) l.
Proof. split; [apply sortByScore_order | apply sortByScore_perm]. Qed.

Lemma firstn_add {A} (a b : nat) (l : list A) :
  firstn (a + b) l = firstn a l ++ firstn b (skipn a l).
Proof.
  revert l. induction a as [| a IH]; intros l; [reflexivity |].
  destruct l as [| x l]; simpl; [now rewrite firstn_nil | now rewrite IH].
Qed.

Section Turns.
Variable post :
  ResumeData -> JobPosting -> option Weights -> Outcome (option AtsResponse).
Variable resumeData : ResumeData.
Variable atsWeights : option Weights.
Variable jobsToAnalyze : list JobPosting.

(** After [k] turns the loop has appended the entries of the next [3 * k]
    postings. *)
Lemma batches_turns (k i : nat) (task : Task) :
  t_jobs (batches post k resumeData atsWeights jobsToAnalyze i task) =
    t_jobs task ++ map (scoreJob post resumeData atsWeights)
                       (firstn (3 * k) (skipn i jobsToAnalyze)).
Proof.
  revert i task. induction k as [| k IH]; intros i task.
  - simpl. now rewrite app_nil_r.
  - cbn [batches]. destruct (i <? List.length jobsToAnalyze)%nat eqn:E.
    + rewrite IH. cbn [set_results t_jobs]. rewrite <- app_assoc. f_equal.
      rewrite <- map_app. f_equal. unfold slice, batchSize.
      replace (i + 3 - i) with 3 by lia.
      replace (3 * S k) with (3 + 3 * k) by lia.
      rewrite firstn_add, skipn_skipn. now replace (i + 3) with (3 + i) by lia.
    + apply Nat.ltb_ge in E. rewrite skipn_all2 by lia.
      rewrite firstn_nil. simpl. now rewrite app_nil_r.
Qed.

(** Once a turn has run, the progress is the rounded share of the stored
    results and the count of processed postings is their number. *)
Lemma batches_progress (k i : nat) (task : Task) :
  (i < List.length jobsToAnalyze)%nat ->
  let task' := batches post (S k) resumeData atsWeights jobsToAnalyze i task in
  t_progress task' =
    Math_round (of_nat (List.length (t_jobs task')) /
                of_nat (List.length jobsToAnalyze) * 100)%Q /\
  t_processedJobs task' = List.length (t_jobs task').
Proof.
  revert i task. induction k as [| k IH]; intros i task Hi; cbv zeta.
  - cbn [batches]. apply Nat.ltb_lt in Hi. rewrite Hi. split; reflexivity.
  - change (batches post (S (S k)) resumeData atsWeights jobsToAnalyze i task)
      with (if (i <? List.length jobsToAnalyze)%nat
            then batches post (S k) resumeData atsWeights jobsToAnalyze (i + batchSize)
                   (set_results
                      (t_jobs task ++ map (scoreJob post resumeData atsWeights)
                                          (slice i (i + batchSize) jobsToAnalyze))
                      (List.length (t_jobs task ++ map (scoreJob post resumeData atsWeights)
                                          (slice i (i + batchSize) jobsToAnalyze)))
                      (Math_round
                         (of_nat (List.length
                                    (t_jobs task ++ map (scoreJob post resumeData atsWeights)
                                          (slice i (i + batchSize) jobsToAnalyze))) /
                          of_nat (List.length jobsToAnalyze) * 100)%Q)
                      task)
            else task).
    pose proof Hi as Hi'. apply Nat.ltb_lt in Hi'. rewrite Hi'.
    destruct (Nat.lt_ge_cases (i + batchSize) (List.length jobsToAnalyze)) as [L | G].
    + now apply IH.
    + cbn [batches]. apply Nat.ltb_ge in G. rewrite G. split; reflexivity.
Qed.

End Turns.

Lemma Math_round_le (x y : Q) : (x <= y)%Q -> (Math_round x <= Math_round y)%Z.
Proof. intros H. unfold Math_round. apply Qfloor_resp_le. lra. Qed.

Lemma Math_round_percent (x : Q) : percent x -> (0 <= Math_round x <= 100)%Z.
Proof.
  intros [L U]. split.
  - change 0%Z with (Math_round 0). now apply Math_round_le.
  - change 100%Z with (Math_round 100). now apply Math_round_le.
Qed.

Lemma share_le (a b n : nat) :
  (a <= b)%nat -> (of_nat a / of_nat n * 100 <= of_nat b / of_nat n * 100)%Q.
Proof.
  intros H. apply Qmult_le_compat_r; [| discriminate].
  apply Qmult_le_compat_r.
  - unfold of_nat. rewrite <- Zle_Qle. lia.
  - apply Qinv_le_0_compat. unfold of_nat.
    change 0%Q with (inject_Z 0). rewrite <- Zle_Qle. lia.
Qed.

(** X20.  While the batches of a freshly registered task are processed,
    the progress never goes down and stays between 0 and 100: the value
    after [k + 1] turns of the loop is at least the value after [k] turns. *)
Theorem progress_monotone
    (post : ResumeData -> JobPosting -> option Weights -> Outcome (option AtsResponse))
    (resumeData : ResumeData) (atsWeights : option Weights)
    (jobsToAnalyze : list JobPosting) (task : Task) (k : nat) :
  t_jobs task = [] -> t_progress task = 0%Z ->
  let after n := batches post n resumeData atsWeights jobsToAnalyze 0 task in
  (0 <= t_progress (after k) <= t_progress (after (S k)))%Z /\
  (t_progress (after (S k)) <= 100)%Z.
Proof.
  intros Hj Hp. cbv zeta.
  destruct jobsToAnalyze as [| j0 rest] eqn:El.
  { assert (forall n, batches post n resumeData atsWeights [] 0 task = task) as B
      by (intros [| n]; reflexivity).
    rewrite !B, Hp. lia. }
  rewrite <- El.
  assert (0 < List.length jobsToAnalyze)%nat as Hn by (subst; simpl; lia).
  assert (P : forall n,
             t_progress (batches post (S n) resumeData atsWeights jobsToAnalyze 0 task) =
             Math_round (of_nat (List.length (firstn (3 * S n) jobsToAnalyze)) /
                         of_nat (List.length jobsToAnalyze) * 100)%Q).
  { intros n.
    destruct (batches_progress post resumeData atsWeights jobsToAnalyze n 0 task Hn)
      as [E _].
    rewrite E, batches_turns, Hj. cbn [app skipn]. now rewrite length_map. }
  assert (R : forall n,
             percent (of_nat (List.length (firstn n jobsToAnalyze)) /
                      of_nat (List.length jobsToAnalyze) * 100)%Q).
  { intros n. apply ratio_percent; [rewrite length_firstn; lia | assumption]. }
  split; [| rewrite P; apply Math_round_percent, R].
  destruct k as [| k].
  - change (batches post 0 resumeData atsWeights jobsToAnalyze 0 task) with task.
    rewrite Hp, P. split; [lia | apply Math_round_percent, R].
  - rewrite !P. split; [apply Math_round_percent, R |].
    apply Math_round_le, share_le. rewrite !length_firstn. lia.
Qed.

(** ** Ends of a run *)

Section Runs.
Variable searchJobs :
  string -> string -> Q -> option string -> option string -> Outcome (list JobPosting).
Variable findById : string -> Outcome (option User).
Variable post :
  ResumeData -> JobPosting -> option Weights -> Outcome (option AtsResponse).

Lemma batches_keeps (resumeData : ResumeData) (atsWeights : option Weights)
    (jobsToAnalyze : list JobPosting) (fuel i : nat) (task : Task) :
  let task' := batches post fuel resumeData atsWeights jobsToAnalyze i task in
  t_totalJobs task' = t_totalJobs task /\
  t_statusMessage task' = t_statusMessage task /\
  t_atsAnalyzed task' = t_atsAnalyzed task.
Proof.
  revert i task. induction fuel as [| fuel IH]; intros i task; cbv zeta; [now simpl |].
  cbn [batches]. destruct (i <? List.length jobsToAnalyze)%nat; [| auto].
  match goal with
  | |- context [batches post fuel _ _ _ ?j ?t] => destruct (IH j t) as (-> & -> & ->)
  end.
  auto.
Qed.

(** X21.  A run that analyses the postings of a freshly registered task
    ends with at most 20 results, ordered by descending score; the count of
    processed postings is the number of results, the progress is 100 and the
    total is the number of postings found. *)
Theorem analysed_run_results
    (taskId userId keyword searchLocation resumeId : string)
    (experienceLevel : option Q) (atsWeights : option Weights)
    (company platform : option string) (w : World) (task : Task)
    (allJobs : list JobPosting) (user : option User) (detail : ResumeDetail)
    (resumeData : ResumeData) :
  tasks w !! taskId = Some task ->
  t_jobs task = [] ->
  searchJobs keyword searchLocation (or_num experienceLevel 0) company platform =
    Returns allJobs ->
  allJobs <> [] ->
  resumeId <> "" ->
  findById userId = Returns user ->
  findResume user resumeId = Some detail ->
  rd_resumeData detail = Some resumeData ->
  let w' := processJobSearch searchJobs findById post taskId userId keyword
              searchLocation experienceLevel (Some resumeId) atsWeights company
              platform w in
  exists task',
    tasks w' !! taskId = Some task' /\
    Sorted scoreOrder (t_jobs task') /\
    List.length (t_jobs task') = Nat.min 20 (List.length allJobs) /\
    t_processedJobs task' = List.length (t_jobs task') /\
    t_progress task' = 100%Z /\
    t_totalJobs task' = List.length allJobs /\
    t_atsAnalyzed task' = Some true.
Proof.
  intros Ht Hj Hs Hne Hid Hu Hr Hd. cbv zeta. enter_run Ht Hs.
  destruct allJobs as [| j0 rest]; [congruence |].
  cbn [List.length Nat.eqb].
  assert (truthy (Some resumeId) = true) as ->.
  { simpl. destruct (String.eqb resumeId "") eqn:E; [| reflexivity].
    apply String.eqb_eq in E. congruence. }
  cbn [negb]. rewrite Hu. cbn [or_empty]. rewrite Hr.
  destruct detail as [did dname ddata]. simpl in Hd. subst ddata.
  set (l := slice 0 maxJobs (j0 :: rest)).
  assert (List.length l = S (Nat.min 19 (List.length rest))) as Hl.
  { subst l. unfold slice, maxJobs. cbn [Nat.sub skipn firstn List.length].
    now rewrite length_firstn. }
  match goal with
  | |- context [batches post ?f resumeData atsWeights l 0 ?t] =>
      destruct (batches_spec post resumeData atsWeights l f 0 t) as (Bj & _); [lia |];
      destruct (batches_keeps resumeData atsWeights l f 0 t) as (Bt & _ & _);
      set (t0 := t) in *
  end.
  destruct (batches_progress post resumeData atsWeights l
              (Nat.min 19 (List.length rest)) 0 t0) as [_ Bp]; [lia |].
  rewrite <- Hl in Bp.
  set (b := batches post (List.length l) resumeData atsWeights l 0 t0) in *.
  eexists. split; [cbn [tasks]; apply lookup_insert_eq |].
  cbn [set_atsAnalyzed set_progress set_completed set_jobs set_results
       t_jobs t_processedJobs t_progress t_totalJobs t_atsAnalyzed].
  assert (List.length (t_jobs b) = S (Nat.min 19 (List.length rest))) as Lb.
  { rewrite Bj. subst t0. cbn [set_statusMessage set_found t_jobs]. rewrite Hj.
    cbn [app skipn]. now rewrite length_map. }
  split; [apply sortByScore_order |].
  split; [rewrite (Permutation_length (sortByScore_perm (t_jobs b))), Lb; reflexivity |].
  split; [now rewrite (Permutation_length (sortByScore_perm (t_jobs b))) |].
  split; [reflexivity |]. split; [| reflexivity].
  rewrite Bt. reflexivity.
Qed.

(** X22.  When the job provider fails, the task ends failed and completed
    with the provider's message as its error; its results are untouched and
    no clean-up timer is set. *)
Theorem provider_failure_recorded
    (taskId userId keyword searchLocation : string) (experienceLevel : option Q)
    (resumeId : option string) (atsWeights : option Weights)
    (company platform : option string) (w : World) (task : Task) (message : string) :
  tasks w !! taskId = Some task ->
  searchJobs keyword searchLocation (or_num experienceLevel 0) company platform =
    Throws message ->
  let w' := processJobSearch searchJobs findById post taskId userId keyword
              searchLocation experienceLevel resumeId atsWeights company platform w in
  exists task',
    tasks w' !! taskId = Some task' /\
    t_status task' = failed /\ t_completed task' = true /\
    t_error task' = Some message /\ t_jobs task' = t_jobs task /\
    timers w' = timers w.
Proof.
  intros Ht Hs. cbv zeta.
  unfold processJobSearch. rewrite Ht. unfold runTask. rewrite Hs.
  eexists. split; [cbn [tasks]; apply lookup_insert_eq |]. repeat split.
Qed.

(** X23.  Without a resume id every posting found is returned as it is,
    unscored and uncapped: the task completes with all of them, progress 100
    and [atsAnalyzed] false. *)
Theorem unscored_run_results
    (taskId userId keyword searchLocation : string) (experienceLevel : option Q)
    (resumeId : option string) (atsWeights : option Weights)
    (company platform : option string) (w : World) (task : Task)
    (allJobs : list JobPosting) :
  tasks w !! taskId = Some task ->
  searchJobs keyword searchLocation (or_num experienceLevel 0) company platform =
    Returns allJobs ->
  allJobs <> [] ->
  truthy resumeId = false ->
  let w' := processJobSearch searchJobs findById post taskId userId keyword
              searchLocation experienceLevel resumeId atsWeights company platform w in
  exists task',
    tasks w' !! taskId = Some task' /\
    t_status task' = completed /\ t_completed task' = true /\
    t_jobs task' = map Plain allJobs /\
    t_processedJobs task' = List.length allJobs /\
    t_totalJobs task' = List.length allJobs /\
    t_progress task' = 100%Z /\
    t_atsAnalyzed task' = Some false.
Proof.
  intros Ht Hs Hne Hr. cbv zeta. enter_run Ht Hs.
  destruct allJobs as [| j0 rest]; [congruence |].
  cbn [List.length Nat.eqb]. rewrite Hr. cbn [negb].
  eexists. split; [cbn [tasks]; apply lookup_insert_eq |]. repeat split.
Qed.

(** X24.  A run touches its own task only: the record of every other task
    id is what it was, no pending timer is dropped, the clock is not moved,
    and without a task under its id the run changes nothing at all. *)
Theorem run_touches_own_task
    (taskId userId keyword searchLocation : string) (experienceLevel : option Q)
    (resumeId : option string) (atsWeights : option Weights)
    (company platform : option string) (w : World) :
  let w' := processJobSearch searchJobs findById post taskId userId keyword
              searchLocation experienceLevel resumeId atsWeights company platform w in
  (forall other, other <> taskId -> tasks w' !! other = tasks w !! other) /\
  (forall tm, In tm (timers w) -> In tm (timers w')) /\
  clock w' = clock w /\
  (tasks w !! taskId = None -> w' = w).
Proof.
  cbv zeta. unfold processJobSearch.
  destruct (tasks w !! taskId) as [task |] eqn:Ht; [| repeat split; congruence].
  destruct (runTask searchJobs findById post userId keyword searchLocation
                    experienceLevel resumeId atsWeights company platform task)
    as [task' cleanup].
  cbn [tasks timers clock]. repeat split; try discriminate.
  - intros other Hne. now apply lookup_insert_ne.
  - intros tm Hin. destruct cleanup; [apply in_or_app; now left | assumption].
Qed.

End Runs.

(** ** Polling *)

(** X25.  A task can be polled as soon as it is registered: the poll
    answers 200 with status searching, no progress and no results.  An id
    that was never registered answers 404, and no poll ever reports the
    internal status analyzing. *)
Theorem poll_registered (taskId userId : string) (w : World) :
  (exists body,
     pollJobSearch taskId (registerTask taskId userId w) = Ok200 body /\
     p_status body = searching /\ p_progress body = 0%Z /\
     p_completed body = false /\ p_jobs body = [] /\ p_error body = None) /\
  (forall other, other <> taskId ->
     pollJobSearch other (registerTask taskId userId w) = pollJobSearch other w) /\
  (tasks w !! taskId = None ->
     pollJobSearch taskId w = NotFound404 "Task not found or expired") /\
  (forall id body, pollJobSearch id w = Ok200 body -> p_status body <> analyzing).
Proof.
  split; [| split; [| split]].
  - unfold pollJobSearch, registerTask. cbn [tasks]. rewrite lookup_insert_eq.
    eexists. repeat split.
  - intros other Hne. unfold pollJobSearch, registerTask. cbn [tasks].
    now rewrite lookup_insert_ne.
  - intros H. unfold pollJobSearch. now rewrite H.
  - intros id body. unfold pollJobSearch. destruct (tasks w !! id) as [task |];
      [| discriminate].
    intros E. injection E as <-. cbn [p_status]. now destruct (t_status task).
Qed.

(** A task whose timers are all still ahead is kept. *)
Lemma advance_lookup_early (w : World) (taskId : string) (dt : N) :
  (forall tm, In tm (timers w) -> snd tm = taskId -> (clock w + dt < fst tm)%N) ->
  tasks (advance dt w) !! taskId = tasks w !! taskId.
Proof.
  intros H. unfold advance; cbn [tasks]. rewrite fold_delete_lookup.
  destruct (existsb _ _) eqn:E; [| reflexivity].
  apply existsb_exists in E. destruct E as (tm & Hin & Heq).
  apply filter_In in Hin. destruct Hin as [Hin Hdue].
  apply String.eqb_eq in Heq. apply N.leb_le in Hdue.
  specialize (H tm Hin Heq). lia.
Qed.

(** X26.  A task whose postings were analysed stays pollable for five
    minutes after the run and is gone afterwards: before 300000 ms a poll
    finds it completed, from then on the poll answers 404. *)
Theorem analysed_run_retention
    (searchJobs : string -> string -> Q -> option string -> option string ->
                  Outcome (list JobPosting))
    (findById : string -> Outcome (option User))
    (post : ResumeData -> JobPosting -> option Weights -> Outcome (option AtsResponse))
    (taskId userId keyword searchLocation resumeId : string)
    (experienceLevel : option Q) (atsWeights : option Weights)
    (company platform : option string) (w : World) (task : Task)
    (allJobs : list JobPosting) (user : option User) (detail : ResumeDetail)
    (resumeData : ResumeData) (dt : N) :
  tasks w !! taskId = Some task ->
  (forall tm, In tm (timers w) -> snd tm <> taskId) ->
  searchJobs keyword searchLocation (or_num experienceLevel 0) company platform =
    Returns allJobs ->
  allJobs <> [] ->
  resumeId <> "" ->
  findById userId = Returns user ->
  findResume user resumeId = Some detail ->
  rd_resumeData detail = Some resumeData ->
  let w' := processJobSearch searchJobs findById post taskId userId keyword
              searchLocation experienceLevel (Some resumeId) atsWeights company
              platform w in
  ((dt < 300000)%N ->
     exists body, pollJobSearch taskId (advance dt w') = Ok200 body /\
                  p_completed body = true /\ p_status body = completed) /\
  ((300000 <= dt)%N ->
     pollJobSearch taskId (advance dt w') = NotFound404 "Task not found or expired").
Proof.
  intros Ht Hno Hs Hne Hid Hu Hr Hd. cbv zeta. split.
  - intros Hdt. unfold pollJobSearch. rewrite advance_lookup_early.
    + enter_run Ht Hs.
      destruct allJobs as [| j0 rest]; [congruence |].
      cbn [List.length Nat.eqb].
      assert (truthy (Some resumeId) = true) as ->
        by (simpl; destruct (String.eqb resumeId "") eqn:E;
            [apply String.eqb_eq in E; congruence | reflexivity]).
      cbn [negb]. rewrite Hu. cbn [or_empty]. rewrite Hr.
      destruct detail as [did dname ddata]. simpl in Hd. subst ddata.
      cbn [tasks]. rewrite lookup_insert_eq. eexists. repeat split.
    + enter_run Ht Hs.
      destruct allJobs as [| j0 rest]; [congruence |].
      cbn [List.length Nat.eqb].
      assert (truthy (Some resumeId) = true) as ->
        by (simpl; destruct (String.eqb resumeId "") eqn:E;
            [apply String.eqb_eq in E; congruence | reflexivity]).
      cbn [negb]. rewrite Hu. cbn [or_empty]. rewrite Hr.
      destruct detail as [did dname ddata]. simpl in Hd. subst ddata.
      cbn [timers clock]. intros tm Hin Heq. apply in_app_or in Hin.
      destruct Hin as [Hin | [<- | []]]; [now destruct (Hno tm Hin) |].
      cbn [fst]. unfold retention. lia.
  - intros Hdt.
    now apply (analysed_run_purged searchJobs findById post taskId userId keyword
                 searchLocation resumeId experienceLevel atsWeights company platform
                 w task allJobs user detail resumeData dt).
Qed.

(** ** Role types *)

(** X27.  [determineRoleType] returns one of five role types, each of
    which has a weight table of its own; a posting without an experience
    text is typed intern or fresher whatever its title says. *)
Theorem determineRoleType_known (title experience : option string) :
  In (determineRoleType title experience) roleTypes /\
  (exists w, own weightsMap (determineRoleType title experience) = Some w /\
             getWeights (Some (determineRoleType title experience)) = WObject w) /\
  (truthy experience = false ->
     determineRoleType title experience = "intern" \/
     determineRoleType title experience = "fresher").
Proof.
  unfold determineRoleType, parseExperience.
  destruct (includes _ "intern");
    [split; [simpl; tauto | split; [eexists; split; reflexivity | tauto]] |].
  destruct (truthy experience) eqn:T; cbn [negb].
  - destruct ((_ =? 0)%N || _ || _);
      [split; [simpl; tauto | split; [eexists; split; reflexivity | discriminate]] |].
    destruct (_ || (8 <? _)%N);
      [split; [simpl; tauto | split; [eexists; split; reflexivity | discriminate]] |].
    destruct (_ || _ || (5 <? _)%N);
      split; try (simpl; tauto); split; try discriminate; eexists; split; reflexivity.
  - cbn [N.eqb orb].
    split; [simpl; tauto | split; [eexists; split; reflexivity | tauto]].
Qed.

(** ** The request handler of the job search *)

(** X28.  A refused search request leaves the task registry as it was and
    starts no background run; an accepted one registers exactly one task,
    under the id it returns, for a known user with quota left and a
    non-empty keyword, and a request without a user id is refused with 401
    before anything else is looked at. *)
Theorem searchJobs_outcome
    (findById : string -> Outcome (option User)) (save : User -> Outcome unit)
    (uuid : string) (req : SearchRequest) (w : World) :
  let result := searchJobs findById save uuid req w in
  let response := fst (fst result) in
  let w' := snd (fst result) in
  let background := snd result in
  (forall status message limit error,
     response = Rejected status message limit error -> w' = w /\ background = None) /\
  (forall taskId pollUrl limit,
     response = Accepted202 taskId pollUrl limit ->
     taskId = uuid /\
     w' = registerTask uuid (or_empty (q_userId req)) w /\
     (exists bg, background = Some bg /\ bg_taskId bg = uuid /\ bg_keyword bg <> "" /\
                 bg_searchLocation bg <> "") /\
     (exists user, findById (or_empty (q_userId req)) = Returns (Some user)) /\
     (-1 < limit)%Q) /\
  (truthy (q_userId req) = false ->
     response = Rejected 401 "User authentication required" None None).
Proof.
  cbv zeta. unfold searchJobs.
  destruct (truthy (q_userId req)) eqn:Tu; cbn [negb];
    [| split; [intros; split; reflexivity | split; [discriminate | reflexivity]]].
  split; [| split; [| discriminate]].
  - intros status message limit error.
    destruct (findById _) as [[user |] | e]; cbn [fst snd]; try (intros; split; reflexivity).
    destruct (match u_jobSearchLimit user with Some l => _ | None => _ end) as [l | e];
      cbn [fst snd]; try (intros; split; reflexivity).
    destruct (Qle_bool l 0); cbn [fst snd]; try (intros; split; reflexivity).
    destruct (negb (truthy (q_role req)) && negb (truthy (q_designation req)));
      cbn [fst snd]; [intros; split; reflexivity | discriminate].
  - intros taskId pollUrl limit.
    destruct (findById _) as [[user |] | e]; cbn [fst snd]; try discriminate.
    destruct (match u_jobSearchLimit user with Some l => _ | None => _ end) as [l | e];
      cbn [fst snd]; try discriminate.
    destruct (Qle_bool l 0) eqn:L; cbn [fst snd]; try discriminate.
    destruct (negb (truthy (q_role req)) && negb (truthy (q_designation req))) eqn:K;
      cbn [fst snd]; [discriminate |].
    intros E. injection E as <- _ <-.
    split; [reflexivity |]. split; [reflexivity |].
    split; [| split; [now exists user |]].
    + eexists. split; [reflexivity |]. cbn [bg_taskId bg_keyword bg_searchLocation].
      split; [reflexivity |]. split.
      * unfold or_str. destruct (truthy (q_role req)) eqn:R.
        -- destruct (q_role req) as [r |]; [| discriminate]. simpl in *.
           intros ->. discriminate.
        -- cbn [negb andb] in K. apply negb_false_iff in K.
           destruct (q_designation req) as [d |]; [| discriminate]. simpl in *.
           intros ->. discriminate.
      * unfold or_str. destruct (truthy (q_location req)) eqn:R.
        -- destruct (q_location req) as [r |]; [| discriminate]. simpl in *.
           intros ->. discriminate.
        -- discriminate.
    + assert (~ (l <= 0)%Q) as N by (intros H; apply Qle_bool_iff in H; congruence).
      lra.
Qed.

(** ** Scores of a batch *)

Lemma insertEntry_perm (x : BatchEntry) (l : list BatchEntry) :
  Permutation (insertEntry x l) (x :: l).
Proof.
  induction l as [| y l IH]; simpl; [reflexivity |].
  destruct (Qle_bool (entryKey y) (entryKey x)); [reflexivity |].
  rewrite IH. apply perm_swap.
Qed.

Lemma sortEntries_perm (l : list BatchEntry) : Permutation (sortEntries l) l.
Proof.
  induction l as [| x l IH]; simpl; [reflexivity |].
  rewrite insertEntry_perm. now constructor.
Qed.

Lemma insertEntry_sorted (x : BatchEntry) (l : list BatchEntry) :
  Sorted entryOrder l -> Sorted entryOrder (insertEntry x l).
Proof.
  induction l as [| y r IH]; intros H; simpl; [repeat constructor |].
  destruct (Qle_bool (entryKey y) (entryKey x)) eqn:E.
  - constructor; [assumption |]. constructor. now apply Qle_bool_iff.
  - assert (entryKey x <= entryKey y)%Q as L.
    { destruct (Qlt_le_dec (entryKey x) (entryKey y)) as [L | L]; [lra |].
      apply Qle_bool_iff in L. congruence. }
    inversion H as [| ? ? Hr Hd]; subst.
    constructor; [now apply IH |].
    destruct r as [| z r']; simpl.
    + constructor. exact L.
    + destruct (Qle_bool (entryKey z) (entryKey x)); constructor;
        [exact L | now inversion Hd].
Qed.

Lemma sortEntries_sorted (l : list BatchEntry) : Sorted entryOrder (sortEntries l).
Proof.
  induction l as [| x l IH]; simpl; [constructor | now apply insertEntry_sorted].
Qed.

Lemma nth_error_firstn_Some {A} (n k : nat) (l : list A) (x : A) :
  nth_error (firstn n l) k = Some x -> nth_error l k = Some x.
Proof.
  revert k l. induction n as [| n IH]; intros k l H.
  - destruct k; discriminate.
  - destruct l as [| y l]; [destruct k; discriminate |].
    destruct k as [| k]; [exact H | simpl; apply IH; exact H].
Qed.

Section BatchFacts.
Variable quickScoreIllTyped : Raw Resume -> Raw Job -> Outcome QuickScore.
Variable nullMessage : string.

Lemma scoreOne_index (resume : Raw Resume) (job : BatchJob) (index : nat) :
  e_jobIndex (scoreOne quickScoreIllTyped resume job index) = index.
Proof. unfold scoreOne. destruct (quickScoreRaw _ _ _); reflexivity. Qed.

(** The [map] throws exactly when a member is [null]. *)
Lemma scoreFrom_throws (resume : Raw Resume) (index : nat) (jobs : list BatchItem) :
  match scoreFrom quickScoreIllTyped nullMessage resume index jobs with
  | Returns entries => ~ In ItemNull jobs /\ List.length entries = List.length jobs
  | Throws message => In ItemNull jobs /\ message = nullMessage
  end.
Proof.
  revert index. induction jobs as [| [| job] rest IH]; intros index; simpl.
  - split; [tauto | reflexivity].
  - split; [now left | reflexivity].
  - specialize (IH (S index)).
    destruct (scoreFrom _ _ _ _ rest) as [entries | message].
    + destruct IH as [N L]. split; [| simpl; now rewrite L].
      intros [H | H]; [discriminate | contradiction].
    + destruct IH as [I M]. split; [now right | exact M].
Qed.

Lemma scoreFrom_indices (resume : Raw Resume) (index : nat) (jobs : list BatchItem)
    (entries : list BatchEntry) :
  scoreFrom quickScoreIllTyped nullMessage resume index jobs = Returns entries ->
  map e_jobIndex entries = seq index (List.length jobs).
Proof.
  revert index entries. induction jobs as [| [| job] rest IH]; intros index entries H; simpl in H.
  - injection H as <-. reflexivity.
  - discriminate.
  - destruct (scoreFrom _ _ _ _ rest) as [tail | message] eqn:E; [| discriminate].
    injection H as <-. simpl. rewrite scoreOne_index. f_equal. now apply IH.
Qed.

Lemma scoreFrom_In (resume : Raw Resume) (index : nat) (jobs : list BatchItem)
    (entries : list BatchEntry) (e : BatchEntry) :
  scoreFrom quickScoreIllTyped nullMessage resume index jobs = Returns entries ->
  In e entries ->
  exists job, nth_error jobs (e_jobIndex e - index) = Some (ItemObject job) /\
              (index <= e_jobIndex e)%nat /\
              e = scoreOne quickScoreIllTyped resume job (e_jobIndex e).
Proof.
  revert index entries. induction jobs as [| [| job] rest IH]; intros index entries H Hin;
    simpl in H.
  - injection H as <-. destruct Hin.
  - discriminate.
  - destruct (scoreFrom _ _ _ _ rest) as [tail | message] eqn:E; [| discriminate].
    injection H as <-. destruct Hin as [<- | Hin].
    + exists job. rewrite scoreOne_index, Nat.sub_diag. auto.
    + destruct (IH (S index) tail E Hin) as (job' & Hn & Hi & He).
      exists job'. split; [| split; [lia | exact He]].
      replace (e_jobIndex e - index) with (S (e_jobIndex e - S index)) by lia. exact Hn.
Qed.

(** What an entry holds: the scorer's result for its job, and for a resume
    and a job of the scorer's types their quick score; or the message of
    what the scorer threw, with a score of 0. *)
Lemma scoreOne_result (resume : Raw Resume) (job : BatchJob) (index : nat) :
  match quickScoreRaw quickScoreIllTyped resume (b_job job) with
  | Returns quick =>
      e_result (scoreOne quickScoreIllTyped resume job index) = inl quick /\
      e_company (scoreOne quickScoreIllTyped resume job index) <> None
  | Throws message =>
      e_result (scoreOne quickScoreIllTyped resume job index) = inr message /\
      e_company (scoreOne quickScoreIllTyped resume job index) = None /\
      (entryKey (scoreOne quickScoreIllTyped resume job index) == 0)%Q
  end /\
  forall r j, resume = Typed r -> b_job job = Typed j ->
    e_result (scoreOne quickScoreIllTyped resume job index) = inl (quickScore r j).
Proof.
  split.
  - unfold scoreOne. destruct (quickScoreRaw _ _ _) as [quick | message].
    + split; [reflexivity | discriminate].
    + split; [reflexivity |]. split; reflexivity.
  - intros r j -> Hj. unfold scoreOne, quickScoreRaw. now rewrite Hj.
Qed.

End BatchFacts.

(** X29.  A batch is scored up to its first 50 members.  When one of them
    is [null] the answer is 500.  Otherwise the answer is 200: the scores
    come in descending order, no index occurs twice, and each entry carries
    the index of its job in the request and either what the scorer returned
    for that job, which is its quick score whenever the resume and the job
    are of the scorer's types, or the message of what the scorer threw, with
    a score of 0. *)
Theorem batchScore_results
    (quickScoreIllTyped : Raw Resume -> Raw Job -> Outcome QuickScore)
    (nullMessage : string) (resume : Raw Resume) (jobs : list BatchItem) :
  match batchScore quickScoreIllTyped nullMessage (Some resume) (Some jobs) with
  | BatchBadRequest _ => False
  | BatchFailed message error =>
      In ItemNull (firstn 50 jobs) /\
      message = "Failed to calculate batch scores" /\ error = nullMessage
  | BatchOk totalJobs scoredJobs scores =>
      ~ In ItemNull (firstn 50 jobs) /\
      totalJobs = List.length jobs /\
      scoredJobs = Nat.min 50 (List.length jobs) /\
      List.length scores = scoredJobs /\
      Sorted entryOrder scores /\
      NoDup (map e_jobIndex scores) /\
      forall e, In e scores ->
        exists job,
          nth_error jobs (e_jobIndex e) = Some (ItemObject job) /\
          match quickScoreRaw quickScoreIllTyped resume (b_job job) with
          | Returns quick => e_result e = inl quick /\ e_company e <> None
          | Throws message =>
              e_result e = inr message /\ e_company e = None /\ (entryKey e == 0)%Q
          end /\
          forall r j, resume = Typed r -> b_job job = Typed j ->
                      e_result e = inl (quickScore r j)
  end.
Proof.
  unfold batchScore.
  pose proof (scoreFrom_throws quickScoreIllTyped nullMessage resume 0
                (firstn maxBatchSize jobs)) as T.
  destruct (scoreFrom quickScoreIllTyped nullMessage resume 0 (firstn maxBatchSize jobs))
    as [entries | message] eqn:E.
  - destruct T as [N L]. rewrite length_firstn in L.
    assert (List.length (sortEntries entries) = Nat.min 50 (List.length jobs)) as Ls
      by (rewrite (Permutation_length (sortEntries_perm entries)); exact L).
    split; [exact N |]. split; [reflexivity |]. split; [exact Ls |].
    split; [reflexivity |]. split; [apply sortEntries_sorted |]. split.
    + apply (Permutation_NoDup (l := map e_jobIndex entries)).
      * apply Permutation_map, Permutation_sym, sortEntries_perm.
      * rewrite (scoreFrom_indices _ _ _ _ _ _ E). apply seq_NoDup.
    + intros e H. apply (Permutation_in _ (sortEntries_perm entries)) in H.
      destruct (scoreFrom_In _ _ _ _ _ _ _ E H) as (job & Hn & _ & He).
      rewrite Nat.sub_0_r in Hn. exists job.
      split; [now apply (nth_error_firstn_Some maxBatchSize) |].
      rewrite He. exact (scoreOne_result quickScoreIllTyped resume job (e_jobIndex e)).
  - destruct T as [I M]. split; [exact I |]. split; [reflexivity | exact M].
Qed.

(** ** A search without results *)

(** X30.  When the provider finds nothing and the user can be read, the
    task completes at once with no results, progress 100 and a guidance
    message that carries four suggestions. *)
Theorem zero_results_guidance
    (searchJobs : string -> string -> Q -> option string -> option string ->
                  Outcome (list JobPosting))
    (findById : string -> Outcome (option User))
    (post : ResumeData -> JobPosting -> option Weights -> Outcome (option AtsResponse))
    (taskId userId keyword searchLocation : string) (experienceLevel : option Q)
    (resumeId : option string) (atsWeights : option Weights)
    (company platform : option string) (w : World) (task : Task) (user : option User) :
  tasks w !! taskId = Some task ->
  searchJobs keyword searchLocation (or_num experienceLevel 0) company platform =
    Returns [] ->
  findById userId = Returns user ->
  let w' := processJobSearch searchJobs findById post taskId userId keyword
              searchLocation experienceLevel resumeId atsWeights company platform w in
  exists task' guidance,
    tasks w' !! taskId = Some task' /\
    t_status task' = completed /\ t_completed task' = true /\
    t_jobs task' = [] /\ t_progress task' = 100%Z /\
    t_noJobsMessage task' = Some guidance /\
    List.length (nj_suggestions guidance) = 4%nat.
Proof.
  intros Ht Hs Hu. cbv zeta. enter_run Ht Hs. rewrite Hu.
  eexists. eexists. split; [cbn [tasks]; apply lookup_insert_eq |]. repeat split.
Qed.

(** ** The further properties at sample inputs *)

Lemma text_measures_self_witness :
  (calculateTextSimilarity "python developer" "python developer" == 100)%Q /\
  (calculateKeywordOverlap "python developer" "python developer" == 100)%Q.
Proof.
  apply (proj2 (text_measures_self "python developer")). vm_compute. discriminate.
Defined.

Lemma extractKeywords_shape_witness :
  (3 <= String.length "python")%nat /\ ~ In "python" STOPWORDS /\
  all_chars keyword_char "python" = true.
Proof.
  apply (extractKeywords_shape "Senior Python developer" 3 "python").
  vm_compute. tauto.
Defined.

Lemma matchSkills_empty_resume_witness :
  matchedRequired (matchSkills None (Some ["python"]) None) = [] /\
  matchedPreferred (matchSkills None (Some ["python"]) None) = [] /\
  totalMatched (matchSkills None (Some ["python"]) None) = 0%nat /\
  (requiredMatchPercentage (matchSkills None (Some ["python"]) None) == 0)%Q /\
  (preferredMatchPercentage (matchSkills None (Some ["python"]) None) == 0)%Q /\
  (overallSkillScore (matchSkills None (Some ["python"]) None) == 0)%Q.
Proof.
  apply (matchSkills_empty_resume None (Some ["python"]) None). simpl. tauto.
Defined.

Lemma matchSkills_same_list_witness :
  (requiredMatchPercentage
     (matchSkills (Some ["Python"; "JS"]) (Some ["Python"; "JS"]) None) == 100)%Q.
Proof.
  apply (proj2 (matchSkills_same_list ["Python"; "JS"] None)). vm_compute. discriminate.
Defined.

Lemma checkEducation_more_entries_witness :
  _checkEducation None (degreeEntries ++ schoolEntries) (Some "Bachelor degree") = true.
Proof.
  apply (checkEducation_more_entries None degreeEntries schoolEntries
           (Some "Bachelor degree")).
  vm_compute. reflexivity.
Defined.

Lemma checkEducation_phd_witness :
  _checkEducation (Some "PhD in Physics") [] (Some "Master of Science") = true.
Proof.
  apply (checkEducation_phd "PhD in Physics" [] (Some "Master of Science")).
  vm_compute. reflexivity.
Defined.

Lemma subscores_percent_witness :
  percent (_scoreSkills (pythonResume (Some 5%Q)) (pythonJob (Some 3%Q))) /\
  percent (_scoreExperience (pythonResume (Some 5%Q)) (pythonJob (Some 3%Q))) /\
  percent (_scoreProjects (pythonResume (Some 5%Q)) (pythonJob (Some 3%Q))) /\
  percent (_scoreKeywords (pythonResume (Some 5%Q)) (pythonJob (Some 3%Q))) /\
  percent (_scoreSummary (pythonResume (Some 5%Q)) (pythonJob (Some 3%Q))) /\
  percent (_scoreEducation (pythonResume (Some 5%Q)) (pythonJob (Some 3%Q))).
Proof.
  apply (subscores_percent (pythonResume (Some 5%Q)) (pythonJob (Some 3%Q))).
  vm_compute. discriminate.
Defined.

Lemma analyze_overall_percent_witness :
  num_percent (overallMatchPercentage
                 (analyze "2024-01-01T00:00:00.000Z" (pythonResume (Some 5%Q))
                          (pythonJob (Some 3%Q)) None)).
Proof.
  apply (analyze_overall_percent "2024-01-01T00:00:00.000Z" (pythonResume (Some 5%Q))
           (pythonJob (Some 3%Q)) None).
  - vm_compute. discriminate.
  - discriminate.
  - intros _ name. vm_compute. discriminate.
Defined.

Lemma progress_monotone_witness :
  (0 <= t_progress (batches failsOnSecond 1 {| document := "python developer" |} None
                            fiveJobs 0 (newTask "user-1" 0))
     <= t_progress (batches failsOnSecond 2 {| document := "python developer" |} None
                            fiveJobs 0 (newTask "user-1" 0)))%Z /\
  (t_progress (batches failsOnSecond 2 {| document := "python developer" |} None
                       fiveJobs 0 (newTask "user-1" 0)) <= 100)%Z.
Proof.
  apply (progress_monotone failsOnSecond {| document := "python developer" |} None
           fiveJobs (newTask "user-1" 0) 1); reflexivity.
Defined.

Lemma analysed_run_results_witness :
  exists task',
    tasks (runSearch (providerFinds fiveJobs) (Some "resume-1")) !! "task-1" = Some task' /\
    Sorted scoreOrder (t_jobs task') /\
    List.length (t_jobs task') = 5%nat /\
    t_processedJobs task' = List.length (t_jobs task') /\
    t_progress task' = 100%Z /\
    t_totalJobs task' = 5%nat /\
    t_atsAnalyzed task' = Some true.
Proof.
  apply (analysed_run_results (providerFinds fiveJobs) userFound failsOnSecond
           "task-1" "user-1" "python developer" "India" "resume-1" None None None None
           started (newTask "user-1" 0) fiveJobs (Some storedUser) mainResume
           {| document := "python developer" |});
    [ vm_compute; reflexivity | reflexivity | reflexivity | discriminate | discriminate
    | reflexivity | reflexivity | reflexivity ].
Defined.

Lemma provider_failure_recorded_witness :
  exists task',
    tasks (runSearch providerDown None) !! "task-1" = Some task' /\
    t_status task' = failed /\ t_completed task' = true /\
    t_error task' = Some "JSearch API authentication failed" /\
    t_jobs task' = [] /\
    timers (runSearch providerDown None) = [].
Proof.
  apply (provider_failure_recorded providerDown userFound failsOnSecond
           "task-1" "user-1" "python developer" "India" None None None None None
           started (newTask "user-1" 0) "JSearch API authentication failed");
    [vm_compute; reflexivity | reflexivity].
Defined.

Lemma unscored_run_results_witness :
  exists task',
    tasks (runSearch (providerFinds fiveJobs) None) !! "task-1" = Some task' /\
    t_status task' = completed /\ t_completed task' = true /\
    t_jobs task' = map Plain fiveJobs /\
    t_processedJobs task' = 5%nat /\
    t_totalJobs task' = 5%nat /\
    t_progress task' = 100%Z /\
    t_atsAnalyzed task' = Some false.
Proof.
  apply (unscored_run_results (providerFinds fiveJobs) userFound failsOnSecond
           "task-1" "user-1" "python developer" "India" None None None None None
           started (newTask "user-1" 0) fiveJobs);
    [vm_compute; reflexivity | reflexivity | discriminate | reflexivity].
Defined.

Lemma run_touches_own_task_witness :
  processJobSearch (providerFinds fiveJobs) userFound failsOnSecond
    "task-1" "user-1" "python developer" "India" None None None None None idle = idle.
Proof.
  apply (proj2 (proj2 (proj2
           (run_touches_own_task (providerFinds fiveJobs) userFound failsOnSecond
              "task-1" "user-1" "python developer" "India" None None None None None
              idle)))).
  reflexivity.
Defined.

Lemma poll_registered_witness :
  pollJobSearch "task-1" idle = NotFound404 "Task not found or expired".
Proof.
  apply (proj1 (proj2 (proj2 (poll_registered "task-1" "user-1" idle)))). reflexivity.
Defined.

Lemma analysed_run_retention_witness :
  exists body,
    pollJobSearch "task-1"
      (advance 1000 (runSearch (providerFinds fiveJobs) (Some "resume-1"))) = Ok200 body /\
    p_completed body = true /\ p_status body = completed.
Proof.
  apply (proj1 (analysed_run_retention (providerFinds fiveJobs) userFound failsOnSecond
           "task-1" "user-1" "python developer" "India" "resume-1" None None None None
           started (newTask "user-1" 0) fiveJobs (Some storedUser) mainResume
           {| document := "python developer" |} 1000
           ltac:(vm_compute; reflexivity) ltac:(intros tm []) eq_refl
           ltac:(discriminate) ltac:(discriminate) eq_refl eq_refl eq_refl)).
  reflexivity.
Defined.

Lemma determineRoleType_known_witness :
  determineRoleType (Some "Backend Developer") None = "intern" \/
  determineRoleType (Some "Backend Developer") None = "fresher".
Proof.
  apply (proj2 (proj2 (determineRoleType_known (Some "Backend Developer") None))).
  reflexivity.
Defined.

Lemma searchJobs_outcome_witness :
  fst (fst (searchJobs userFound saved "task-1" anonymousRequest idle)) =
    Rejected 401 "User authentication required" None None.
Proof.
  apply (proj2 (proj2 (searchJobs_outcome userFound saved "task-1" anonymousRequest idle))).
  reflexivity.
Defined.

Lemma zero_results_guidance_witness :
  exists task' guidance,
    tasks (runSearch (providerFinds []) None) !! "task-1" = Some task' /\
    t_status task' = completed /\ t_completed task' = true /\
    t_jobs task' = [] /\ t_progress task' = 100%Z /\
    t_noJobsMessage task' = Some guidance /\
    List.length (nj_suggestions guidance) = 4%nat.
Proof.
  apply (zero_results_guidance (providerFinds []) userFound failsOnSecond
           "task-1" "user-1" "python developer" "India" None None None None None
           started (newTask "user-1" 0) (Some storedUser));
    [vm_compute; reflexivity | reflexivity | reflexivity].
Defined.
